(** * WilliamBoard: the moderation / geocoding / promotion pipeline

    A shallow embedding of the Go back end (package [services], package
    [handlers], package [models], package [config]) and the properties
    of its pipeline.

    Conventions of the embedding.
    - Go [string] is [string] (a sequence of bytes).  The functions of
      Go's [strings] package are modelled on the ASCII range: bytes
      above 127 are neither letters nor white space.
    - Go [float64] is [Q].  Every float constant of the source is a
      finite decimal and the code only adds, multiplies and compares
      them, so the model is the exact arithmetic the source text
      denotes; binary64 rounding is outside the model (the corners
      the properties rest on are evaluated in binary64 at the end).
    - [map[string]interface{}] is [gmap string JSON]; a JSON text held
      in a [jsonb] column is kept decoded, [None] standing for a text
      that [json.Unmarshal] rejects.
    - The relational store is a record of tables, each a list of rows
      in insertion order.  [uuid.New()] draws from a counter.  The
      bookkeeping columns [created_at] / [updated_at] are left out.
      The store answers every statement: the only refusal is the one
      of the unique index on [events.canonical_key].
    - [time.Now()] is a parameter [now] of every function that reads
      the clock; one call of a handler sees one clock reading.
    - An external capability (the chat completion call, the Mapbox
      HTTP exchange) is a parameter carrying its outcome. *)

From Stdlib Require Import ZArith QArith Lqa Lia String Ascii List Bool.
From Stdlib Require Import DecimalString.
From Corelib Require PrimFloat.
From stdpp Require Import gmap strings list.
Import ListNotations.

Local Open Scope string_scope.
Local Open Scope Z_scope.

(* ===================================================================== *)
(** ** Go's [strings] package, on ASCII *)
(* ===================================================================== *)

Module GoStrings.

Definition code (c : ascii) : N := N_of_ascii c.

Definition isUpper (c : ascii) : bool :=
  (65 <=? code c)%N && (code c <=? 90)%N.

Definition lowerByte (c : ascii) : ascii :=
  if isUpper c then ascii_of_N (code c + 32) else c.

(** [unicode.IsSpace] restricted to ASCII: \t \n \v \f \r and space. *)
Definition isSpace (c : ascii) : bool :=
  ((9 <=? code c)%N && (code c <=? 13)%N) || (code c =? 32)%N.

Fixpoint ToLower (s : string) : string :=
  match s with
  | EmptyString => EmptyString
  | String c r => String (lowerByte c) (ToLower r)
  end.

Fixpoint TrimLeft (s : string) : string :=
  match s with
  | EmptyString => EmptyString
  | String c r => if isSpace c then TrimLeft r else s
  end.

Fixpoint TrimRight (s : string) : string :=
  match s with
  | EmptyString => EmptyString
  | String c r =>
      match TrimRight r with
      | EmptyString => if isSpace c then EmptyString else String c EmptyString
      | r' => String c r'
      end
  end.

Definition TrimSpace (s : string) : string := TrimRight (TrimLeft s).

Definition HasPrefix (s p : string) : bool := String.prefix p s.

Fixpoint Contains (s sub : string) : bool :=
  HasPrefix s sub ||
  match s with
  | EmptyString => false
  | String _ r => Contains r sub
  end.

(** [strings.Fields]: the maximal runs of non-space bytes.  [cur] is
    the run being read, in reverse. *)
Fixpoint fieldsFrom (cur : list ascii) (s : string) : list string :=
  match s with
  | EmptyString =>
      match cur with
      | [] => []
      | _ => [string_of_list_ascii (rev cur)]
      end
  | String c r =>
      if isSpace c then
        match cur with
        | [] => fieldsFrom [] r
        | _ => string_of_list_ascii (rev cur) :: fieldsFrom [] r
        end
      else fieldsFrom (c :: cur) r
  end.

Definition Fields (s : string) : list string := fieldsFrom [] s.


End GoStrings.

(* ===================================================================== *)
(** ** Decoded JSON values ([interface{}] after [json.Unmarshal]) *)
(* ===================================================================== *)

#[local] Unset Elimination Schemes.
Inductive JSON : Type :=
| JNull
| JBool (b : bool)
| JNumber (q : Q)
| JString (s : string)
| JArray (l : list JSON)
| JObject (l : list (string * JSON)).
#[local] Set Elimination Schemes.

(** The type assertion [v.(string)] on a map lookup: [Some s] when the
    key is present and holds a string. *)
Definition asString (v : option JSON) : option string :=
  match v with
  | Some (JString s) => Some s
  | _ => None
  end.

(** [if s, ok := m[k].(string); ok && s != ""]: the non-empty string
    under [k], if any. *)
Definition nonEmptyString (m : gmap string JSON) (k : string) : option string :=
  match asString (m !! k) with
  | Some s => if String.eqb s "" then None else Some s
  | None => None
  end.

(** Go's [error] results. *)
Inductive result (A : Type) : Type :=
| Ok (a : A)
| Err (msg : string).
Arguments Ok {A} a.
Arguments Err {A} msg.


(* ===================================================================== *)
(** ** Go's [time] package: instants, civil dates, [Parse], [Format] *)
(* ===================================================================== *)

Module time.

(** A [time.Time]: nanoseconds since the Unix epoch, and the offset of
    its location in seconds east of UTC (0 for a parsed time, the
    server's zone for [time.Now()]). *)
Record Time : Type := mkTime { unixNano : Z; zoneOffset : Z }.

Definition Second : Z := 1000000000.
Definition Hour : Z := 3600 * Second.

Definition Before (t u : Time) : bool := unixNano t <? unixNano u.

Definition Add (t : Time) (d : Z) : Time :=
  mkTime (unixNano t + d) (zoneOffset t).

(** Days since 1970-01-01 of a proleptic Gregorian date.  A day beyond
    the end of the month runs into the next one, as in [time.Date]. *)
Definition daysFromCivil (y m d : Z) : Z :=
  let y' := if m <=? 2 then y - 1 else y in
  let era := y' / 400 in
  let yoe := y' - era * 400 in
  let mp := if m <=? 2 then m + 9 else m - 3 in
  let doy := (153 * mp + 2) / 5 + d - 1 in
  let doe := yoe * 365 + yoe / 4 - yoe / 100 + doy in
  era * 146097 + doe - 719468.

Definition civilFromDays (z : Z) : Z * Z * Z :=
  let z' := z + 719468 in
  let era := z' / 146097 in
  let doe := z' - era * 146097 in
  let yoe := (doe - doe / 1460 + doe / 36524 - doe / 146096) / 365 in
  let doy := doe - (365 * yoe + yoe / 4 - yoe / 100) in
  let mp := (5 * doy + 2) / 153 in
  let d := doy - (153 * mp + 2) / 5 + 1 in
  let m := if mp <? 10 then mp + 3 else mp - 9 in
  ((if m <=? 2 then yoe + era * 400 + 1 else yoe + era * 400), m, d).

(** Seconds since the epoch on the wall clock of the time's location. *)
Definition localSeconds (t : Time) : Z := unixNano t / Second + zoneOffset t.

(** [t.Date()] *)
Definition DateOf (t : Time) : Z * Z * Z := civilFromDays (localSeconds t / 86400).

(** [time.Date(year, month, day, hour, min, sec, nsec, loc)] *)
Definition Date (y m d hh mi ss ns off : Z) : Time :=
  mkTime ((daysFromCivil y m d * 86400 + hh * 3600 + mi * 60 + ss - off) * Second + ns) off.

(** [t.AddDate(years, 0, 0)]: the same wall-clock reading [years]
    later, normalised by [Date]. *)
Definition AddDate (t : Time) (years : Z) : Time :=
  let '(y, m, d) := DateOf t in
  let sod := localSeconds t mod 86400 in
  Date (y + years) m d (sod / 3600) (sod mod 3600 / 60) (sod mod 60)
       (unixNano t mod Second) (zoneOffset t).

Definition isLeap (y : Z) : bool :=
  (y mod 4 =? 0) && (negb (y mod 100 =? 0) || (y mod 400 =? 0)).

Definition daysIn (m y : Z) : Z :=
  if m =? 2 then (if isLeap y then 29 else 28)
  else if (m =? 4) || (m =? 6) || (m =? 9) || (m =? 11) then 30 else 31.

(** *** Printing: [appendInt] and the layout ["2006-01-02"] *)

Definition digits (n : Z) : string := NilZero.string_of_uint (N.to_uint (Z.to_N n)).

Fixpoint zeros (n : nat) : string :=
  match n with
  | O => ""
  | S k => String "0" (zeros k)
  end.

Definition appendInt (x : Z) (width : nat) : string :=
  let u := digits (Z.abs x) in
  (if x <? 0 then "-" else "") ++ zeros (width - String.length u) ++ u.

(** [t.Format("2006-01-02")] *)
Definition FormatDate (t : Time) : string :=
  let '(y, m, d) := DateOf t in
  appendInt y 4 ++ "-" ++ appendInt m 2 ++ "-" ++ appendInt d 2.

(** *** Parsing: [time.Parse]

    The layout verbs recognised are the ones that occur in the layouts
    of the two handlers: ["2006"], ["01"], ["02"], ["15"], ["04"],
    ["05"], ["January"], ["Jan"] and ["2"].  A parsed time is in UTC. *)

Inductive Std : Type :=
| stdNone | stdLongMonth | stdMonth | stdZeroMonth | stdDay | stdZeroDay
| stdHour | stdZeroMinute | stdZeroSecond | stdLongYear.

Fixpoint dropStr (n : nat) (s : string) : string :=
  match n, s with
  | S k, String _ r => dropStr k r
  | _, _ => s
  end.

Definition isDigitByte (c : ascii) : bool :=
  (48 <=? N_of_ascii c)%N && (N_of_ascii c <=? 57)%N.

Definition isLowerByte (c : ascii) : bool :=
  (97 <=? N_of_ascii c)%N && (N_of_ascii c <=? 122)%N.

Definition startsWithLowerCase (s : string) : bool :=
  match s with
  | String c _ => isLowerByte c
  | EmptyString => false
  end.

(** The verb that starts at the head of [layout], with its length:
    one position of the scan of [nextStdChunk]. *)
Definition stdAt (layout : string) : option (Std * nat) :=
  if String.prefix "January" layout then Some (stdLongMonth, 7%nat)
  else if String.prefix "Jan" layout && negb (startsWithLowerCase (dropStr 3 layout))
       then Some (stdMonth, 3%nat)
  else if String.prefix "01" layout then Some (stdZeroMonth, 2%nat)
  else if String.prefix "02" layout then Some (stdZeroDay, 2%nat)
  else if String.prefix "04" layout then Some (stdZeroMinute, 2%nat)
  else if String.prefix "05" layout then Some (stdZeroSecond, 2%nat)
  else if String.prefix "15" layout then Some (stdHour, 2%nat)
  else if String.prefix "2006" layout then Some (stdLongYear, 4%nat)
  else if String.prefix "2" layout then Some (stdDay, 1%nat)
  else None.

(** [nextStdChunk] iterated: the layout as literal prefixes, each
    followed by a verb; the last chunk has the verb [stdNone].  [pass]
    counts the bytes of the current verb still to pass, [lit] is the
    literal being read, in reverse. *)
Fixpoint stdChunks (pass : nat) (lit : list ascii) (layout : string)
  : list (string * Std) :=
  match layout with
  | EmptyString => [(string_of_list_ascii (rev lit), stdNone)]
  | String c rest =>
      match pass with
      | S k => stdChunks k lit rest
      | O =>
          match stdAt layout with
          | Some (std, len) =>
              (string_of_list_ascii (rev lit), std) :: stdChunks (len - 1) [] rest
          | None => stdChunks 0 (c :: lit) rest
          end
      end
  end.

Fixpoint cutspace (s : string) : string :=
  match s with
  | String " " r => cutspace r
  | _ => s
  end.

(** [skip(value, prefix)]: the literal [prefix] taken off [value]; a
    run of spaces in the layout stands for any run of spaces in the
    value.  [inSpaces] holds while the spaces of the prefix that follow
    a first one are passed. *)
Fixpoint skip (inSpaces : bool) (value prefix : string) : option string :=
  match prefix with
  | EmptyString => Some value
  | String " " p =>
      if inSpaces then skip true value p
      else
        match value with
        | EmptyString => skip true value p
        | String v _ =>
            if Ascii.eqb v " " then skip true (cutspace value) p else None
        end
  | String c p =>
      match value with
      | String v r => if Ascii.eqb v c then skip false r p else None
      | EmptyString => None
      end
  end.

Definition digitVal (c : ascii) : Z := Z.of_N (N_of_ascii c) - 48.

(** [getnum(s, fixed)]: one or two leading digits, exactly two when
    [fixed]. *)
Definition getnum (s : string) (fixed : bool) : option (Z * string) :=
  match s with
  | String a r =>
      if isDigitByte a then
        match r with
        | String b r' =>
            if isDigitByte b then Some (digitVal a * 10 + digitVal b, r')
            else if fixed then None else Some (digitVal a, r)
        | EmptyString => if fixed then None else Some (digitVal a, r)
        end
      else None
  | EmptyString => None
  end.

(** The leading digits of [s], read as a number with [acc] in front,
    and what follows them. *)
Fixpoint leadingDigits (acc : Z) (n : nat) (s : string) : Z * nat * string :=
  match s with
  | String c r =>
      if isDigitByte c then leadingDigits (acc * 10 + digitVal c) (S n) r
      else (acc, n, s)
  | EmptyString => (acc, n, s)
  end.

(** The four digits of the verb ["2006"]. *)
Definition getyear (s : string) : option (Z * string) :=
  match s with
  | String a (String b (String c (String d r))) =>
      if isDigitByte a && isDigitByte b && isDigitByte c && isDigitByte d then
        Some (((digitVal a * 10 + digitVal b) * 10 + digitVal c) * 10 + digitVal d, r)
      else None
  | _ => None
  end.

(** [match(s1, s2)]: equal up to the case of ASCII letters. *)
Definition matchByte (c1 c2 : ascii) : bool :=
  Ascii.eqb c1 c2 ||
  (let l1 := N.lor (N_of_ascii c1) 32 in
   let l2 := N.lor (N_of_ascii c2) 32 in
   (l1 =? l2)%N && (97 <=? l1)%N && (l1 <=? 122)%N).

Fixpoint matchPrefix (name val : string) : option string :=
  match name with
  | EmptyString => Some val
  | String c n =>
      match val with
      | String v r => if matchByte v c then matchPrefix n r else None
      | EmptyString => None
      end
  end.

(** [lookup(tab, val)]: the index of the first name of [tab] that
    starts [val], counted from [i]. *)
Fixpoint lookup (tab : list string) (i : Z) (val : string) : option (Z * string) :=
  match tab with
  | [] => None
  | name :: tab' =>
      match matchPrefix name val with
      | Some r => Some (i, r)
      | None => lookup tab' (i + 1) val
      end
  end.

Definition longMonthNames : list string :=
  ["January"; "February"; "March"; "April"; "May"; "June"; "July";
   "August"; "September"; "October"; "November"; "December"].

Definition shortMonthNames : list string :=
  ["Jan"; "Feb"; "Mar"; "Apr"; "May"; "Jun"; "Jul"; "Aug"; "Sep"; "Oct";
   "Nov"; "Dec"].

Record Fields : Type := mkFields
  { fYear : Z; fMonth : Z; fDay : Z; fHour : Z; fMin : Z; fSec : Z; fNsec : Z }.

Definition commaOrPeriod (c : ascii) : bool := Ascii.eqb c "." || Ascii.eqb c ",".

Fixpoint pow10 (n : nat) : Z :=
  match n with
  | O => 1
  | S k => 10 * pow10 k
  end.

(** A fractional second in the value after the verb ["05"], which no
    layout of the model announces: all its digits are taken off, the
    first nine count ([parseNanoseconds]). *)
Definition fraction (value : string) : Z * string :=
  match value with
  | String sep (String d r) =>
      if commaOrPeriod sep && isDigitByte d then
        let '(_, n, rest) := leadingDigits 0 0 (String d r) in
        let '(ns, k, _) :=
          leadingDigits 0 0 (String.substring 0 (Nat.min n 9) (String d r)) in
        (ns * pow10 (9 - k), rest)
      else (0, value)
  | _ => (0, value)
  end.

(** One verb of the layout read off the value. *)
Definition parseStd (std : Std) (value : string) (f : Fields)
  : option (Fields * string) :=
  match std with
  | stdNone => None
  | stdLongYear =>
      match getyear value with
      | Some (y, r) => Some (mkFields y (fMonth f) (fDay f) (fHour f) (fMin f) (fSec f) (fNsec f), r)
      | None => None
      end
  | stdLongMonth =>
      match lookup longMonthNames 1 value with
      | Some (m, r) => Some (mkFields (fYear f) m (fDay f) (fHour f) (fMin f) (fSec f) (fNsec f), r)
      | None => None
      end
  | stdMonth =>
      match lookup shortMonthNames 1 value with
      | Some (m, r) => Some (mkFields (fYear f) m (fDay f) (fHour f) (fMin f) (fSec f) (fNsec f), r)
      | None => None
      end
  | stdZeroMonth =>
      match getnum value true with
      | Some (m, r) =>
          if (m <=? 0) || (12 <? m) then None
          else Some (mkFields (fYear f) m (fDay f) (fHour f) (fMin f) (fSec f) (fNsec f), r)
      | None => None
      end
  | stdDay | stdZeroDay =>
      match getnum value (match std with stdZeroDay => true | _ => false end) with
      | Some (d, r) => Some (mkFields (fYear f) (fMonth f) d (fHour f) (fMin f) (fSec f) (fNsec f), r)
      | None => None
      end
  | stdHour =>
      match getnum value false with
      | Some (h, r) =>
          if 24 <=? h then None
          else Some (mkFields (fYear f) (fMonth f) (fDay f) h (fMin f) (fSec f) (fNsec f), r)
      | None => None
      end
  | stdZeroMinute =>
      match getnum value true with
      | Some (m, r) =>
          if 60 <=? m then None
          else Some (mkFields (fYear f) (fMonth f) (fDay f) (fHour f) m (fSec f) (fNsec f), r)
      | None => None
      end
  | stdZeroSecond =>
      match getnum value true with
      | Some (s, r) =>
          if 60 <=? s then None
          else
            let '(ns, r') := fraction r in
            Some (mkFields (fYear f) (fMonth f) (fDay f) (fHour f) (fMin f) s ns, r')
      | None => None
      end
  end.

(** The loop of [Parse] over the chunks of the layout. *)
Fixpoint parseChunks (cs : list (string * Std)) (value : string) (f : Fields)
  : option Fields :=
  match cs with
  | [] => None
  | (prefix, std) :: cs' =>
      match skip false value prefix with
      | None => None
      | Some value' =>
          match std with
          | stdNone => if String.eqb value' "" then Some f else None
          | _ =>
              match parseStd std value' f with
              | Some (f', value'') => parseChunks cs' value'' f'
              | None => None
              end
          end
      end
  end.

(** [time.Parse(layout, value)]; [None] is a parse error. *)
Definition Parse (layout value : string) : option Time :=
  match parseChunks (stdChunks 0 [] layout) value (mkFields 0 (-1) (-1) 0 0 0 0) with
  | Some f =>
      let month := if fMonth f <? 0 then 1 else fMonth f in
      let day := if fDay f <? 0 then 1 else fDay f in
      if (day <? 1) || (daysIn month (fYear f) <? day) then None
      else Some (Date (fYear f) month day (fHour f) (fMin f) (fSec f) (fNsec f) 0)
  | None => None
  end.

End time.

(* ===================================================================== *)
(** ** package config *)
(* ===================================================================== *)

Module config.

Record Config : Type := mkConfig
  { DatabaseURL : string;
    OpenAIAPIKey : string;
    OpenAIModel : string;
    Geocoder : string;
    GeocoderAPIKey : string;
    AutoPublishEnabled : bool;
    AutoPublishThreshold : Q;
    GeoConfThreshold : Q }.

(** The process environment, as [Load] reads it.  A numeric or boolean
    variable is [None] when it is unset, empty or does not parse. *)
Record Environ : Type := mkEnviron
  { DATABASE_URL : string;
    OPENAI_API_KEY : string;
    OPENAI_MODEL : string;
    GEOCODER : string;
    GEOCODER_API_KEY : string;
    AUTO_PUBLISH_ENABLED : option bool;
    AUTO_PUBLISH_THRESHOLD : option Q;
    GEO_CONF_THRESHOLD : option Q }.

Definition getEnv (value defaultValue : string) : string :=
  if String.eqb value "" then defaultValue else value.

Definition getEnvFloat (value : option Q) (defaultValue : Q) : Q :=
  match value with
  | Some floatValue => floatValue
  | None => defaultValue
  end.

Definition getEnvBool (value : option bool) (defaultValue : bool) : bool :=
  match value with
  | Some boolValue => boolValue
  | None => defaultValue
  end.

Definition Validate (c : Config) : result unit :=
  if String.eqb (GoStrings.TrimSpace (DatabaseURL c)) "" then
    Err "required environment variable DATABASE_URL is not set"
  else if String.eqb (GoStrings.TrimSpace (OpenAIAPIKey c)) "" then
    Err "required environment variable OPENAI_API_KEY is not set"
  else Ok tt.

Definition Load (env : Environ) : result Config :=
  let cfg :=
    {| DatabaseURL := getEnv (DATABASE_URL env) "";
       OpenAIAPIKey := getEnv (OPENAI_API_KEY env) "";
       OpenAIModel := getEnv (OPENAI_MODEL env) "gpt-4o";
       Geocoder := getEnv (GEOCODER env) "mapbox";
       GeocoderAPIKey := getEnv (GEOCODER_API_KEY env) "";
       AutoPublishEnabled := getEnvBool (AUTO_PUBLISH_ENABLED env) true;
       AutoPublishThreshold := getEnvFloat (AUTO_PUBLISH_THRESHOLD env) 0.80;
       GeoConfThreshold := getEnvFloat (GEO_CONF_THRESHOLD env) 0.75 |} in
  match Validate cfg with
  | Err e => Err ("config validation failed: " ++ e)
  | Ok _ => Ok cfg
  end.

End config.

(* ===================================================================== *)
(** ** package services: moderation *)
(* ===================================================================== *)

Module services.

Record ModerationResult : Type := mkModerationResult
  { QualityScore : Q;
    IsAppropriate : bool;
    ModerationReason : option string;
    ConfidenceFactors : gmap string Q }.

Record QualityFactors : Type := mkQualityFactors
  { EventDetailsComplete : Q;
    DateTimeConfidence : Q;
    VenueConfidence : Q;
    ContactInfoPresent : Q;
    ProfessionalLookng : Q;
    TextReadability : Q }.

(** The struct [moderationData] the classifier's reply is decoded to. *)
Record ModerationData : Type := mkModerationData
  { mdQualityFactors : QualityFactors;
    mdIsAppropriate : bool;
    mdModerationReason : option string }.

(** What [CreateChatCompletion] gave: an error (transport failure,
    API error, or the deadline of [ctx] passed), a reply without
    choices, or the content of the first choice; the content is held
    decoded, [None] when [json.Unmarshal] rejects it. *)
Inductive Completion : Type :=
| CallFailed (err : string)
| NoChoices
| Content (decoded : option ModerationData).

(** [m[k]] on a [map[string]float64]: the zero value when absent. *)
Definition at_ (m : gmap string Q) (k : string) : Q := default 0%Q (m !! k).

Definition weights : gmap string Q :=
  <["event_details" := 0.25%Q]> (
  <["datetime" := 0.20%Q]> (
  <["venue" := 0.20%Q]> (
  <["contact" := 0.15%Q]> (
  <["professional" := 0.15%Q]> (
  <["readability" := 0.05%Q]> ∅))))).

Definition calculateQualityScore (factors : QualityFactors) : Q :=
  (EventDetailsComplete factors * at_ weights "event_details" +
   DateTimeConfidence factors * at_ weights "datetime" +
   VenueConfidence factors * at_ weights "venue" +
   ContactInfoPresent factors * at_ weights "contact" +
   ProfessionalLookng factors * at_ weights "professional" +
   TextReadability factors * at_ weights "readability")%Q.

(** [if v, ok := eventData[k].(string); ok && strings.TrimSpace(v) != ""] *)
Definition present (eventData : gmap string JSON) (k : string) : bool :=
  match asString (eventData !! k) with
  | Some v => negb (String.eqb (GoStrings.TrimSpace v) "")
  | None => false
  end.

Definition mockModerationResult (eventData : gmap string JSON) : ModerationResult :=
  let qualityScore := 0.75%Q in
  let qualityScore :=
    if present eventData "title" then (qualityScore + 0.1)%Q else qualityScore in
  let qualityScore :=
    if present eventData "venue" then (qualityScore + 0.05)%Q else qualityScore in
  let qualityScore :=
    if present eventData "date" then (qualityScore + 0.05)%Q else qualityScore in
  let qualityScore :=
    if Qlt_le_dec 1.0 qualityScore then 1.0%Q else qualityScore in
  {| QualityScore := qualityScore;
     IsAppropriate := true;
     ModerationReason := None;
     ConfidenceFactors :=
       <["event_details_complete" := 0.8%Q]> (
       <["datetime_confidence" := 0.7%Q]> (
       <["venue_confidence" := 0.7%Q]> (
       <["contact_info_present" := 0.5%Q]> (
       <["professional_looking" := 0.8%Q]> (
       <["text_readability" := 0.8%Q]> ∅))))) |}.

(** [NewModerationService]: the client exists when an API key is set. *)
Definition hasClient (cfg : config.Config) : bool :=
  negb (String.eqb (config.OpenAIAPIKey cfg) "").

Definition ModerateEventCandidate (cfg : config.Config) (reply : Completion)
    (eventData : gmap string JSON) : result ModerationResult :=
  if negb (hasClient cfg) then Ok (mockModerationResult eventData)
  else
    match reply with
    | CallFailed err => Err ("moderation API call failed: " ++ err)
    | NoChoices => Err "no moderation response received"
    | Content None => Ok (mockModerationResult eventData)
    | Content (Some moderationData) =>
        let qualityScore := calculateQualityScore (mdQualityFactors moderationData) in
        let f := mdQualityFactors moderationData in
        Ok {| QualityScore := qualityScore;
              IsAppropriate := mdIsAppropriate moderationData;
              ModerationReason := mdModerationReason moderationData;
              ConfidenceFactors :=
                <["event_details_complete" := EventDetailsComplete f]> (
                <["datetime_confidence" := DateTimeConfidence f]> (
                <["venue_confidence" := VenueConfidence f]> (
                <["contact_info_present" := ContactInfoPresent f]> (
                <["professional_looking" := ProfessionalLookng f]> (
                <["text_readability" := TextReadability f]> ∅))))) |}
    end.

(** *** Geocoding *)

Record GeocodeResult : Type := mkGeocodeResult
  { Latitude : Q;
    Longitude : Q;
    FormattedAddress : string;
    Confidence : Q;
    Components : gmap string string;
    RawResponse : gmap string JSON }.

Record MapboxFeature : Type := mkMapboxFeature
  { Coordinates : list Q;
    FullAddress : string;
    Context : list (string * string);   (* id, text *)
    Relevance : Q }.

Record MapboxResponse : Type := mkMapboxResponse
  { Features : list MapboxFeature;
    Query : list string }.

(** What the HTTP exchange with Mapbox gave: no response (transport
    failure or the deadline of [ctx] passed), or a status code and the
    body, decoded; [None] when the decoder rejects the body. *)
Inductive Exchange : Type :=
| RequestFailed (err : string)
| Response (status : Z) (body : option MapboxResponse).

(** The feature as [json.Marshal] followed by [json.Unmarshal] gives it. *)
Definition rawFeature (feature : MapboxFeature) : gmap string JSON :=
  <["geometry" :=
      JObject [("coordinates", JArray (map JNumber (Coordinates feature)))]]> (
  <["properties" :=
      JObject [("full_address", JString (FullAddress feature));
               ("context",
                JArray (map (fun c => JObject [("id", JString (fst c));
                                               ("text", JString (snd c))])
                            (Context feature)))]]> (
  <["relevance" := JNumber (Relevance feature)]> ∅)).

(** The loop over [feature.Properties.Context]. *)
Fixpoint contextComponents (ctx : list (string * string))
    (components : gmap string string) : gmap string string :=
  match ctx with
  | [] => components
  | (id, text) :: rest =>
      contextComponents rest
        (if GoStrings.HasPrefix id "place" then <["city" := text]> components
         else if GoStrings.HasPrefix id "region" then <["state" := text]> components
         else if GoStrings.HasPrefix id "country" then <["country" := text]> components
         else if GoStrings.HasPrefix id "postcode" then <["postal_code" := text]> components
         else components)
  end.

Definition geocodeWithMapbox (http : Exchange) (address : string)
  : result GeocodeResult :=
  let query := GoStrings.TrimSpace address in
  if String.eqb query "" then Err "empty address"
  else
    match http with
    | RequestFailed err => Err ("geocoding request failed: " ++ err)
    | Response status body =>
        if negb (status =? 200) then
          Err ("geocoding API returned status " ++ time.appendInt status 0)
        else
          match body with
          | None => Err "failed to parse geocoding response"
          | Some mapboxResp =>
              match Features mapboxResp with
              | [] => Err ("no geocoding results found for address: " ++ address)
              | feature :: _ =>
                  match Coordinates feature with
                  | longitude :: latitude :: _ =>
                      let components := contextComponents (Context feature) ∅ in
                      let confidence :=
                        if Qeq_bool (Relevance feature) 0 then 0.5%Q
                        else Relevance feature in
                      let formattedAddress :=
                        if String.eqb (FullAddress feature) "" then address
                        else FullAddress feature in
                      Ok {| Latitude := latitude;
                            Longitude := longitude;
                            FormattedAddress := formattedAddress;
                            Confidence := confidence;
                            Components := components;
                            RawResponse := rawFeature feature |}
                  | _ => Err "invalid coordinates in geocoding response"
                  end
              end
          end
    end.

Definition mockGeocodeResult (address : string) : GeocodeResult :=
  let addressLower := GoStrings.ToLower address in
  let '(lat, lng) :=
    if GoStrings.Contains addressLower "new york" || GoStrings.Contains addressLower "ny"
    then (40.7128%Q, (-74.0060)%Q)
    else if GoStrings.Contains addressLower "los angeles" || GoStrings.Contains addressLower "la"
    then (34.0522%Q, (-118.2437)%Q)
    else if GoStrings.Contains addressLower "chicago"
    then (41.8781%Q, (-87.6298)%Q)
    else if GoStrings.Contains addressLower "seattle"
    then (47.6062%Q, (-122.3321)%Q)
    else (37.7749%Q, (-122.4194)%Q) in
  let confidence :=
    if GoStrings.Contains address "," &&
       (3 <? Z.of_nat (length (GoStrings.Fields address)))
    then 0.8%Q else 0.7%Q in
  {| Latitude := lat;
     Longitude := lng;
     FormattedAddress := address;
     Confidence := confidence;
     Components :=
       <["city" := "Mock City"]> (<["state" := "CA"]> (<["country" := "US"]> ∅));
     RawResponse :=
       <["mock" := JBool true]> (<["original_address" := JString address]> ∅) |}.

Definition GeocodeAddress (cfg : config.Config) (http : Exchange) (address : string)
  : result GeocodeResult :=
  if String.eqb (config.GeocoderAPIKey cfg) "" ||
     String.eqb (config.GeocoderAPIKey cfg) "your-mapbox-api-key"
  then Ok (mockGeocodeResult address)
  else if String.eqb (config.Geocoder cfg) "mapbox" then geocodeWithMapbox http address
  else Err ("unsupported geocoder: " ++ config.Geocoder cfg).

(** *** Vision: the structured output of the extraction call *)

Record Point : Type := mkPoint { X : Q; Y : Q }.

Record EventFields : Type := mkEventFields
  { efTitle : string;
    efDateTime : option string;
    efStartTime : option string;
    efEndTime : option string;
    efVenue : option string;
    efAddress : option string;
    efPrice : option string;
    efDescription : option string;
    efOrganizer : option string;
    efURL : option string;
    efContactInfo : option string;
    efCategory : option string;
    efAgeRestriction : option string }.

Record EventConfidences : Type := mkEventConfidences
  { ecTitle : Q; ecDateTime : Q; ecLocation : Q; ecOverall : Q }.

Record EventCandidate : Type := mkEventCandidate
  { EventID : string;
    Fields : EventFields;
    Confidences : EventConfidences;
    Excerpt : string }.

Record FlyerRegion : Type := mkFlyerRegion
  { RegionID : string;
    Confidence_ : Q;                    (* the field [Confidence] *)
    Polygon : list Point;
    Rotation : option Q;
    Events : list EventCandidate;
    Notes : string }.

Record FlyerDetectionResult : Type := mkFlyerDetectionResult
  { FlyersDetected : list FlyerRegion;
    TotalRegions : Z;
    ImageQuality : string;
    ProcessingNotes : string }.

(** [json.Marshal(event.Fields)], decoded: the title always, a pointer
    field when it is not nil ([omitempty]). *)
Definition putOpt (k : string) (v : option string) (m : gmap string JSON)
  : gmap string JSON :=
  match v with
  | Some s => <[k := JString s]> m
  | None => m
  end.

Definition marshalEventFields (f : EventFields) : gmap string JSON :=
  putOpt "date_time" (efDateTime f) (
  putOpt "start_time" (efStartTime f) (
  putOpt "end_time" (efEndTime f) (
  putOpt "venue" (efVenue f) (
  putOpt "address" (efAddress f) (
  putOpt "price" (efPrice f) (
  putOpt "description" (efDescription f) (
  putOpt "organizer" (efOrganizer f) (
  putOpt "url" (efURL f) (
  putOpt "contact_info" (efContactInfo f) (
  putOpt "category" (efCategory f) (
  putOpt "age_restriction" (efAgeRestriction f) (
  <["title" := JString (efTitle f)]> ∅)))))))))))).

End services.

(* ===================================================================== *)
(** ** package models, and the relational store *)
(* ===================================================================== *)

Module models.

Definition UUID : Type := N.

Module Flyer.
Record t : Type := mk
  { ID : UUID;
    SubmissionID : UUID;
    RegionID : string;
    Polygon : list services.Point;
    RotationDeg : option Q;
    DetectionConfidence : Q;
    CropImageURL : option string;
    Notes : option string }.
End Flyer.

Module Venue.
Record t : Type := mk
  { ID : UUID;
    Name : string;
    AddressLine : option string;
    City : option string;
    State : option string;
    PostalCode : option string;
    Country : string;
    Location : option (Q * Q);          (* POINT(longitude latitude) *)
    GeocodeConfidence : option Q;
    GeocodeData : option (gmap string JSON) }.
End Venue.

Module EventCandidate.
Record t : Type := mk
  { ID : UUID;
    FlyerID : UUID;
    EventID : string;
    Fields : option (gmap string JSON);
    Confidences : services.EventConfidences;
    SourceExcerpt : option string;
    Geocode : option services.GeocodeResult;
    CompositeScore : option Q;
    PublishResult : option string;
    PublicationReason : option string }.

(** The three assignments of the decision to the fields of the struct. *)
Definition decided (c : t) (score : Q) (decision : string) (reason : option string) : t :=
  mk (ID c) (FlyerID c) (EventID c) (Fields c) (Confidences c) (SourceExcerpt c)
     (Geocode c) (Some score) (Some decision) reason.

Definition withGeocode (c : t) (g : services.GeocodeResult) : t :=
  mk (ID c) (FlyerID c) (EventID c) (Fields c) (Confidences c) (SourceExcerpt c)
     (Some g) (CompositeScore c) (PublishResult c) (PublicationReason c).
End EventCandidate.

Module Event.
Record t : Type := mk
  { ID : UUID;
    CanonicalKey : string;
    Title : string;
    StartTs : time.Time;
    EndTs : option time.Time;
    VenueID : option UUID;
    URL : option string;
    Price : option string;
    Description : option string;
    Organizer : option string;
    Source : string;
    PublishedVia : string;
    QualityScore : option Q;
    ModerationState : string }.

Definition withModerationState (e : t) (s : string) : t :=
  mk (ID e) (CanonicalKey e) (Title e) (StartTs e) (EndTs e) (VenueID e) (URL e)
     (Price e) (Description e) (Organizer e) (Source e) (PublishedVia e)
     (QualityScore e) s.

Definition withID (e : t) (id : UUID) : t :=
  mk id (CanonicalKey e) (Title e) (StartTs e) (EndTs e) (VenueID e) (URL e)
     (Price e) (Description e) (Organizer e) (Source e) (PublishedVia e)
     (QualityScore e) (ModerationState e).
End Event.

End models.

(** The store behind [*gorm.DB]: the four tables the pipeline writes,
    rows in insertion order, and the source of fresh identifiers. *)
Module gorm.
Import models.

Record DB : Type := mkDB
  { flyers : list Flyer.t;
    event_candidates : list EventCandidate.t;
    venues : list Venue.t;
    events : list Event.t;
    nextID : UUID }.

Definition empty : DB := mkDB [] [] [] [] 1%N.

(** [db.Create(&flyer)]: the [BeforeCreate] hook gives the row its id. *)
Definition CreateFlyer (f : Flyer.t) (db : DB) : DB * Flyer.t :=
  let f' := Flyer.mk (nextID db) (Flyer.SubmissionID f) (Flyer.RegionID f)
              (Flyer.Polygon f) (Flyer.RotationDeg f) (Flyer.DetectionConfidence f)
              (Flyer.CropImageURL f) (Flyer.Notes f) in
  (mkDB (flyers db ++ [f']) (event_candidates db) (venues db) (events db)
        (nextID db + 1)%N, f').

Definition CreateEventCandidate (c : EventCandidate.t) (db : DB) : DB * EventCandidate.t :=
  let c' := EventCandidate.mk (nextID db) (EventCandidate.FlyerID c)
              (EventCandidate.EventID c) (EventCandidate.Fields c)
              (EventCandidate.Confidences c) (EventCandidate.SourceExcerpt c)
              (EventCandidate.Geocode c) (EventCandidate.CompositeScore c)
              (EventCandidate.PublishResult c) (EventCandidate.PublicationReason c) in
  (mkDB (flyers db) (event_candidates db ++ [c']) (venues db) (events db)
        (nextID db + 1)%N, c').

(** [db.Create(&venue)]; the column default fills an empty country. *)
Definition CreateVenue (v : Venue.t) (db : DB) : DB * result Venue.t :=
  let v' := Venue.mk (nextID db) (Venue.Name v) (Venue.AddressLine v) (Venue.City v)
              (Venue.State v) (Venue.PostalCode v)
              (if String.eqb (Venue.Country v) "" then "US" else Venue.Country v)
              (Venue.Location v) (Venue.GeocodeConfidence v) (Venue.GeocodeData v) in
  (mkDB (flyers db) (event_candidates db) (venues db ++ [v']) (events db)
        (nextID db + 1)%N, Ok v').

Definition hasKey (key : string) (e : Event.t) : bool :=
  String.eqb (Event.CanonicalKey e) key.

(** [db.Create(&event)]: the unique index on [canonical_key] refuses a
    second row with a key already in the table. *)
Definition CreateEvent (e : Event.t) (db : DB) : DB * result Event.t :=
  if existsb (hasKey (Event.CanonicalKey e)) (events db) then
    (db, Err "duplicate key value violates unique constraint idx_events_canonical_key")
  else
    let e' := Event.withID e (nextID db) in
    (mkDB (flyers db) (event_candidates db) (venues db) (events db ++ [e'])
          (nextID db + 1)%N, Ok e').

(** [db.Where("canonical_key = ?", key).First(&existingEvent)];
    [None] is [ErrRecordNotFound]. *)
Definition FirstEventByKey (key : string) (db : DB) : option Event.t :=
  find (hasKey key) (events db).

(** [db.Model(&existingEvent).Update("moderation_state", state)]: the
    row with the primary key of [existing]. *)
Definition UpdateModerationState (existing : Event.t) (state : string) (db : DB) : DB :=
  mkDB (flyers db) (event_candidates db) (venues db)
       (map (fun e => if (Event.ID e =? Event.ID existing)%N
                      then Event.withModerationState e state else e) (events db))
       (nextID db).

(** SQL [LIKE]: [%] is any run of bytes, [_] any one byte, a backslash
    takes the next byte literally; a pattern that ends in a lone
    backslash matches nothing (the query fails). *)
Fixpoint like (pattern s : string) : bool :=
  match pattern with
  | EmptyString => String.eqb s ""
  | String "%" p =>
      (fix any (s : string) : bool :=
         like p s || match s with
                     | String _ r => any r
                     | EmptyString => false
                     end) s
  | String "_" p =>
      match s with
      | String _ r => like p r
      | EmptyString => false
      end
  | String "\" (String c p) =>
      match s with
      | String x r => Ascii.eqb x c && like p r
      | EmptyString => false
      end
  | String c p =>
      match s with
      | String x r => Ascii.eqb x c && negb (Ascii.eqb c "\") && like p r
      | EmptyString => false
      end
  end.

(** SQL [ILIKE]: [LIKE] after both sides are put in lower case. *)
Definition ilike (s pattern : string) : bool :=
  like (GoStrings.ToLower pattern) (GoStrings.ToLower s).

(** [tx.Where("name ILIKE ?", venueName).First(&venue)] *)
Definition FirstVenueByNameILike (venueName : string) (db : DB) : option Venue.t :=
  find (fun v => ilike (Venue.Name v) venueName) (venues db).

(** [db.Where("name = ? AND city = ?", name, city).First(&venue)]; a
    row whose city is NULL matches no city. *)
Definition FirstVenueByNameCity (name city : string) (db : DB) : option Venue.t :=
  find (fun v => String.eqb (Venue.Name v) name &&
                 match Venue.City v with
                 | Some c => String.eqb c city
                 | None => false
                 end) (venues db).

(** [db.Save(&venue)]: every column of the row with the primary key
    of [v] is written; a row that is not in the table is inserted. *)
Definition SaveVenue (v : Venue.t) (db : DB) : DB :=
  if existsb (fun x => (Venue.ID x =? Venue.ID v)%N) (venues db) then
    mkDB (flyers db) (event_candidates db)
         (map (fun x => if (Venue.ID x =? Venue.ID v)%N then v else x) (venues db))
         (events db) (nextID db)
  else mkDB (flyers db) (event_candidates db) (venues db ++ [v]) (events db) (nextID db).

(** [db.Save(candidate)], likewise. *)
Definition SaveEventCandidate (c : EventCandidate.t) (db : DB) : DB :=
  if existsb (fun x => (EventCandidate.ID x =? EventCandidate.ID c)%N) (event_candidates db)
  then
    mkDB (flyers db)
         (map (fun x => if (EventCandidate.ID x =? EventCandidate.ID c)%N then c else x)
              (event_candidates db))
         (venues db) (events db) (nextID db)
  else mkDB (flyers db) (event_candidates db ++ [c]) (venues db) (events db) (nextID db).

End gorm.

(* ===================================================================== *)
(** ** services/vision.go: persisting the extraction result *)
(* ===================================================================== *)

Module vision.
Import models gorm.

(** The inner loop of [SaveResults]: one candidate row per event. *)
Fixpoint saveEvents (flyerID : UUID) (evs : list services.EventCandidate) (db : DB) : DB :=
  match evs with
  | [] => db
  | event :: rest =>
      let eventCandidate :=
        EventCandidate.mk 0%N flyerID (services.EventID event)
          (Some (services.marshalEventFields (services.Fields event)))
          (services.Confidences event)
          (Some (services.Excerpt event))
          None
          (Some (services.ecOverall (services.Confidences event)))
          None None in
      saveEvents flyerID rest (fst (CreateEventCandidate eventCandidate db))
  end.

(** The outer loop: one flyer row per detected region. *)
Fixpoint saveRegions (submissionID : UUID) (regions : list services.FlyerRegion)
    (db : DB) : DB :=
  match regions with
  | [] => db
  | flyerRegion :: rest =>
      let flyer :=
        Flyer.mk 0%N submissionID (services.RegionID flyerRegion)
          (services.Polygon flyerRegion) (services.Rotation flyerRegion)
          (services.Confidence_ flyerRegion) None
          (Some (services.Notes flyerRegion)) in
      let '(db1, flyer1) := CreateFlyer flyer db in
      saveRegions submissionID rest (saveEvents (Flyer.ID flyer1) (services.Events flyerRegion) db1)
  end.

Definition SaveResults (db : DB) (submissionID : UUID)
    (res : services.FlyerDetectionResult) : DB * result unit :=
  (saveRegions submissionID (services.FlyersDetected res) db, Ok tt).

End vision.

(* ===================================================================== *)
(** ** package handlers *)
(* ===================================================================== *)

Module handlers.
Import models gorm.

(** *** The block shared, word for word, by the two
    [promoteToPublicEvent]: the start time and the canonical key *)

Definition formats : list string :=
  ["2006-01-02T15:04:05";
   "2006-01-02 15:04:05";
   "2006-01-02T15:04";
   "2006-01-02 15:04";
   "2006-01-02";
   "January 2, 2006";
   "Jan 2, 2006"].

(** The loop over [formats]: [Some startTs] when it leaves by [break]
    with [parsed = true], [None] when it runs to the end. *)
Fixpoint parseLoop (now : time.Time) (fs : list string) (dateStr : string)
  : option time.Time :=
  match fs with
  | [] => None
  | format :: rest =>
      match time.Parse format dateStr with
      | Some parsedTime =>
          Some (if time.Before parsedTime now then time.AddDate parsedTime 1
                else parsedTime)
      | None => parseLoop now rest dateStr
      end
  end.

Definition dateStrOf (fields : gmap string JSON) : string :=
  match nonEmptyString fields "date" with
  | Some date => date
  | None =>
      match nonEmptyString fields "date_time" with
      | Some dateTime => dateTime
      | None => ""
      end
  end.

Definition startTsOf (now : time.Time) (fields : gmap string JSON) : time.Time :=
  let startTs := time.Add now (24 * time.Hour) in
  let dateStr := dateStrOf fields in
  if negb (String.eqb dateStr "") then
    match parseLoop now formats dateStr with
    | Some parsed => parsed
    | None => time.Add now (24 * time.Hour)
    end
  else startTs.

Definition canonicalKey (title : string) (startTs : time.Time) : string :=
  GoStrings.ToLower (GoStrings.TrimSpace title) ++ "_" ++ time.FormatDate startTs.

(** *** upload.go *)

Module UploadHandler.

Definition extractVenueAddress (eventData : gmap string JSON) : string :=
  let fix loop (addressFields : list string) : string :=
    match addressFields with
    | [] => ""
    | field :: rest =>
        match nonEmptyString eventData field with
        | Some value => value
        | None => loop rest
        end
    end in
  loop ["venue"; "address"; "location"; "where"].

(** [m[k]] on a [map[string]string]: the empty string when absent. *)
Definition component (m : gmap string string) (k : string) : string :=
  default "" (m !! k).

Definition createOrUpdateVenue (eventData : gmap string JSON)
    (geocodeResult : services.GeocodeResult) (db : DB) : DB * result unit :=
  let venueName := default "" (asString (eventData !! "venue")) in
  if String.eqb venueName "" then (db, Err "no venue name found")
  else
    let location := (services.Longitude geocodeResult, services.Latitude geocodeResult) in
    let comps := services.Components geocodeResult in
    match FirstVenueByNameCity venueName (component comps "city") db with
    | None =>
        let venue :=
          Venue.mk 0%N venueName
            (Some (services.FormattedAddress geocodeResult))
            (Some (component comps "city"))
            (Some (component comps "state"))
            (Some (component comps "postal_code"))
            (component comps "country")
            (Some location)
            (Some (services.Confidence geocodeResult))
            (Some (services.RawResponse geocodeResult)) in
        match CreateVenue venue db with
        | (db', Err e) => (db', Err ("failed to create venue: " ++ e))
        | (db', Ok _) => (db', Ok tt)
        end
    | Some venue =>
        if match Venue.GeocodeConfidence venue with
           | None => true
           | Some c => if Qlt_le_dec c (services.Confidence geocodeResult) then true else false
           end
        then
          let venue' :=
            Venue.mk (Venue.ID venue) (Venue.Name venue)
              (Some (services.FormattedAddress geocodeResult))
              (Venue.City venue) (Venue.State venue) (Venue.PostalCode venue)
              (Venue.Country venue) (Some location)
              (Some (services.Confidence geocodeResult)) (Venue.GeocodeData venue) in
          (SaveVenue venue' db, Ok tt)
        else (db, Ok tt)
    end.

(** [promoteToPublicEvent].  [others] is what other sessions commit
    between the SELECT and the INSERT of this call; it is the identity
    when the call runs alone. *)
Definition promoteUnder (others : DB -> DB) (now : time.Time)
    (candidate : EventCandidate.t) (db : DB) : DB * result unit :=
  match EventCandidate.Fields candidate with
  | None => (db, Err "failed to parse event fields")
  | Some fields =>
      match nonEmptyString fields "title" with
      | None => (db, Err "event title is required")
      | Some title =>
          let startTs := startTsOf now fields in
          let canonicalKey := canonicalKey title startTs in
          match FirstEventByKey canonicalKey db with
          | Some existingEvent =>
              if negb (String.eqb (Event.ModerationState existingEvent) "approved")
              then (UpdateModerationState existingEvent "approved" db, Ok tt)
              else (db, Ok tt)
          | None =>
              let event :=
                Event.mk 0%N canonicalKey title startTs None None
                  (nonEmptyString fields "url")
                  (nonEmptyString fields "price")
                  (nonEmptyString fields "description")
                  (nonEmptyString fields "organizer")
                  "flyer" "auto"
                  (EventCandidate.CompositeScore candidate)
                  "approved" in
              match CreateEvent event (others db) with
              | (db', Err e) => (db', Err ("failed to create event: " ++ e))
              | (db', Ok _) => (db', Ok tt)
              end
          end
      end
  end.

Definition promoteToPublicEvent : time.Time -> EventCandidate.t -> DB -> DB * result unit :=
  promoteUnder (fun db => db).

(** The values taken when [ModerateEventCandidate] returns an error. *)
Definition moderationDefault : services.ModerationResult :=
  services.mkModerationResult 0.5 true None ∅.

Definition processEventCandidate (cfg : config.Config) (now : time.Time)
    (reply : services.Completion) (http : services.Exchange)
    (candidate : EventCandidate.t) (db : DB)
  : DB * EventCandidate.t * result unit :=
  match EventCandidate.Fields candidate with
  | None => (db, candidate, Err "failed to parse event fields")
  | Some eventData =>
      (* moderation *)
      let moderationResult :=
        match services.ModerateEventCandidate cfg reply eventData with
        | Ok r => r
        | Err _ => moderationDefault
        end in
      let score := services.QualityScore moderationResult in
      let '(db1, candidate1) :=
        if negb (services.IsAppropriate moderationResult) then
          (db, EventCandidate.decided candidate score "blocked"
                 (services.ModerationReason moderationResult))
        else if Qle_bool (config.AutoPublishThreshold cfg) score then
          let c := EventCandidate.decided candidate score "published"
                     (Some "auto-published (high quality score)") in
          (fst (promoteToPublicEvent now c db), c)
        else
          (db, EventCandidate.decided candidate score "needs_review"
                 (Some "requires manual review (low quality score)")) in
      (* geocoding *)
      let venueAddress := extractVenueAddress eventData in
      let '(db2, candidate2) :=
        if negb (String.eqb venueAddress "") then
          match services.GeocodeAddress cfg http venueAddress with
          | Err _ => (db1, candidate1)
          | Ok geocodeResult =>
              let c := EventCandidate.withGeocode candidate1 geocodeResult in
              if Qle_bool (config.GeoConfThreshold cfg) (services.Confidence geocodeResult)
              then (fst (createOrUpdateVenue eventData geocodeResult db1), c)
              else (db1, c)
          end
        else (db1, candidate1) in
      (SaveEventCandidate candidate2 db2, candidate2, Ok tt)
  end.

End UploadHandler.

(** *** admin.go *)

Module AdminHandler.

Definition endFormats : list string :=
  ["2006-01-02 15:04:05";
   "2006-01-02T15:04:05";
   "2006-01-02 15:04";
   "2006-01-02T15:04";
   "2006-01-02"].

Fixpoint parseEnd (fs : list string) (endStr : string) : option time.Time :=
  match fs with
  | [] => None
  | format :: rest =>
      match time.Parse format endStr with
      | Some parsed => Some parsed
      | None => parseEnd rest endStr
      end
  end.

(** The block [// Handle venue]: the venue the event refers to, found
    by name or created from the name and the address. *)
Definition resolveVenue (fields : gmap string JSON) (db : DB)
  : DB * result (option UUID) :=
  match nonEmptyString fields "venue" with
  | None => (db, Ok None)
  | Some venueName =>
      match FirstVenueByNameILike venueName db with
      | Some venue => (db, Ok (Some (Venue.ID venue)))
      | None =>
          let venue :=
            Venue.mk 0%N venueName (nonEmptyString fields "address")
              None None None "" None None None in
          match CreateVenue venue db with
          | (db', Err e) => (db', Err ("failed to create venue: " ++ e))
          | (db', Ok venue') => (db', Ok (Some (Venue.ID venue')))
          end
      end
  end.

(** [promoteToPublicEvent]; [others] as in the upload handler. *)
Definition promoteUnder (others : DB -> DB) (now : time.Time)
    (candidate : EventCandidate.t) (tx : DB) : DB * result unit :=
  match EventCandidate.Fields candidate with
  | None => (tx, Err "failed to parse event fields")
  | Some fields =>
      match nonEmptyString fields "title" with
      | None => (tx, Err "event title is required")
      | Some title =>
          let startTs := startTsOf now fields in
          let canonicalKey := canonicalKey title startTs in
          match FirstEventByKey canonicalKey tx with
          | Some existingEvent =>
              if negb (String.eqb (Event.ModerationState existingEvent) "approved")
              then (UpdateModerationState existingEvent "approved" tx, Ok tt)
              else (tx, Ok tt)
          | None =>
              let endTs :=
                match nonEmptyString fields "end_date" with
                | Some endStr => parseEnd endFormats endStr
                | None => None
                end in
              match resolveVenue fields (others tx) with
              | (tx1, Err e) => (tx1, Err e)
              | (tx1, Ok venueID) =>
                  let event :=
                    Event.mk 0%N canonicalKey title startTs endTs venueID
                      (nonEmptyString fields "url")
                      (nonEmptyString fields "price")
                      (nonEmptyString fields "description")
                      (nonEmptyString fields "organizer")
                      "flyer" "manual"
                      (EventCandidate.CompositeScore candidate)
                      "approved" in
                  match CreateEvent event tx1 with
                  | (tx2, Err e) => (tx2, Err ("failed to create event: " ++ e))
                  | (tx2, Ok _) => (tx2, Ok tt)
                  end
              end
          end
      end
  end.

Definition promoteToPublicEvent : time.Time -> EventCandidate.t -> DB -> DB * result unit :=
  promoteUnder (fun tx => tx).

End AdminHandler.

End handlers.

(* ===================================================================== *)
(** * The rest of the back end *)
(* ===================================================================== *)

(** ** services/geocoding.go: venue addresses and coordinates *)

Module GeocodingService.

(** [strings.Join(elems, sep)] *)
Fixpoint Join (elems : list string) (sep : string) : string :=
  match elems with
  | [] => ""
  | e :: rest =>
      match rest with
      | [] => e
      | _ => e ++ sep ++ Join rest sep
      end
  end.

(** The parts [BuildVenueAddress] joins, in their order. *)
Definition venueAddressParts (name addressLine city state postalCode country : string)
  : list string :=
  let parts := [] in
  let parts :=
    if negb (String.eqb name "") &&
       (GoStrings.Contains name "St" || GoStrings.Contains name "Ave" ||
        GoStrings.Contains name "Rd")
    then (parts ++ [name])%list else parts in
  let parts :=
    if negb (String.eqb addressLine "") then (parts ++ [addressLine])%list else parts in
  let parts :=
    if negb (String.eqb city "") then
      if negb (String.eqb state "") then (parts ++ [(city ++ ", " ++ state)%string])%list
      else (parts ++ [city])%list
    else parts in
  let parts :=
    if negb (String.eqb postalCode "") then (parts ++ [postalCode])%list else parts in
  let parts :=
    if negb (String.eqb country "") && negb (String.eqb country "US")
    then (parts ++ [country])%list else parts in
  parts.

Definition BuildVenueAddress (name addressLine city state postalCode country : string)
  : string :=
  Join (venueAddressParts name addressLine city state postalCode country) ", ".

Definition ValidateCoordinates (lat lng : Q) : bool :=
  Qle_bool (-90) lat && Qle_bool lat 90 && Qle_bool (-180) lng && Qle_bool lng 180.

End GeocodingService.

(** ** services/vision.go: the image sent to the extraction call *)

Module VisionService.

(** [data[i] == b]; every use is behind a test of [len(data)]. *)
Definition byteIs (data : list Byte.byte) (i : nat) (b : Byte.byte) : bool :=
  match data !! i with
  | Some x => Byte.eqb x b
  | None => false
  end.

Definition isValidImageFormat (data : list Byte.byte) : bool :=
  if (length data <? 8)%nat then false
  else if byteIs data 0 Byte.xff && byteIs data 1 Byte.xd8 then true
  else if (8 <=? length data)%nat &&
          byteIs data 0 Byte.x89 && byteIs data 1 Byte.x50 && byteIs data 2 Byte.x4e &&
          byteIs data 3 Byte.x47 && byteIs data 4 Byte.x0d && byteIs data 5 Byte.x0a &&
          byteIs data 6 Byte.x1a && byteIs data 7 Byte.x0a then true
  else if (12 <=? length data)%nat &&
          byteIs data 0 Byte.x52 && byteIs data 1 Byte.x49 && byteIs data 2 Byte.x46 &&
          byteIs data 3 Byte.x46 && byteIs data 8 Byte.x57 && byteIs data 9 Byte.x45 &&
          byteIs data 10 Byte.x42 && byteIs data 11 Byte.x50 then true
  else if (6 <=? length data)%nat &&
          ((byteIs data 0 Byte.x47 && byteIs data 1 Byte.x49 && byteIs data 2 Byte.x46 &&
            byteIs data 3 Byte.x38 && byteIs data 4 Byte.x37 && byteIs data 5 Byte.x61) ||
           (byteIs data 0 Byte.x47 && byteIs data 1 Byte.x49 && byteIs data 2 Byte.x46 &&
            byteIs data 3 Byte.x38 && byteIs data 4 Byte.x39 && byteIs data 5 Byte.x61))
       then true
  else false.

Definition maxSize : Z := 18 * 1024 * 1024.

(** [prepareImage]: [file] is what reading the image file gave.  The
    Base64 text returned is stood for by the bytes it encodes. *)
Definition prepareImage (file : result (list Byte.byte)) : result (list Byte.byte) :=
  match file with
  | Err e => Err e
  | Ok data =>
      if maxSize <? Z.of_nat (length data) then
        Err ("image too large: " ++ time.appendInt (Z.of_nat (length data)) 0 ++
             " bytes (max " ++ time.appendInt maxSize 0 ++ " bytes)")
      else if negb (isValidImageFormat data) then Err "unsupported image format"
      else Ok data
  end.

(** What the extraction call gave; the content of the first choice is
    held decoded, [None] when [json.Unmarshal] rejects it. *)
Inductive Extraction : Type :=
| CallFailed (err : string)
| NoChoices
| Content (decoded : option services.FlyerDetectionResult).

Definition AnalyzeImage (file : result (list Byte.byte)) (reply : Extraction)
  : result services.FlyerDetectionResult :=
  match prepareImage file with
  | Err e => Err ("failed to prepare image: " ++ e)
  | Ok _ =>
      match reply with
      | CallFailed err => Err ("GPT-4o API call failed: " ++ err)
      | NoChoices => Err "no response from GPT-4o"
      | Content None => Err "failed to parse structured output"
      | Content (Some res) => Ok res
      end
  end.

End VisionService.

(** ** handlers/upload.go: the orchestration of one submission *)

Module Submission.
Record t : Type := mk
  { ID : models.UUID;
    UserID : option models.UUID;
    OriginalImageURL : string;
    DerivativeImageURL : option string;
    CapturedAt : option time.Time;
    ExifOptIn : bool;
    Status : string }.

Definition withStatus (s : t) (status : string) : t :=
  mk (ID s) (UserID s) (OriginalImageURL s) (DerivativeImageURL s) (CapturedAt s)
     (ExifOptIn s) status.
End Submission.

Module Orchestrator.
Import models gorm handlers.

(** The store with its submissions table. *)
Record Store : Type := mkStore
  { submissions : list Submission.t;
    tables : DB }.

(** [updateSubmissionStatus]: an UPDATE by id; no row is no error. *)
Definition updateSubmissionStatus (submissionID : UUID) (status : string) (st : Store)
  : Store :=
  mkStore (map (fun s => if (Submission.ID s =? submissionID)%N
                         then Submission.withStatus s status else s) (submissions st))
          (tables st).

(** The rows of
    [Joins("JOIN flyers ON flyers.id = event_candidates.flyer_id").
     Where("flyers.submission_id = ?", submissionID)], one per pair of a
    candidate and a flyer of the submission with the candidate's
    flyer id. *)
Definition candidatesOf (submissionID : UUID) (db : DB) : list EventCandidate.t :=
  flat_map
    (fun c =>
       map (fun _ => c)
           (List.filter (fun f => (Flyer.ID f =? EventCandidate.FlyerID c)%N &&
                                  (Flyer.SubmissionID f =? submissionID)%N)
                        (flyers db)))
    (event_candidates db).

(** The loop of [processStage3]: a candidate that fails is logged and
    the loop goes on.  [reply] and [http] give, per candidate, what
    the classifier and the geocoder answer. *)
Fixpoint stage3Loop (cfg : config.Config) (now : time.Time)
    (reply : EventCandidate.t -> services.Completion)
    (http : EventCandidate.t -> services.Exchange)
    (eventCandidates : list EventCandidate.t) (db : DB) : DB :=
  match eventCandidates with
  | [] => db
  | candidate :: rest =>
      stage3Loop cfg now reply http rest
        (fst (fst (UploadHandler.processEventCandidate cfg now (reply candidate)
                     (http candidate) candidate db)))
  end.

Definition processStage3 (cfg : config.Config) (now : time.Time)
    (reply : EventCandidate.t -> services.Completion)
    (http : EventCandidate.t -> services.Exchange)
    (submissionID : UUID) (db : DB) : DB * result unit :=
  let eventCandidates := candidatesOf submissionID db in
  (stage3Loop cfg now reply http eventCandidates db, Ok tt).

(** [processUploadSync]; [file] and [extraction] are what reading
    [original.jpg] and the extraction call give. *)
Definition processUploadSync (cfg : config.Config) (now : time.Time)
    (file : result (list Byte.byte)) (extraction : VisionService.Extraction)
    (reply : EventCandidate.t -> services.Completion)
    (http : EventCandidate.t -> services.Exchange)
    (submissionID : UUID) (st : Store) : Store * result unit :=
  let st := updateSubmissionStatus submissionID "processing" st in
  match VisionService.AnalyzeImage file extraction with
  | Err err =>
      (updateSubmissionStatus submissionID "error" st,
       Err ("vision analysis failed: " ++ err))
  | Ok res =>
      match vision.SaveResults (tables st) submissionID res with
      | (db1, Err err) =>
          (updateSubmissionStatus submissionID "error" (mkStore (submissions st) db1),
           Err ("failed to save results: " ++ err))
      | (db1, Ok _) =>
          let st := updateSubmissionStatus submissionID "parsed"
                      (mkStore (submissions st) db1) in
          match processStage3 cfg now reply http submissionID (tables st) with
          | (db2, Err err) =>
              (updateSubmissionStatus submissionID "error" (mkStore (submissions st) db2),
               Err ("Stage 3 processing failed: " ++ err))
          | (db2, Ok _) =>
              (updateSubmissionStatus submissionID "done" (mkStore (submissions st) db2),
               Ok tt)
          end
      end
  end.

(** [UploadFile]: the store it leaves, the status of the response
    and, for a 200, the body's status, [eventsFound] and
    [flyersFound].  [submissionID] is [None] for a path parameter
    that is not a UUID, [formFile] is [None] when the form holds no
    file, [saved] is what [SaveFile] returns; the file the pipeline
    then reads is the file saved. *)
Definition UploadFile (cfg : config.Config) (now : time.Time)
    (submissionID : option UUID) (formFile : option (list Byte.byte))
    (saved : result unit) (extraction : VisionService.Extraction)
    (reply : EventCandidate.t -> services.Completion)
    (http : EventCandidate.t -> services.Exchange)
    (st : Store) : Store * Z * option (string * nat * nat) :=
  match submissionID with
  | None => (st, 400, None)
  | Some submissionID =>
      match find (fun s => (Submission.ID s =? submissionID)%N) (submissions st) with
      | None => (st, 404, None)
      | Some _ =>
          match formFile with
          | None => (st, 400, None)
          | Some data =>
              if 12 * 1024 * 1024 <? Z.of_nat (length data) then (st, 400, None)
              else
                match saved with
                | Err _ => (st, 500, None)
                | Ok _ =>
                    match processUploadSync cfg now (Ok data) extraction reply http
                            submissionID st with
                    | (st', Err _) => (st', 500, None)
                    | (st', Ok _) =>
                        match find (fun s => (Submission.ID s =? submissionID)%N)
                                (submissions st') with
                        | None => (st', 500, None)
                        | Some submission =>
                            let submissionFlyers :=
                              List.filter (fun f => (Flyer.SubmissionID f =? submissionID)%N)
                                (flyers (tables st')) in
                            let eventCount :=
                              fold_left
                                (fun eventCount flyer =>
                                   (eventCount +
                                    length (List.filter
                                              (fun c => (EventCandidate.FlyerID c =? Flyer.ID flyer)%N)
                                              (event_candidates (tables st'))))%nat)
                                submissionFlyers 0%nat in
                            (st', 200,
                             Some (Submission.Status submission, eventCount,
                                   length submissionFlyers))
                        end
                    end
                end
          end
      end
  end.

(** *** Requesting an upload *)








End Orchestrator.

(** ** handlers/admin.go: the moderation action *)

Module AdminModeration.
Import models gorm handlers.

Definition getStatusDisplay (publishResult : option string) (score : option Q)
  : string * string :=
  match publishResult with
  | None => ("Processing", "gray")
  | Some r =>
      if String.eqb r "published" then ("Published", "green")
      else if String.eqb r "blocked" then ("Blocked", "red")
      else if String.eqb r "needs_review" then ("Needs Review", "orange")
      else
        match score with
        | Some _ => ("Processed", "blue")
        | None => ("Unknown", "gray")
        end
  end.

(** [h.db.Where("id = ?", eventID).First(&candidate)]; an id that is
    not a UUID finds no row. *)
Definition FirstCandidateByID (eventID : option UUID) (db : DB) : option EventCandidate.t :=
  match eventID with
  | Some id => find (fun c => (EventCandidate.ID c =? id)%N) (event_candidates db)
  | None => None
  end.

(** [tx.Model(&candidate).Updates(updates)]: the columns of [updates]
    on the row with the candidate's primary key. *)
Definition UpdateCandidate (candidate : EventCandidate.t) (publishResult : string)
    (reason : string) (db : DB) : DB :=
  mkDB (flyers db)
       (map (fun c =>
               if (EventCandidate.ID c =? EventCandidate.ID candidate)%N then
                 EventCandidate.mk (EventCandidate.ID c) (EventCandidate.FlyerID c)
                   (EventCandidate.EventID c) (EventCandidate.Fields c)
                   (EventCandidate.Confidences c) (EventCandidate.SourceExcerpt c)
                   (EventCandidate.Geocode c) (EventCandidate.CompositeScore c)
                   (Some publishResult)
                   (if String.eqb reason "" then EventCandidate.PublicationReason c
                    else Some reason)
               else c) (event_candidates db))
       (venues db) (events db) (nextID db).

(** [ModerateEvent]: the store it leaves and the status of the
    response; [wantsJSON] holds for an HTMX or JSON request, which is
    answered 200, any other with the redirect 303. *)
Definition ModerateEvent (now : time.Time) (eventID : option UUID)
    (action reason : string) (wantsJSON : bool) (db : DB) : DB * Z :=
  if negb (String.eqb action "approve") && negb (String.eqb action "reject") then (db, 400)
  else
    match FirstCandidateByID eventID db with
    | None => (db, 404)
    | Some candidate =>
        let publishResult :=
          if String.eqb action "approve" then "published" else "blocked" in
        let tx := UpdateCandidate candidate publishResult reason db in
        if String.eqb action "approve" then
          match AdminHandler.promoteToPublicEvent now candidate tx with
          | (_, Err _) => (db, 500)
          | (tx', Ok _) => (tx', if wantsJSON then 200 else 303)
          end
        else (tx, if wantsJSON then 200 else 303)
    end.

(** [getAdminStats], without the count of the last 24 hours, which
    reads a column the store here does not hold. *)
Record Stats : Type := mkStats
  { total : Z;
    published : Z;
    blocked : Z;
    needs_review : Z;
    processing : Z }.

(** [Where("publish_result = ?", r).Count(&n)] *)
Definition countResult (r : string) (db : DB) : Z :=
  Z.of_nat (length (List.filter
    (fun c => match EventCandidate.PublishResult c with
              | Some x => String.eqb x r
              | None => false
              end) (event_candidates db))).

Definition getAdminStats (db : DB) : Stats :=
  let published := countResult "published" db in
  let blocked := countResult "blocked" db in
  let needsReview := countResult "needs_review" db in
  let total := Z.of_nat (length (event_candidates db)) in
  mkStats total published blocked needsReview (total - published - blocked - needsReview).

End AdminModeration.

(** ** handlers/event.go: unpublishing and listing *)

Module EventHandler.
Import models gorm.

Definition validReasons : list string :=
  ["spam"; "duplicate"; "bad_location"; "inappropriate"].

(** [Unpublish]: [eventID] is [None] for a path parameter that is not
    a UUID, [req] is [None] when the body does not bind (no JSON, or
    no reason). *)
Definition Unpublish (eventID : option UUID) (req : option string) (db : DB) : DB * Z :=
  match eventID with
  | None => (db, 400)
  | Some id =>
      match req with
      | None => (db, 400)
      | Some reason =>
          if negb (existsb (String.eqb reason) validReasons) then (db, 400)
          else
            let rowsAffected :=
              length (List.filter (fun e => (Event.ID e =? id)%N) (events db)) in
            if (rowsAffected =? 0)%nat then (db, 404)
            else
              (mkDB (flyers db) (event_candidates db) (venues db)
                    (map (fun e => if (Event.ID e =? id)%N
                                   then Event.withModerationState e "blocked" else e)
                         (events db))
                    (nextID db), 200)
      end
  end.

(** *** Listing and reading *)

(** [strconv.Atoi]: an optional sign, then decimal digits only, and a
    value in the range of [int] (64 bits). *)
Definition Atoi (s : string) : option Z :=
  let '(neg, ds) :=
    match s with
    | String "-" r => (true, r)
    | String "+" r => (false, r)
    | _ => (false, s)
    end in
  if String.eqb ds "" then None
  else if forallb time.isDigitByte (list_ascii_of_string ds) then
    let n := fold_left (fun acc c => 10 * acc + time.digitVal c) (list_ascii_of_string ds) 0 in
    let v := if neg then - n else n in
    if (- 2 ^ 63 <=? v) && (v <=? 2 ^ 63 - 1) then Some v else None
  else None.

(** The query parameters of [List]; a parameter that is not given
    reads as the empty string. *)
Record ListQuery : Type := mkListQuery
  { include_past : string;
    bbox : string;
    start_date : string;
    end_date : string;
    keyword : string;
    limit : string;
    offset : string }.

Record EventFeature : Type := mkEventFeature
  { fID : UUID;
    fGeometry : option (Q * Q);        (* the zero [EventGeometry] is [None] *)
    fTitle : string;
    fStartTs : time.Time;
    fEndTs : option time.Time;
    fVenueName : option string;
    fAddress : option string;
    fURL : option string;
    fPrice : option string;
    fDescription : option string;
    fOrganizer : option string;
    fSource : string }.

(** [ORDER BY start_ts ASC]; SQL leaves the order of rows with equal
    start times open, here they keep the order of the table. *)
Fixpoint insertByStart (e : Event.t) (l : list Event.t) : list Event.t :=
  match l with
  | [] => [e]
  | x :: rest =>
      if time.unixNano (Event.StartTs x) <? time.unixNano (Event.StartTs e)
      then x :: insertByStart e rest
      else e :: l
  end.

Definition orderByStart (l : list Event.t) : list Event.t :=
  fold_right insertByStart [] l.

(** [Preload("Venue")]: the venue row the event refers to. *)
Definition preloadVenue (e : Event.t) (db : DB) : option Venue.t :=
  match Event.VenueID e with
  | Some id => find (fun v => (Venue.ID v =? id)%N) (venues db)
  | None => None
  end.

(** The body of the loop that converts to GeoJSON. *)
Definition toFeature (db : DB) (event : Event.t) : EventFeature :=
  let venue := preloadVenue event db in
  mkEventFeature (Event.ID event)
    (match venue with
     | Some _ => Some ((-122.4194)%Q, 37.7749%Q)
     | None => None
     end)
    (Event.Title event) (Event.StartTs event) (Event.EndTs event)
    (match venue with Some v => Some (Venue.Name v) | None => None end)
    (match venue with Some v => Venue.AddressLine v | None => None end)
    (Event.URL event) (Event.Price event) (Event.Description event)
    (Event.Organizer event) (Event.Source event).

Definition limitOf (limitStr : string) : Z :=
  let limit := 100 in
  if negb (String.eqb limitStr "") then
    match Atoi limitStr with
    | Some parsedLimit =>
        if (0 <? parsedLimit) && (parsedLimit <=? 500) then parsedLimit else limit
    | None => limit
    end
  else limit.

Definition offsetOf (offsetStr : string) : Z :=
  let offset := 0 in
  if negb (String.eqb offsetStr "") then
    match Atoi offsetStr with
    | Some parsedOffset => if 0 <=? parsedOffset then parsedOffset else offset
    | None => offset
    end
  else offset.

(** The rows the query of [List] selects, before ordering and paging.
    Instants are compared as they are held. *)
Definition listRows (now : time.Time) (q : ListQuery) (db : DB) : list Event.t :=
  let query :=
    List.filter (fun e => String.eqb (Event.ModerationState e) "approved") (events db) in
  let query :=
    if negb (String.eqb (include_past q) "true")
    then List.filter (fun e => time.unixNano now <? time.unixNano (Event.StartTs e)) query
    else query in
  let query :=
    if negb (String.eqb (start_date q) "") then
      match time.Parse "2006-01-02" (start_date q) with
      | Some start =>
          List.filter (fun e => time.unixNano start <=? time.unixNano (Event.StartTs e)) query
      | None => query
      end
    else query in
  let query :=
    if negb (String.eqb (end_date q) "") then
      match time.Parse "2006-01-02" (end_date q) with
      | Some end_ =>
          List.filter (fun e => time.unixNano (Event.StartTs e) <=? time.unixNano end_) query
      | None => query
      end
    else query in
  let query :=
    if negb (String.eqb (keyword q) "") then
      let searchTerm := "%" ++ keyword q ++ "%" in
      List.filter (fun e => ilike (Event.Title e) searchTerm ||
                            match Event.Description e with
                            | Some d => ilike d searchTerm
                            | None => false
                            end) query
    else query in
  query.

(** [List]: the features of the answer (status 200). *)
Definition List (now : time.Time) (q : ListQuery) (db : DB) : list EventFeature :=
  let events :=
    firstn (Z.to_nat (limitOf (limit q)))
      (skipn (Z.to_nat (offsetOf (offset q))) (orderByStart (listRows now q db))) in
  map (toFeature db) events.

(** [Get]: the status and the event; the moderation state is not looked at. *)
Definition Get (eventID : option UUID) (db : DB) : Z * option Event.t :=
  match eventID with
  | None => (400, None)
  | Some id =>
      match find (fun e => (Event.ID e =? id)%N) (events db) with
      | Some event => (200, Some event)
      | None => (404, None)
      end
  end.

(** *** The calendar file *)

(** [t.UTC().Format("20060102T150405Z")] *)
Definition FormatICS (t : time.Time) : string :=
  let u := time.mkTime (time.unixNano t) 0 in
  let '(y, m, d) := time.DateOf u in
  let sod := time.localSeconds u mod 86400 in
  time.appendInt y 4 ++ time.appendInt m 2 ++ time.appendInt d 2 ++ "T" ++
  time.appendInt (sod / 3600) 2 ++ time.appendInt (sod mod 3600 / 60) 2 ++
  time.appendInt (sod mod 60) 2 ++ "Z".

(** [strings.ReplaceAll(s, ",", "\\,")] *)
Fixpoint escapeCommas (s : string) : string :=
  match s with
  | EmptyString => EmptyString
  | String c rest =>
      if Ascii.eqb c ","
      then String "\" (String "," (escapeCommas rest))
      else String c (escapeCommas rest)
  end.

(** The line break of the raw string literal. *)
Definition newline : string := String "010" EmptyString.

(** [GetICS]: the status and, for a 200, the calendar text.  [prodID]
    and [uidDomain] are the configured ICS_PRODID and ICS_UID_DOMAIN,
    [str] is [uuid.UUID.String]. *)
Definition GetICS (prodID uidDomain : string) (str : UUID -> string)
    (eventID : option UUID) (db : DB) : Z * option string :=
  match eventID with
  | None => (400, None)
  | Some id =>
      match find (fun e => (Event.ID e =? id)%N) (events db) with
      | None => (404, None)
      | Some event =>
          let venue := preloadVenue event db in
          let ics :=
            "BEGIN:VCALENDAR" ++ newline ++
            "VERSION:2.0" ++ newline ++
            "PRODID:" ++ prodID ++ newline ++
            "METHOD:PUBLISH" ++ newline ++
            "BEGIN:VEVENT" ++ newline ++
            "UID:evt_" ++ str (Event.ID event) ++ "@" ++ uidDomain ++ newline ++
            "DTSTART:" ++ FormatICS (Event.StartTs event) ++ newline ++
            "DTEND:" ++
              (match Event.EndTs event with
               | Some endTs => FormatICS endTs
               | None => FormatICS (time.Add (Event.StartTs event) (2 * time.Hour))
               end) ++ newline ++
            "SUMMARY:" ++ escapeCommas (Event.Title event) ++ newline ++
            "DESCRIPTION:" ++
              (match Event.Description event with
               | Some description => escapeCommas description
               | None => ""
               end) ++ newline ++
            "LOCATION:" ++
              (match venue with
               | Some v =>
                   let location := Venue.Name v in
                   let location :=
                     match Venue.AddressLine v with
                     | Some addressLine => location ++ ", " ++ addressLine
                     | None => location
                     end in
                   escapeCommas location
               | None => ""
               end) ++ newline ++
            "URL:" ++
              (match Event.URL event with
               | Some url => url
               | None => ""
               end) ++ newline ++
            "STATUS:CONFIRMED" ++ newline ++
            "END:VEVENT" ++ newline ++
            "END:VCALENDAR" in
          (200, Some ics)
      end
  end.

End EventHandler.

(* ===================================================================== *)
(** * The vocabulary of the properties *)
(* ===================================================================== *)

Import models gorm handlers.

Section Vocabulary.
Import services.

(** *** The scorer *)



(** *** Moderation and decision *)

(** The quality assessment the decision is taken on: the result of the
    moderation stage, or the default values when the stage fails. *)
Definition assessed (cfg : config.Config) (reply : Completion)
    (eventData : gmap string JSON) : ModerationResult :=
  match ModerateEventCandidate cfg reply eventData with
  | Ok r => r
  | Err _ => UploadHandler.moderationDefault
  end.

(** The decision rule in the words of the specification: the decision
    and its reason. *)
Definition decisionRule (threshold : Q) (m : ModerationResult) : string * option string :=
  if IsAppropriate m then
    if Qle_bool threshold (QualityScore m)
    then ("published", Some "auto-published (high quality score)")
    else ("needs_review", Some "requires manual review (low quality score)")
  else ("blocked", ModerationReason m).

(** The heuristic score in the words of the specification. *)
Definition heuristicScore (eventData : gmap string JSON) : Q :=
  (0.75 + (if present eventData "title" then 0.10 else 0)
        + (if present eventData "venue" then 0.05 else 0)
        + (if present eventData "date" then 0.05 else 0))%Q.

(** *** The geocoding stub *)

(** No credential is configured: the key is empty or the placeholder. *)
Definition noGeocoderKey (cfg : config.Config) : Prop :=
  config.GeocoderAPIKey cfg = "" \/ config.GeocoderAPIKey cfg = "your-mapbox-api-key".



(** *** Persistence of the extraction result *)

(** The event ids of an extraction result, region by region. *)
Definition eventIDs (regions : list FlyerRegion) : list string :=
  concat (map (fun r => map EventID (Events r)) regions).

(** What one run of [SaveResults] adds to a store. *)
Definition appended (submissionID : UUID) (regions : list FlyerRegion) (db db' : DB) : Prop :=
  exists fs cs,
    flyers db' = (flyers db ++ fs)%list /\
    event_candidates db' = (event_candidates db ++ cs)%list /\
    map Flyer.RegionID fs = map RegionID regions /\
    Forall (fun f => Flyer.SubmissionID f = submissionID) fs /\
    map EventCandidate.EventID cs = eventIDs regions /\
    venues db' = venues db /\ events db' = events db.

(** *** Start times *)





(** *** Promotion *)

(** The unique index on [canonical_key] holds in the store. *)
Definition uniqueKeys (db : DB) : Prop := NoDup (map Event.CanonicalKey (events db)).


(** The error of the unique index. *)
Definition duplicateKey : string :=
  "duplicate key value violates unique constraint idx_events_canonical_key".

(** Promotion by key, in the words of the specification: the call
    succeeds; when an Event with the key exists and is not approved
    its state is upgraded in place; when it exists and is approved
    nothing changes; otherwise one row with the key, approved, is
    inserted. *)
Definition promotesByKey (key : string) (promote : DB -> DB * result unit) : Prop :=
  forall db,
    snd (promote db) = Ok tt /\
    match FirstEventByKey key db with
    | Some e =>
        fst (promote db) =
          (if String.eqb (Event.ModerationState e) "approved" then db
           else UpdateModerationState e "approved" db)
    | None =>
        exists e, events (fst (promote db)) = (events db ++ [e])%list /\
                  Event.CanonicalKey e = key /\ Event.ModerationState e = "approved"
    end.


End Vocabulary.

(* ===================================================================== *)
(** * Fixtures: a configuration, a candidate, a clock, a store *)
(* ===================================================================== *)

Section Fixtures.
Import services.

(** A configuration with a classifier key and no geocoder key. *)
Definition sampleConfig : config.Config :=
  config.mkConfig "postgres://localhost/williamboard" "sk-test" "gpt-4o" "mapbox" ""
    true 0.80 0.75.

Definition sampleFields : gmap string JSON :=
  <["title" := JString "Jazz Night"]> (
  <["date" := JString "2030-07-15T19:00:00"]> (
  <["venue" := JString "Blue Room"]> (
  <["address" := JString "1 Main St, Seattle, WA"]> ∅))).

Definition sampleCandidate : EventCandidate.t :=
  EventCandidate.mk 7%N 3%N "event_1_1" (Some sampleFields)
    (services.mkEventConfidences 0.98 0.85 0.90 0.91) (Some "JAZZ NIGHT July 15")
    None (Some 0.91%Q) None None.

(** 3 November 2026, noon, UTC. *)
Definition sampleNow : time.Time := time.Date 2026 11 3 12 0 0 0 0.

Definition goodReply : services.Completion :=
  services.Content (Some (services.mkModerationData
    (services.mkQualityFactors 1 1 1 (1#2) 1 1) true None)).

Definition sampleResult : FlyerDetectionResult :=
  mkFlyerDetectionResult
    [mkFlyerRegion "flyer_1" 0.95
       [mkPoint 100 50; mkPoint 300 50; mkPoint 300 400; mkPoint 100 400] (Some 0%Q)
       [mkEventCandidate "event_1_1"
          (mkEventFields "Summer Music Festival" (Some "2024-07-15T19:00:00") None None
             (Some "Central Park") (Some "123 Main St, City, ST 12345") (Some "$25")
             (Some "Live music and food trucks") (Some "Music Society") None None
             (Some "music") None)
          (mkEventConfidences 0.98 0.85 0.90 0.91) "Summer Music Festival July 15"]
       "Clear, well-lit flyer"]
    1 "good" "Detected 1 flyer containing 1 event.".

(** The clock a day after [sampleNow]. *)
Definition sampleLater : time.Time := time.Add sampleNow (24 * time.Hour).

(** Another session publishes the same flyer, pending review. *)
Definition rivalEvent : Event.t :=
  Event.mk 0%N "jazz night_2030-07-15" "Jazz Night" (time.Date 2030 7 15 19 0 0 0 0)
    None None None None None None "flyer" "auto" None "pending".

Definition rivalSession (db : DB) : DB := fst (CreateEvent rivalEvent db).

End Fixtures.

(* ===================================================================== *)
(** * The vocabulary of the further properties *)
(* ===================================================================== *)

Section FurtherVocabulary.
Import services.

(** The venue name reads like a street address. *)
Definition addressLike (name : string) : bool :=
  GoStrings.Contains name "St" || GoStrings.Contains name "Ave" ||
  GoStrings.Contains name "Rd".

(** The keys [geocodeWithMapbox] files address components under. *)
Definition componentKeys : gset string :=
  {[ "city"; "state"; "country"; "postal_code" ]}.

(** A JPEG file of eight bytes. *)
Definition tinyJPEG : list Byte.byte :=
  [Byte.xff; Byte.xd8; Byte.xff; Byte.xe0; Byte.x00; Byte.x10; Byte.x4a; Byte.x46].

(** A Mapbox answer with one feature. *)
Definition sampleExchange : Exchange :=
  Response 200 (Some (mkMapboxResponse
    [mkMapboxFeature [(-122.3493)%Q; 47.6205%Q] "400 Broad St, Seattle, WA 98109"
       [("place.1", "Seattle"); ("region.2", "Washington"); ("postcode.3", "98109");
        ("country.4", "United States")] 0.92]
    ["400 broad st"])).

(** An environment that sets the two required variables only. *)
Definition sampleEnviron : config.Environ :=
  config.mkEnviron "postgres://localhost/williamboard" "sk-test" "" "" "" None None None.

(** The confidence of a stored venue is at most that of another. *)
Definition confidenceLe (c c' : option Q) : Prop :=
  match c, c' with
  | Some x, Some y => (x <= y)%Q
  | Some _, None => False
  | None, _ => True
  end.

(** The primary key of the venues table holds in the store. *)
Definition uniqueVenueIDs (db : DB) : Prop := NoDup (map Venue.ID (venues db)).

(** A store with one venue, geocoded with confidence 0.7. *)
Definition venueStore : DB :=
  mkDB [] []
    [Venue.mk 1%N "Blue Room" (Some "1 Main St") (Some "Seattle") (Some "WA")
       (Some "98101") "US" (Some ((-122.33)%Q, 47.6%Q)) (Some 0.7%Q) None]
    [] 2%N.

(** The string of an optional field, when it is there and not empty. *)
Definition filled (v : option string) : option string :=
  match v with
  | Some s => if String.eqb s "" then None else Some s
  | None => None
  end.

(** The primary key of the candidates table holds in the store. *)
Definition uniqueCandidateIDs (db : DB) : Prop :=
  NoDup (map EventCandidate.ID (event_candidates db)).

(** The candidate belongs to a flyer of the submission. *)
Definition inSubmission (submissionID : UUID) (db : DB) (c : EventCandidate.t) : bool :=
  existsb (fun f => (Flyer.ID f =? EventCandidate.FlyerID c)%N &&
                    (Flyer.SubmissionID f =? submissionID)%N) (flyers db).

(** The fields column of the candidate decodes. *)
Definition decodable (c : EventCandidate.t) : bool :=
  match EventCandidate.Fields c with
  | Some _ => true
  | None => false
  end.

(** A candidate row as [SaveResults] writes it: the fields of an
    extracted event, the overall confidence as score, no decision and
    no geocode yet. *)
Definition undecided (c : EventCandidate.t) : Prop :=
  EventCandidate.PublishResult c = None /\ EventCandidate.PublicationReason c = None /\
  EventCandidate.Geocode c = None /\
  EventCandidate.CompositeScore c = Some (ecOverall (EventCandidate.Confidences c)) /\
  exists f, EventCandidate.Fields c = Some (marshalEventFields f).

(** An Event row is as it was, or as it was and approved. *)
Definition keptOrApproved (e e' : Event.t) : Prop :=
  e' = e \/ e' = Event.withModerationState e "approved".

(** The events table [l'] holds the rows of [l] at their places, each
    kept or approved, and possibly more rows after them. *)
Definition eventsGrow (l l' : list Event.t) : Prop :=
  exists kept new, l' = (kept ++ new)%list /\ Forall2 keptOrApproved l kept.

(** The row the Stage 3 loop leaves for a candidate row [x] of the
    store [db] once the candidates [done] have been processed. *)
Definition rowAfter (cfg : config.Config) (now : time.Time)
    (reply : EventCandidate.t -> Completion) (http : EventCandidate.t -> Exchange)
    (db : DB) (done : list EventCandidate.t) (x : EventCandidate.t) : EventCandidate.t :=
  if existsb (fun c => (EventCandidate.ID c =? EventCandidate.ID x)%N) done && decodable x
  then snd (fst (UploadHandler.processEventCandidate cfg now (reply x) (http x) x db))
  else x.

(** The row Stage 3 leaves for a candidate row of the store: the one
    [processEventCandidate] returns, for a candidate of the
    submission whose fields decode; the row itself otherwise. *)
Definition afterStage3 (cfg : config.Config) (now : time.Time)
    (reply : EventCandidate.t -> Completion) (http : EventCandidate.t -> Exchange)
    (submissionID : UUID) (db : DB) (x : EventCandidate.t) : EventCandidate.t :=
  if inSubmission submissionID db x && decodable x
  then snd (fst (UploadHandler.processEventCandidate cfg now (reply x) (http x) x db))
  else x.

(** Identifiers of candidate rows are unique and were all handed out
    by the store. *)
Definition candidateIDsIssued (db : DB) : Prop :=
  uniqueCandidateIDs db /\
  List.Forall (fun c => (EventCandidate.ID c < nextID db)%N) (event_candidates db).

(** The status of a submission. *)
Definition statusOf (submissionID : UUID) (st : Orchestrator.Store) : option string :=
  Submission.Status <$>
    find (fun s => (Submission.ID s =? submissionID)%N) (Orchestrator.submissions st).

(** A store holding one uploaded submission and nothing else. *)
Definition uploadedStore : Orchestrator.Store :=
  Orchestrator.mkStore
    [Submission.mk 5%N None "uploads/5/original.jpg" None None false "uploaded"]
    gorm.empty.

(** The candidate cannot be promoted: its fields do not decode, or
    hold no title. *)
Definition untitled (c : EventCandidate.t) : Prop :=
  match EventCandidate.Fields c with
  | None => True
  | Some fields => nonEmptyString fields "title" = None
  end.

(** The candidate row after a moderation action on it. *)
Definition moderated (publishResult reason : string) (c : EventCandidate.t)
  : EventCandidate.t :=
  EventCandidate.mk (EventCandidate.ID c) (EventCandidate.FlyerID c)
    (EventCandidate.EventID c) (EventCandidate.Fields c)
    (EventCandidate.Confidences c) (EventCandidate.SourceExcerpt c)
    (EventCandidate.Geocode c) (EventCandidate.CompositeScore c)
    (Some publishResult)
    (if String.eqb reason "" then EventCandidate.PublicationReason c else Some reason).

(** A store with the sample candidate, awaiting review. *)
Definition reviewStore : DB :=
  mkDB [] [EventCandidate.decided sampleCandidate 0.5 "needs_review"
             (Some "requires manual review (low quality score)")] [] [] 8%N.

(** The query without parameters, but for [include_past=true]. *)
Definition everything : EventHandler.ListQuery :=
  EventHandler.mkListQuery "true" "" "" "" "" "" "".

(** The store after the sample candidate was published. *)
Definition publishedStore : DB :=
  fst (UploadHandler.promoteToPublicEvent sampleNow sampleCandidate gorm.empty).

(** The configuration with the flag AUTO_PUBLISH_ENABLED set to [flag]. *)
Definition withAutoPublishEnabled (cfg : config.Config) (flag : bool) : config.Config :=
  config.mkConfig (config.DatabaseURL cfg) (config.OpenAIAPIKey cfg) (config.OpenAIModel cfg)
    (config.Geocoder cfg) (config.GeocoderAPIKey cfg) flag
    (config.AutoPublishThreshold cfg) (config.GeoConfThreshold cfg).

(** The status the dashboard shows for a candidate row. *)
Definition displayed (c : EventCandidate.t) : string :=
  fst (AdminModeration.getStatusDisplay (EventCandidate.PublishResult c)
         (EventCandidate.CompositeScore c)).

(** The number of candidate rows the dashboard shows under a status. *)
Definition shownAs (status : string) (db : DB) : Z :=
  Z.of_nat (length (List.filter (fun c => String.eqb (displayed c) status)
                      (event_candidates db))).


(** The number of line breaks in a text. *)
Fixpoint lineBreaks (s : string) : nat :=
  match s with
  | EmptyString => 0
  | String c rest =>
      ((if Ascii.eqb c "010" then 1 else 0) + lineBreaks rest)%nat
  end.

End FurtherVocabulary.

(* ===================================================================== *)
(** * Properties *)
(* ===================================================================== *)

(** ** Sanity checks of the library models *)

Example strings_examples :
  GoStrings.ToLower (GoStrings.TrimSpace " Jazz Night ") = "jazz night" /\
  GoStrings.Fields "  123 Main St,  Springfield  " = ["123"; "Main"; "St,"; "Springfield"] /\
  GoStrings.Contains "sunny day" "ny" = true /\
  GoStrings.Contains "chicago" "la" = false.
Proof. repeat split; reflexivity. Qed.

Example time_examples :
  time.DateOf (time.Date 2024 2 29 23 59 59 0 0) = (2024, 2, 29) /\
  time.DateOf (time.AddDate (time.Date 2024 2 29 23 59 59 0 0) 1) = (2025, 3, 1) /\
  time.FormatDate (time.Date 2024 7 15 19 0 0 0 (-25200)) = "2024-07-15" /\
  time.Parse "2006-01-02T15:04:05" "2024-07-15T19:00:00" = Some (time.Date 2024 7 15 19 0 0 0 0) /\
  time.Parse "2006-01-02T15:04:05" "2024-07-15T19:00:00.25"
    = Some (time.Date 2024 7 15 19 0 0 250000000 0) /\
  time.Parse "2006-01-02 15:04" "2024-07-15   9:05" = Some (time.Date 2024 7 15 9 5 0 0 0) /\
  time.Parse "January 2, 2006" "july 4, 2025" = Some (time.Date 2025 7 4 0 0 0 0 0) /\
  time.Parse "Jan 2, 2006" "July 4, 2025" = None /\
  time.Parse "2006-01-02" "2023-02-29" = None /\
  time.Parse "2006-01-02" "2024-01-01T10:00" = None.
Proof. repeat split; vm_compute; reflexivity. Qed.

Example ilike_examples :
  ilike "Blue Room" "blue room" = true /\
  ilike "Blue Room" "blue" = false /\
  ilike "Blue Room" "b%m" = true /\
  ilike "100% Fun" "100\% fun" = true.
Proof. repeat split; reflexivity. Qed.

(* ===================================================================== *)
(** ** The confidence scorer *)
(* ===================================================================== *)

Section Scorer.
Import services.
Local Open Scope Q_scope.





End Scorer.

(* ===================================================================== *)
(** ** The geocoding stub *)
(* ===================================================================== *)

Section Geocoding.
Import services.






End Geocoding.

(* ===================================================================== *)
(** ** The moderation stage and the decision engine *)
(* ===================================================================== *)

Section Decision.
Import services UploadHandler.

Lemma events_SaveEventCandidate c db : events (SaveEventCandidate c db) = events db.
Proof. unfold SaveEventCandidate. destruct (existsb _ _); reflexivity. Qed.

Lemma events_SaveVenue v db : events (SaveVenue v db) = events db.
Proof. unfold SaveVenue. destruct (existsb _ _); reflexivity. Qed.

Lemma events_createOrUpdateVenue eventData g db :
  events (fst (createOrUpdateVenue eventData g db)) = events db.
Proof.
  unfold createOrUpdateVenue.
  destruct (String.eqb _ ""); [reflexivity|].
  destruct (FirstVenueByNameCity _ _ db) as [v|]; [|reflexivity].
  destruct (match Venue.GeocodeConfidence v with Some _ => _ | None => _ end);
    [apply events_SaveVenue | reflexivity].
Qed.

(** The geocoding half of [processEventCandidate] leaves the decision
    and the events table alone. *)
Lemma processEventCandidate_shape cfg now reply http candidate db eventData :
  EventCandidate.Fields candidate = Some eventData ->
  let m := assessed cfg reply eventData in
  let rule := decisionRule (config.AutoPublishThreshold cfg) m in
  let decidedCandidate :=
    EventCandidate.decided candidate (QualityScore m) (fst rule) (snd rule) in
  let out := processEventCandidate cfg now reply http candidate db in
  snd out = Ok tt /\
  EventCandidate.CompositeScore (snd (fst out)) = Some (QualityScore m) /\
  EventCandidate.PublishResult (snd (fst out)) = Some (fst rule) /\
  EventCandidate.PublicationReason (snd (fst out)) = snd rule /\
  events (fst (fst out)) =
    (if String.eqb (fst rule) "published"
     then events (fst (promoteToPublicEvent now decidedCandidate db))
     else events db).
Proof.
  intros Hf m rule decidedCandidate out.
  subst out. unfold processEventCandidate. rewrite Hf.
  fold (assessed cfg reply eventData). fold m.
  subst decidedCandidate rule. unfold decisionRule.
  destruct (IsAppropriate m); cbn [negb];
    [destruct (Qle_bool (config.AutoPublishThreshold cfg) (QualityScore m))|];
    cbn [fst snd];
    (destruct (negb (String.eqb (extractVenueAddress eventData) ""));
     [destruct (GeocodeAddress cfg http (extractVenueAddress eventData)) as [g|e];
      [destruct (Qle_bool (config.GeoConfThreshold cfg) (Confidence g))|]|]);
    cbn [fst snd EventCandidate.decided
         EventCandidate.withGeocode EventCandidate.CompositeScore
         EventCandidate.PublishResult EventCandidate.PublicationReason];
    rewrite events_SaveEventCandidate, ?events_createOrUpdateVenue;
    repeat split; reflexivity.
Qed.


End Decision.

(** *** Fixtures *)


Section Moderation.
Import services UploadHandler.
Local Open Scope Q_scope.

Lemma mockModerationResult_score eventData :
  QualityScore (mockModerationResult eventData) == heuristicScore eventData /\
  QualityScore (mockModerationResult eventData) <= 1.
Proof.
  unfold mockModerationResult, heuristicScore.
  destruct (present eventData "title"), (present eventData "venue"),
    (present eventData "date"); cbn; split; vm_compute; congruence.
Qed.




End Moderation.

(* ===================================================================== *)
(** ** Persisting the extraction result *)
(* ===================================================================== *)

Section Persistence.
Import services vision.
Local Open Scope list_scope.

Lemma saveEvents_appends flyerID evs db :
  exists cs,
    event_candidates (saveEvents flyerID evs db) = event_candidates db ++ cs /\
    map EventCandidate.EventID cs = map EventID evs /\
    flyers (saveEvents flyerID evs db) = flyers db /\
    venues (saveEvents flyerID evs db) = venues db /\
    events (saveEvents flyerID evs db) = events db.
Proof.
  revert db. induction evs as [|ev evs IH]; intros db.
  - exists []. cbn. rewrite app_nil_r. auto.
  - cbn [saveEvents].
    destruct (IH (fst (CreateEventCandidate
                         (EventCandidate.mk 0%N flyerID (EventID ev)
                            (Some (marshalEventFields (Fields ev))) (Confidences ev)
                            (Some (Excerpt ev)) None
                            (Some (ecOverall (Confidences ev))) None None) db)))
      as (cs & Hc & Hm & Hfl & Hv & He).
    eexists (_ :: cs). rewrite Hc, Hfl, Hv, He. cbn.
    rewrite <- app_assoc. cbn. rewrite Hm. auto.
Qed.

Lemma saveRegions_appends submissionID regions db :
  appended submissionID regions db (saveRegions submissionID regions db).
Proof.
  revert db. induction regions as [|r regions IH]; intros db.
  - exists [], []. cbn. rewrite !app_nil_r. repeat split; auto.
  - cbn [saveRegions CreateFlyer].
    set (db1 := mkDB _ _ _ _ _).
    destruct (saveEvents_appends (nextID db) (Events r) db1)
      as (cs1 & Hc1 & Hm1 & Hf1 & Hv1 & He1).
    destruct (IH (saveEvents (nextID db) (Events r) db1))
      as (fs & cs & Hf & Hc & Hmf & Hall & Hmc & Hv & He).
    cbn [Flyer.ID].
    eexists (_ :: fs), (cs1 ++ cs).
    rewrite Hf, Hc, Hv, He, Hf1, Hc1, Hv1, He1. subst db1. cbn.
    rewrite <- !app_assoc. cbn. unfold eventIDs in *. cbn.
    rewrite map_app, Hm1, Hmc, Hmf.
    repeat split; auto.
Qed.

(** C10, as the code has it.  [SaveResults] only inserts: a run adds
    one flyer row per detected region and one candidate row per
    extracted event, after the rows already stored, and never fails.
    A second run on the same output for the same submission therefore
    adds a second copy of every row: the row counts grow twice, and
    the rows of the first run stay as they were. *)
Theorem SaveResults_appends (db : DB) (submissionID : UUID) (res : FlyerDetectionResult) :
  let db1 := fst (SaveResults db submissionID res) in
  let db2 := fst (SaveResults db1 submissionID res) in
  snd (SaveResults db submissionID res) = Ok tt /\
  appended submissionID (FlyersDetected res) db db1 /\
  appended submissionID (FlyersDetected res) db1 db2 /\
  length (flyers db2) = (length (flyers db) + 2 * length (FlyersDetected res))%nat /\
  length (event_candidates db2)
    = (length (event_candidates db) + 2 * length (eventIDs (FlyersDetected res)))%nat.
Proof.
  intros db1 db2. subst db1 db2. unfold SaveResults. cbn [fst snd].
  split; [reflexivity|].
  pose proof (saveRegions_appends submissionID (FlyersDetected res) db) as H1.
  pose proof (saveRegions_appends submissionID (FlyersDetected res)
                (saveRegions submissionID (FlyersDetected res) db)) as H2.
  split; [exact H1|]. split; [exact H2|].
  destruct H1 as (fs1 & cs1 & Hf1 & Hc1 & Hmf1 & _ & Hmc1 & _).
  destruct H2 as (fs2 & cs2 & Hf2 & Hc2 & Hmf2 & _ & Hmc2 & _).
  rewrite Hf2, Hc2, Hf1, Hc1. rewrite !length_app.
  apply (f_equal (@length _)) in Hmf1, Hmf2, Hmc1, Hmc2.
  rewrite !length_map in Hmf1, Hmf2, Hmc1, Hmc2.
  rewrite Hmf1, Hmf2, Hmc1, Hmc2, ?length_map. split; lia.
Qed.

(** C10 as it is written fails: a second run on the same output
    stores every flyer and every candidate a second time. *)
Lemma SaveResults_rerun_counterexample :
  let db1 := fst (SaveResults gorm.empty 1%N sampleResult) in
  let db2 := fst (SaveResults db1 1%N sampleResult) in
  map Flyer.RegionID (flyers db1) = ["flyer_1"] /\
  map EventCandidate.EventID (event_candidates db1) = ["event_1_1"] /\
  map Flyer.RegionID (flyers db2) = ["flyer_1"; "flyer_1"] /\
  map Flyer.SubmissionID (flyers db2) = [1%N; 1%N] /\
  map EventCandidate.EventID (event_candidates db2) = ["event_1_1"; "event_1_1"] /\
  flyers db2 <> flyers db1 /\ event_candidates db2 <> event_candidates db1.
Proof.
  cbv zeta. repeat split; try (vm_compute; reflexivity).
  - intros H. apply (f_equal (@length _)) in H. vm_compute in H. discriminate.
  - intros H. apply (f_equal (@length _)) in H. vm_compute in H. discriminate.
Qed.

End Persistence.

(* ===================================================================== *)
(** ** Canonical keys *)
(* ===================================================================== *)

Section Canonicalization.
Import GoStrings.


Lemma lowerByte_idem c : lowerByte (lowerByte c) = lowerByte c.
Proof. destruct c as [[] [] [] [] [] [] [] []]; reflexivity. Qed.

Lemma ToLower_idem s : ToLower (ToLower s) = ToLower s.
Proof. induction s as [|c s IH]; cbn; [|rewrite lowerByte_idem, IH]; reflexivity. Qed.




Lemma append_cons c (l s : string) : String c l ++ s = String c (l ++ s).
Proof. reflexivity. Qed.

Lemma append_nil (s : string) : "" ++ s = s.
Proof. reflexivity. Qed.









End Canonicalization.

(* ===================================================================== *)
(** ** Start-time resolution *)
(* ===================================================================== *)

Section StartTime.





End StartTime.

(* ===================================================================== *)
(** ** Candidate promotion *)
(* ===================================================================== *)

Section Promotion.
Local Open Scope list_scope.

(** *** The store operations *)

Lemma FirstEventByKey_Some key db e :
  FirstEventByKey key db = Some e -> Event.CanonicalKey e = key /\ In e (events db).
Proof.
  unfold FirstEventByKey. intros H. apply find_some in H as [Hin Hk].
  unfold hasKey in Hk. apply String.eqb_eq in Hk. auto.
Qed.

Lemma FirstEventByKey_None key db :
  FirstEventByKey key db = None -> existsb (hasKey key) (events db) = false.
Proof.
  unfold FirstEventByKey. induction (events db) as [|x l IH]; cbn; [reflexivity|].
  destruct (hasKey key x); [discriminate | exact IH].
Qed.

Lemma hasKey_withModerationState key e s :
  hasKey key (Event.withModerationState e s) = hasKey key e.
Proof. reflexivity. Qed.

Lemma length_UpdateModerationState e s db :
  length (events (UpdateModerationState e s db)) = length (events db).
Proof. cbn. apply length_map. Qed.

Lemma keys_UpdateModerationState e s db :
  map Event.CanonicalKey (events (UpdateModerationState e s db))
    = map Event.CanonicalKey (events db).
Proof.
  cbn. induction (events db) as [|x l IH]; cbn; [reflexivity|].
  rewrite IH. destruct (_ =? _)%N; reflexivity.
Qed.

(** After the update the lookup finds the same row, approved. *)
Lemma FirstEventByKey_Update key db e :
  FirstEventByKey key db = Some e ->
  FirstEventByKey key (UpdateModerationState e "approved" db)
    = Some (Event.withModerationState e "approved").
Proof.
  unfold FirstEventByKey. cbn [events UpdateModerationState].
  induction (events db) as [|x l IH]; cbn; [discriminate|].
  destruct (hasKey key x) eqn:Hx.
  - intros [= ->]. rewrite N.eqb_refl, hasKey_withModerationState, Hx. reflexivity.
  - intros H. destruct (_ =? _)%N; rewrite ?hasKey_withModerationState, Hx; auto.
Qed.

Lemma FirstEventByKey_app_new key l e (db' : DB) :
  events db' = l ++ [e] -> existsb (hasKey key) l = false -> Event.CanonicalKey e = key ->
  FirstEventByKey key db' = Some e.
Proof.
  unfold FirstEventByKey. intros -> Hn Hk.
  induction l as [|x l IH]; cbn in *.
  - unfold hasKey. rewrite Hk, String.eqb_refl. reflexivity.
  - destruct (hasKey key x); [discriminate | auto].
Qed.


Lemma count_by_keys key (l l' : list Event.t) :
  map Event.CanonicalKey l = map Event.CanonicalKey l' ->
  length (List.filter (hasKey key) l) = length (List.filter (hasKey key) l').
Proof.
  revert l'. induction l as [|x l IH]; intros [|y l']; cbn; try discriminate; auto.
  intros [= Hxy Hl]. specialize (IH _ Hl).
  assert (Hk : hasKey key x = hasKey key y) by (unfold hasKey; now rewrite Hxy).
  rewrite Hk. destruct (hasKey key y); cbn; now rewrite IH.
Qed.



Lemma uniqueKeys_new key db db' e :
  uniqueKeys db -> events db' = events db ++ [e] ->
  existsb (hasKey key) (events db) = false -> Event.CanonicalKey e = key ->
  uniqueKeys db'.
Proof.
  unfold uniqueKeys. intros Hnd -> Hn Hk. rewrite map_app. cbn.
  apply NoDup_app. split; [exact Hnd|]. split; [|apply NoDup_singleton].
  intros k Hin Hin'. apply list_elem_of_In in Hin, Hin'. cbn in Hin'.
  destruct Hin' as [<-|[]].
  apply in_map_iff in Hin as (y & Hy & Hyin).
  assert (He : existsb (hasKey key) (events db) = true).
  { apply existsb_exists. exists y. split; [exact Hyin|].
    unfold hasKey. rewrite Hy, Hk. apply String.eqb_refl. }
  congruence.
Qed.

Lemma CreateEvent_fresh e db :
  existsb (hasKey (Event.CanonicalKey e)) (events db) = false ->
  snd (CreateEvent e db) = Ok (Event.withID e (nextID db)) /\
  events (fst (CreateEvent e db)) = events db ++ [Event.withID e (nextID db)] /\
  venues (fst (CreateEvent e db)) = venues db.
Proof. unfold CreateEvent. intros ->. auto. Qed.

Lemma CreateEvent_taken e db :
  existsb (hasKey (Event.CanonicalKey e)) (events db) = true ->
  CreateEvent e db = (db, Err duplicateKey).
Proof. unfold CreateEvent. intros ->. reflexivity. Qed.

End Promotion.

Section PromotionLaws.
Local Open Scope list_scope.


Lemma resolveVenue_events fields db :
  events (fst (AdminHandler.resolveVenue fields db)) = events db /\
  exists v, snd (AdminHandler.resolveVenue fields db) = Ok v.
Proof.
  unfold AdminHandler.resolveVenue.
  destruct (nonEmptyString fields "venue"); [|eauto].
  destruct (FirstVenueByNameILike _ db); cbn; eauto.
Qed.

Lemma UploadHandler_promotesByKey now candidate fields title :
  EventCandidate.Fields candidate = Some fields ->
  nonEmptyString fields "title" = Some title ->
  promotesByKey (canonicalKey title (startTsOf now fields))
    (UploadHandler.promoteToPublicEvent now candidate).
Proof.
  intros Hf Ht db.
  unfold UploadHandler.promoteToPublicEvent, UploadHandler.promoteUnder.
  rewrite Hf, Ht. cbv zeta.
  generalize (canonicalKey title (startTsOf now fields)) as key.
  generalize (startTsOf now fields) as startTs. intros startTs key.
  destruct (FirstEventByKey key db) as [e|] eqn:Hfind.
  - destruct (String.eqb _ "approved"); cbn [negb fst snd]; auto.
  - apply FirstEventByKey_None in Hfind.
    match goal with |- context [CreateEvent ?ev db] =>
      destruct (CreateEvent_fresh ev db Hfind) as (Hs & He & _);
      destruct (CreateEvent ev db) as [d r] end.
    cbn [fst snd] in *. subst r. split; [reflexivity|].
    eexists. split; [exact He|]. split; reflexivity.
Qed.

Lemma AdminHandler_promotesByKey now candidate fields title :
  EventCandidate.Fields candidate = Some fields ->
  nonEmptyString fields "title" = Some title ->
  promotesByKey (canonicalKey title (startTsOf now fields))
    (AdminHandler.promoteToPublicEvent now candidate).
Proof.
  intros Hf Ht db.
  unfold AdminHandler.promoteToPublicEvent, AdminHandler.promoteUnder.
  rewrite Hf, Ht. cbv zeta.
  generalize (canonicalKey title (startTsOf now fields)) as key.
  generalize (startTsOf now fields) as startTs.
  generalize (match nonEmptyString fields "end_date" with
              | Some endStr => AdminHandler.parseEnd AdminHandler.endFormats endStr
              | None => None
              end) as endTs.
  intros endTs startTs key.
  destruct (FirstEventByKey key db) as [e|] eqn:Hfind.
  - destruct (String.eqb _ "approved"); cbn [negb fst snd]; auto.
  - apply FirstEventByKey_None in Hfind.
    destruct (resolveVenue_events fields db) as (Hev & v & Hv).
    destruct (AdminHandler.resolveVenue fields db) as [tx1 rv].
    cbn [fst snd] in Hev, Hv. subst rv.
    rewrite <- Hev in Hfind.
    match goal with |- context [CreateEvent ?ev tx1] =>
      destruct (CreateEvent_fresh ev tx1 Hfind) as (Hs & He & _);
      destruct (CreateEvent ev tx1) as [d r] end.
    cbn [fst snd] in *. subst r. split; [reflexivity|].
    eexists. split; [rewrite <- Hev; exact He|]. split; reflexivity.
Qed.



End PromotionLaws.

Section UniqueViolation.
Local Open Scope list_scope.

(** C3, as the code has it.  When another session inserts an Event
    with the same canonical key between the lookup and the insert of
    a promotion, the insert is refused by the unique index and
    [promoteToPublicEvent] returns the error "failed to create event";
    the events table is left as the other session wrote it: the row
    is not upgraded. *)
Theorem promoteUnder_unique_violation
    (others : DB -> DB) (now : time.Time) (candidate : EventCandidate.t)
    (fields : gmap string JSON) (title : string) (db : DB) (rival : Event.t) :
  EventCandidate.Fields candidate = Some fields ->
  nonEmptyString fields "title" = Some title ->
  let key := canonicalKey title (startTsOf now fields) in
  FirstEventByKey key db = None ->
  FirstEventByKey key (others db) = Some rival ->
  UploadHandler.promoteUnder others now candidate db
    = (others db, Err ("failed to create event: " ++ duplicateKey)%string) /\
  snd (AdminHandler.promoteUnder others now candidate db)
    = Err ("failed to create event: " ++ duplicateKey)%string /\
  events (fst (AdminHandler.promoteUnder others now candidate db)) = events (others db).
Proof.
  intros Hf Ht key. subst key.
  unfold UploadHandler.promoteUnder, AdminHandler.promoteUnder.
  rewrite Hf, Ht. cbv zeta.
  generalize (canonicalKey title (startTsOf now fields)) as key.
  generalize (startTsOf now fields) as startTs.
  generalize (match nonEmptyString fields "end_date" with
              | Some endStr => AdminHandler.parseEnd AdminHandler.endFormats endStr
              | None => None
              end) as endTs.
  intros endTs startTs key Hnone Hrival. rewrite Hnone.
  assert (Hex : existsb (hasKey key) (events (others db)) = true).
  { apply FirstEventByKey_Some in Hrival as [Hk Hin].
    apply existsb_exists. exists rival. split; [exact Hin|].
    unfold hasKey. rewrite Hk. apply String.eqb_refl. }
  split.
  - match goal with |- context [CreateEvent ?ev (others db)] =>
      rewrite (CreateEvent_taken ev (others db) Hex) end.
    reflexivity.
  - destruct (resolveVenue_events fields (others db)) as (Hev & v & Hv).
    destruct (AdminHandler.resolveVenue fields (others db)) as [tx1 rv].
    cbn [fst snd] in Hev, Hv. subst rv. rewrite <- Hev in Hex.
    match goal with |- context [CreateEvent ?ev tx1] =>
      rewrite (CreateEvent_taken ev tx1 Hex) end.
    cbn [fst snd]. auto.
Qed.

(** The sample candidate loses the race against [rivalSession]. *)
Lemma promoteUnder_unique_violation_witness :
  UploadHandler.promoteUnder rivalSession sampleNow sampleCandidate gorm.empty
    = (rivalSession gorm.empty, Err ("failed to create event: " ++ duplicateKey)%string).
Proof.
  assert (Ht : nonEmptyString sampleFields "title" = Some "Jazz Night")
    by (vm_compute; reflexivity).
  assert (Hn : FirstEventByKey (canonicalKey "Jazz Night" (startTsOf sampleNow sampleFields))
                 gorm.empty = None) by (vm_compute; reflexivity).
  assert (Hr : FirstEventByKey (canonicalKey "Jazz Night" (startTsOf sampleNow sampleFields))
                 (rivalSession gorm.empty) = Some (Event.withID rivalEvent 1%N))
    by (vm_compute; reflexivity).
  exact (proj1 (promoteUnder_unique_violation rivalSession sampleNow sampleCandidate
                  sampleFields "Jazz Night" gorm.empty _ eq_refl Ht Hn Hr)).
Defined.

(** C3 as it is written fails: the promotion that loses the race
    returns the violation as its error, and the row the other session
    inserted stays "pending": no upgrade takes place. *)
Lemma promoteUnder_unique_violation_counterexample :
  let out := UploadHandler.promoteUnder rivalSession sampleNow sampleCandidate gorm.empty in
  let out' := AdminHandler.promoteUnder rivalSession sampleNow sampleCandidate gorm.empty in
  FirstEventByKey "jazz night_2030-07-15" gorm.empty = None /\
  snd out = Err "failed to create event: duplicate key value violates unique constraint idx_events_canonical_key" /\
  map Event.CanonicalKey (events (fst out)) = ["jazz night_2030-07-15"] /\
  map Event.ModerationState (events (fst out)) = ["pending"] /\
  snd out' = snd out /\
  map Event.ModerationState (events (fst out')) = ["pending"].
Proof. cbv zeta. repeat split; vm_compute; reflexivity. Qed.

End UniqueViolation.

Section VenueReference.
Local Open Scope list_scope.

Lemma UploadHandler_promote_venues now candidate db :
  venues (fst (UploadHandler.promoteToPublicEvent now candidate db)) = venues db.
Proof.
  unfold UploadHandler.promoteToPublicEvent, UploadHandler.promoteUnder.
  destruct (EventCandidate.Fields candidate) as [fields|]; [|reflexivity].
  destruct (nonEmptyString fields "title") as [title|]; [|reflexivity].
  cbv zeta.
  generalize (canonicalKey title (startTsOf now fields)) as key.
  generalize (startTsOf now fields) as startTs. intros startTs key.
  destruct (FirstEventByKey key db) as [e|].
  - destruct (negb _); reflexivity.
  - unfold CreateEvent. destruct (existsb _ _); reflexivity.
Qed.

(** C8 on the code.  The promotion of the upload handler never reads
    or writes the venues table, and the Event it inserts for a
    candidate that names a venue has no venue reference; the
    promotion of the admin handler, on the same candidate and store,
    creates the venue from the name and the address line, without
    location, and the Event refers to it. *)
Theorem promoteToPublicEvent_venue_reference :
  (forall now candidate db,
     venues (fst (UploadHandler.promoteToPublicEvent now candidate db)) = venues db) /\
  (let db' := fst (UploadHandler.promoteToPublicEvent sampleNow sampleCandidate gorm.empty) in
   nonEmptyString sampleFields "venue" = Some "Blue Room" /\
   map Event.CanonicalKey (events db') = ["jazz night_2030-07-15"] /\
   map Event.VenueID (events db') = [None] /\
   venues db' = []) /\
  (let db' := fst (AdminHandler.promoteToPublicEvent sampleNow sampleCandidate gorm.empty) in
   map Event.CanonicalKey (events db') = ["jazz night_2030-07-15"] /\
   map Event.VenueID (events db') = [Some 1%N] /\
   venues db' = [Venue.mk 1%N "Blue Room" (Some "1 Main St, Seattle, WA")
                   None None None "US" None None None]) /\
  (let db0 := fst (CreateVenue (Venue.mk 0%N "BLUE ROOM" None None None None "" None None None)
                     gorm.empty) in
   let db' := fst (AdminHandler.promoteToPublicEvent sampleNow sampleCandidate db0) in
   map Event.VenueID (events db') = [Some 1%N] /\
   map Venue.Name (venues db') = ["BLUE ROOM"]).
Proof.
  split; [exact UploadHandler_promote_venues|].
  cbv zeta. repeat split; vm_compute; reflexivity.
Qed.

End VenueReference.

(* ===================================================================== *)
(** ** The corners in binary64 *)
(* ===================================================================== *)

Section Binary64.
Import PrimFloat.
#[local] Set Warnings "-inexact-float".

(** The rationals above stand for binary64 numbers.  In binary64, with
    the sums taken from left to right as the source writes them: the
    score of the factor vector (1, ..., 1) is exactly 1 and that of
    (0, ..., 0) exactly 0, so that the scorer, which rounding keeps
    monotone, stays within [0,1] on the unit cube; the threshold 0.80
    admits 0.80 and not 0.79; the greatest heuristic score does not
    reach the cap; the default score 0.5 is below the threshold. *)
Example binary64_corners :
  (eqb (1 * 0.25 + 1 * 0.20 + 1 * 0.20 + 1 * 0.15 + 1 * 0.15 + 1 * 0.05) 1 = true /\
   eqb (0 * 0.25 + 0 * 0.20 + 0 * 0.20 + 0 * 0.15 + 0 * 0.15 + 0 * 0.05) 0 = true /\
   leb 0.80 0.80 = true /\ leb 0.80 0.79 = false /\
   leb (0.75 + 0.1 + 0.05 + 0.05) 1.0 = true /\ ltb 1.0 (0.75 + 0.1 + 0.05 + 0.05) = false /\
   leb 0.80 0.5 = false)%float.
Proof. repeat split; reflexivity. Qed.

End Binary64.

(* ===================================================================== *)
(** * Further properties of the back end *)
(* ===================================================================== *)

(* ===================================================================== *)
(** ** Venue addresses and coordinates *)
(* ===================================================================== *)

Section VenueAddress.
Import services GeocodingService.

Lemma Join_cons_nonempty c s rest sep :
  Join (String c s :: rest) sep <> "".
Proof. destruct rest; cbn; discriminate. Qed.

Lemma venueAddressParts_nil name addressLine city state postalCode country :
  venueAddressParts name addressLine city state postalCode country = [] <->
  (name = "" \/ addressLike name = false) /\ addressLine = "" /\ city = "" /\
  postalCode = "" /\ (country = "" \/ country = "US").
Proof.
  unfold venueAddressParts. fold (addressLike name).
  destruct (String.eqb_spec name "") as [Hn|Hn], (addressLike name);
    destruct (String.eqb_spec addressLine "") as [Ha|Ha];
    destruct (String.eqb_spec city "") as [Hc|Hc];
    destruct (String.eqb_spec state "") as [Hs|Hs];
    destruct (String.eqb_spec postalCode "") as [Hp|Hp];
    destruct (String.eqb_spec country "") as [Hk|Hk];
    destruct (String.eqb_spec country "US") as [Hu|Hu];
    cbn [negb andb app];
    (split; [intros H; try discriminate H | intros (H1 & H2 & H3 & H4 & H5)]);
    try (exfalso; congruence);
    try (destruct H1; exfalso; congruence);
    try (destruct H5; exfalso; congruence);
    try reflexivity;
    repeat split; auto.
Qed.

Lemma venueAddressParts_nonempty name addressLine city state postalCode country :
  Forall (fun p => p <> "") (venueAddressParts name addressLine city state postalCode country).
Proof.
  unfold venueAddressParts. fold (addressLike name).
  assert (Hcs : city <> "" -> (city ++ ", " ++ state)%string <> "")
    by (destruct city; [congruence | discriminate]).
  destruct (String.eqb_spec name "") as [Hn|Hn], (addressLike name);
    destruct (String.eqb_spec addressLine "") as [Ha|Ha];
    destruct (String.eqb_spec city "") as [Hc|Hc];
    destruct (String.eqb_spec state "") as [Hs|Hs];
    destruct (String.eqb_spec postalCode "") as [Hp|Hp];
    destruct (String.eqb_spec country "") as [Hk|Hk];
    destruct (String.eqb_spec country "US") as [Hu|Hu];
    cbn [negb andb app];
    repeat (apply Forall_cons; split; [auto|]); apply Forall_nil; exact I.
Qed.

(** X1.  [BuildVenueAddress] returns the empty string exactly when
    there is nothing to join: no address line, no city, no postal
    code, no country other than "US", and a venue name that is empty
    or has none of "St", "Ave", "Rd" in it.  A state without a city
    is dropped, and the country "US" counts as none. *)
Theorem BuildVenueAddress_empty_iff (name addressLine city state postalCode country : string) :
  (BuildVenueAddress name addressLine city state postalCode country = "" <->
   (name = "" \/ addressLike name = false) /\ addressLine = "" /\ city = "" /\
   postalCode = "" /\ (country = "" \/ country = "US")) /\
  BuildVenueAddress name addressLine "" state postalCode country
    = BuildVenueAddress name addressLine "" "" postalCode country /\
  BuildVenueAddress name addressLine city state postalCode "US"
    = BuildVenueAddress name addressLine city state postalCode "".
Proof.
  split; [|split; [reflexivity|]].
  - pose proof (venueAddressParts_nil name addressLine city state postalCode country) as Hnil.
    pose proof (venueAddressParts_nonempty name addressLine city state postalCode country) as Hne.
    unfold BuildVenueAddress.
    destruct (venueAddressParts name addressLine city state postalCode country) as [|p ps].
    + split; [intros _; now apply Hnil | reflexivity].
    + apply Forall_cons in Hne as [Hp _]. destruct p as [|c s]; [congruence|].
      split; [intros H; now apply Join_cons_nonempty in H|].
      intros H. apply Hnil in H. discriminate.
  - unfold BuildVenueAddress, venueAddressParts. reflexivity.
Qed.

End VenueAddress.

(* ===================================================================== *)
(** ** The live geocoder and the stub *)
(* ===================================================================== *)

Section LiveGeocoder.
Import services.

Lemma contextComponents_dom ctx (m : gmap string string) :
  dom (contextComponents ctx m) ⊆ dom m ∪ componentKeys.
Proof.
  revert m. induction ctx as [|[id text] ctx IH]; intros m; cbn [contextComponents].
  - apply union_subseteq_l.
  - etransitivity; [apply IH|].
    repeat match goal with |- context [if ?b then _ else _] => destruct b end;
      rewrite ?dom_insert; unfold componentKeys; intros x;
      rewrite !elem_of_union, ?elem_of_singleton; tauto.
Qed.

Lemma TrimSpace_empty : GoStrings.TrimSpace "" = "".
Proof. reflexivity. Qed.

(** X2.  What a successful [geocodeWithMapbox] guarantees: the
    address was not blank, the exchange was a 200 whose body decoded
    and whose first feature has at least two coordinates, read as
    longitude then latitude; the formatted address is never empty
    (the address itself stands in for a missing one), the confidence
    is never zero (0.5 stands in for a missing relevance), and the
    components are filed under "city", "state", "country" and
    "postal_code" only.  A blank address is an error whatever the
    provider answers. *)
Theorem geocodeWithMapbox_success (http : Exchange) (address : string) (r : GeocodeResult) :
  geocodeWithMapbox http address = Ok r ->
  GoStrings.TrimSpace address <> "" /\
  (exists resp feature rest lng lat more,
     http = Response 200 (Some resp) /\ Features resp = feature :: rest /\
     Coordinates feature = lng :: lat :: more /\
     Longitude r = lng /\ Latitude r = lat /\
     (FormattedAddress r = FullAddress feature \/ FormattedAddress r = address)) /\
  FormattedAddress r <> "" /\
  ~ (Confidence r == 0)%Q /\
  dom (Components r) ⊆ componentKeys /\
  (forall http' blank, GoStrings.TrimSpace blank = "" ->
                      geocodeWithMapbox http' blank = Err "empty address").
Proof.
  unfold geocodeWithMapbox.
  destruct (String.eqb_spec (GoStrings.TrimSpace address) "") as [He|He]; [discriminate|].
  destruct http as [err|status body]; [discriminate|].
  destruct (Z.eqb_spec status 200) as [->|Hs]; [|discriminate]. cbn [negb].
  destruct body as [resp|]; [|discriminate].
  destruct (Features resp) as [|feature rest] eqn:Hf; [discriminate|].
  destruct (Coordinates feature) as [|lng [|lat more]] eqn:Hc; try discriminate.
  intros [= <-]. cbn [Longitude Latitude FormattedAddress Confidence Components].
  assert (Ha : address <> "") by (intros ->; now apply He).
  split; [exact He|]. split; [|split; [|split; [|split]]].
  - exists resp, feature, rest, lng, lat, more. repeat split; auto.
    destruct (String.eqb _ ""); auto.
  - destruct (String.eqb_spec (FullAddress feature) ""); auto.
  - destruct (Qeq_bool (Relevance feature) 0) eqn:Hq.
    + intros H. vm_compute in H. discriminate.
    + intros H. apply Qeq_bool_iff in H. congruence.
  - etransitivity; [apply contextComponents_dom|].
    rewrite dom_empty. intros x. rewrite elem_of_union, elem_of_empty. tauto.
  - intros http' blank Hb. now rewrite Hb.
Qed.

(** The sample exchange answers for an address in Seattle. *)
Lemma geocodeWithMapbox_success_witness :
  exists r, geocodeWithMapbox sampleExchange "400 Broad St" = Ok r /\
            FormattedAddress r <> "" /\ Latitude r = 47.6205%Q.
Proof.
  eexists. split; [reflexivity|].
  destruct (geocodeWithMapbox_success sampleExchange "400 Broad St" _ eq_refl)
    as (_ & _ & H & _).
  split; [exact H | reflexivity].
Defined.

(** X3.  The stub never fails and never leaves the globe: without a
    credential [GeocodeAddress] answers every address, the empty one
    included, with coordinates that pass [ValidateCoordinates], a
    confidence of 0.7 or 0.8, and the address itself as formatted
    address; with a credential and the Mapbox provider a blank
    address is refused. *)
Theorem GeocodeAddress_stub_total (cfg : config.Config) (http : Exchange) (address : string) :
  (noGeocoderKey cfg ->
   exists r, GeocodeAddress cfg http address = Ok r /\
     GeocodingService.ValidateCoordinates (Latitude r) (Longitude r) = true /\
     (Confidence r = 0.7%Q \/ Confidence r = 0.8%Q) /\
     FormattedAddress r = address) /\
  (~ noGeocoderKey cfg -> config.Geocoder cfg = "mapbox" ->
   GoStrings.TrimSpace address = "" ->
   GeocodeAddress cfg http address = Err "empty address").
Proof.
  split.
  - intros Hk. exists (mockGeocodeResult address).
    split; [unfold GeocodeAddress; destruct Hk as [-> | ->]; reflexivity|].
    unfold mockGeocodeResult.
    destruct (_ || _); [|destruct (_ || _); [|destruct (GoStrings.Contains _ "chicago");
      [|destruct (GoStrings.Contains _ "seattle")]]];
      cbn [Latitude Longitude Confidence FormattedAddress];
      (split; [vm_compute; reflexivity|]); (split; [|reflexivity]);
      destruct (_ && _); auto.
  - intros Hk Hg Ht. unfold GeocodeAddress, noGeocoderKey in *.
    destruct (String.eqb_spec (config.GeocoderAPIKey cfg) ""); [tauto|].
    destruct (String.eqb_spec (config.GeocoderAPIKey cfg) "your-mapbox-api-key"); [tauto|].
    cbn [orb]. rewrite Hg. cbn. unfold geocodeWithMapbox. rewrite Ht. reflexivity.
Qed.

End LiveGeocoder.

(* ===================================================================== *)
(** ** The image check *)
(* ===================================================================== *)

Section Images.
Import VisionService.

Lemma byteIs_app data rest i b :
  (i < length data)%nat -> byteIs (data ++ rest)%list i b = byteIs data i b.
Proof. intros H. unfold byteIs. now rewrite lookup_app_l. Qed.

(** X4.  [isValidImageFormat] accepts nothing shorter than eight
    bytes (so not a bare six-byte GIF signature), looks at the first
    twelve bytes only, and accepts everything of eight bytes or more
    that starts with FF D8; [prepareImage] refuses what it rejects,
    and what is longer than 18 MiB, and returns the data of every
    other readable file. *)
Theorem isValidImageFormat_header (data : list Byte.byte) :
  (isValidImageFormat data = true -> (8 <= length data)%nat) /\
  (forall rest, (12 <= length data)%nat ->
     isValidImageFormat (data ++ rest)%list = isValidImageFormat data) /\
  (forall rest, (6 <= length rest)%nat ->
     isValidImageFormat (Byte.xff :: Byte.xd8 :: rest) = true) /\
  isValidImageFormat [Byte.x47; Byte.x49; Byte.x46; Byte.x38; Byte.x39; Byte.x61] = false /\
  (forall out, prepareImage (Ok data) = Ok out ->
     out = data /\ isValidImageFormat data = true /\
     Z.of_nat (length data) <= 18 * 1024 * 1024) /\
  (isValidImageFormat data = true -> Z.of_nat (length data) <= 18 * 1024 * 1024 ->
   prepareImage (Ok data) = Ok data).
Proof.
  split; [|split; [|split; [|split; [|split]]]].
  - unfold isValidImageFormat. destruct (Nat.ltb_spec (length data) 8); [discriminate|lia].
  - intros rest H. unfold isValidImageFormat. rewrite length_app.
    rewrite !byteIs_app by lia.
    destruct (Nat.ltb_spec (length data + length rest) 8),
      (Nat.ltb_spec (length data) 8); try lia.
    destruct (Nat.leb_spec 8 (length data + length rest)),
      (Nat.leb_spec 8 (length data)); try lia.
    destruct (Nat.leb_spec 12 (length data + length rest)),
      (Nat.leb_spec 12 (length data)); try lia.
    destruct (Nat.leb_spec 6 (length data + length rest)),
      (Nat.leb_spec 6 (length data)); try lia.
    reflexivity.
  - intros rest H. unfold isValidImageFormat. cbn [length].
    destruct (Nat.ltb_spec (S (S (length rest))) 8); [lia|]. reflexivity.
  - reflexivity.
  - intros out. unfold prepareImage, maxSize.
    destruct (Z.ltb_spec (18 * 1024 * 1024) (Z.of_nat (length data))); [discriminate|].
    destruct (isValidImageFormat data); [|discriminate].
    intros [= <-]. auto.
  - intros Hv Hl. unfold prepareImage, maxSize.
    destruct (Z.ltb_spec (18 * 1024 * 1024) (Z.of_nat (length data))); [lia|].
    rewrite Hv. reflexivity.
Qed.

End Images.

(* ===================================================================== *)
(** ** The configuration *)
(* ===================================================================== *)

Section Configuration.
Import services.

Lemma Validate_Ok c :
  config.Validate c = Ok tt <->
  GoStrings.TrimSpace (config.DatabaseURL c) <> "" /\
  GoStrings.TrimSpace (config.OpenAIAPIKey c) <> "".
Proof.
  unfold config.Validate.
  destruct (String.eqb_spec (GoStrings.TrimSpace (config.DatabaseURL c)) "");
    [split; [discriminate | tauto]|].
  destruct (String.eqb_spec (GoStrings.TrimSpace (config.OpenAIAPIKey c)) "");
    [split; [discriminate | tauto]|].
  split; auto.
Qed.

Lemma getEnv_blank v : GoStrings.TrimSpace (config.getEnv v "") = GoStrings.TrimSpace v.
Proof. unfold config.getEnv. destruct (String.eqb_spec v ""); [now subst | reflexivity]. Qed.

(** X5.  [config.Load] succeeds exactly when DATABASE_URL and
    OPENAI_API_KEY are set and not blank.  A loaded configuration
    therefore always has a classifier client: in a running server the
    moderation stage never takes its no-credential path, and a failed
    classifier call is always an error, never the heuristic. *)
Theorem Load_requires_credentials (env : config.Environ) :
  ((exists cfg, config.Load env = Ok cfg) <->
   GoStrings.TrimSpace (config.DATABASE_URL env) <> "" /\
   GoStrings.TrimSpace (config.OPENAI_API_KEY env) <> "") /\
  (forall cfg, config.Load env = Ok cfg ->
     hasClient cfg = true /\
     config.OpenAIAPIKey cfg = config.OPENAI_API_KEY env /\
     (forall err eventData,
        ModerateEventCandidate cfg (CallFailed err) eventData
          = Err ("moderation API call failed: " ++ err))).
Proof.
  unfold config.Load.
  match goal with |- context [config.Validate ?c] => set (cfg0 := c) end.
  pose proof (Validate_Ok cfg0) as HV.
  unfold cfg0 in HV at 2 3. cbn [config.DatabaseURL config.OpenAIAPIKey] in HV.
  rewrite !getEnv_blank in HV.
  split.
  - destruct (config.Validate cfg0) as [[]|e].
    + split; [intros _; now apply HV | eauto].
    + split; [intros [cfg H]; discriminate|].
      intros H. apply HV in H. discriminate.
  - intros cfg Hl.
    destruct (config.Validate cfg0) as [[]|e]; [|discriminate].
    injection Hl as <-.
    destruct (proj1 HV eq_refl) as [_ Hk].
    assert (Hne : config.OPENAI_API_KEY env <> "") by (intros E; rewrite E in Hk; now apply Hk).
    assert (Hkey : config.OpenAIAPIKey cfg0 = config.OPENAI_API_KEY env).
    { unfold cfg0. cbn. unfold config.getEnv.
      destruct (String.eqb_spec (config.OPENAI_API_KEY env) ""); [contradiction|reflexivity]. }
    assert (Hc : hasClient cfg0 = true).
    { unfold hasClient. rewrite Hkey.
      destruct (String.eqb_spec (config.OPENAI_API_KEY env) ""); [contradiction|reflexivity]. }
    split; [exact Hc|]. split; [exact Hkey|].
    intros err eventData. unfold ModerateEventCandidate. rewrite Hc. reflexivity.
Qed.

End Configuration.

(* ===================================================================== *)
(** ** The venue upsert *)
(* ===================================================================== *)

Section VenueUpsert.
Import services UploadHandler.
Local Open Scope list_scope.

Lemma find_app_new {A} (p : A -> bool) l x :
  find p l = None -> find p (l ++ [x]) = if p x then Some x else None.
Proof.
  induction l as [|y l IH]; cbn; [reflexivity|].
  destruct (p y); [discriminate | exact IH].
Qed.

Lemma find_saved (p : Venue.t -> bool) l venue venue' :
  find p l = Some venue -> Venue.ID venue' = Venue.ID venue -> p venue' = true ->
  find p (map (fun x => if (Venue.ID x =? Venue.ID venue')%N then venue' else x) l)
    = Some venue'.
Proof.
  intros Hf Hid Hp. induction l as [|x l IH]; cbn in *; [discriminate|].
  destruct (p x) eqn:Hx.
  - injection Hf as ->. rewrite Hid, N.eqb_refl, Hp. reflexivity.
  - destruct (Venue.ID x =? Venue.ID venue')%N; [now rewrite Hp|].
    rewrite Hx. auto.
Qed.

Lemma find_existsb {A} (p q : A -> bool) l x :
  find p l = Some x -> q x = true -> existsb q l = true.
Proof.
  intros Hf Hq. apply find_some in Hf as [Hin _].
  apply existsb_exists. eauto.
Qed.

Lemma Qlt_le_dec_refl (c : Q) : (if Qlt_le_dec c c then true else false) = false.
Proof. destruct (Qlt_le_dec c c) as [H|H]; [now apply Qlt_irrefl in H | reflexivity]. Qed.

(** X6.  [createOrUpdateVenue] is idempotent: a second call with the
    same event data and geocoding result returns what the first
    returned and leaves the store exactly as the first left it.  The
    first call adds at most one venue row, and none when a venue with
    the name and the geocoded city is stored. *)
Theorem createOrUpdateVenue_idempotent
    (eventData : gmap string JSON) (g : GeocodeResult) (db : DB) :
  let first := createOrUpdateVenue eventData g db in
  createOrUpdateVenue eventData g (fst first) = (fst first, snd first) /\
  (length (venues (fst first)) <= S (length (venues db)))%nat /\
  (forall venue,
     FirstVenueByNameCity (default "" (asString (eventData !! "venue")))
       (component (Components g) "city") db = Some venue ->
     length (venues (fst first)) = length (venues db)).
Proof.
  cbv zeta. unfold createOrUpdateVenue.
  set (venueName := default "" (asString (eventData !! "venue"))).
  set (city := component (Components g) "city").
  destruct (String.eqb venueName "") eqn:Hn.
  { cbn [fst snd]. split; [reflexivity|]. split; [lia|reflexivity]. }
  unfold FirstVenueByNameCity.
  set (p := fun v : Venue.t => String.eqb (Venue.Name v) venueName &&
                 match Venue.City v with Some c => String.eqb c city | None => false end).
  destruct (find p (venues db)) as [venue|] eqn:Hf.
  - assert (Hp : p venue = true) by (apply find_some in Hf; tauto).
    destruct (match Venue.GeocodeConfidence venue with
              | Some c => if Qlt_le_dec c (Confidence g) then true else false
              | None => true end) eqn:Hc.
    + set (venue' := Venue.mk _ _ _ _ _ _ _ _ _ _).
      assert (Hp' : p venue' = true) by exact Hp.
      assert (Hs : venues (SaveVenue venue' db)
                   = map (fun x => if (Venue.ID x =? Venue.ID venue')%N then venue' else x)
                         (venues db)).
      { unfold SaveVenue.
        rewrite (find_existsb p (fun x => (Venue.ID x =? Venue.ID venue')%N) _ _ Hf)
          by apply N.eqb_refl.
        reflexivity. }
      cbn [fst snd]. rewrite Hs.
      rewrite (find_saved p _ venue venue' Hf eq_refl Hp').
      cbn [Venue.GeocodeConfidence venue']. rewrite Qlt_le_dec_refl.
      split; [reflexivity|]. rewrite length_map. split; [lia|reflexivity].
    + cbn [fst snd]. rewrite Hf, Hc. split; [reflexivity|]. split; [lia|reflexivity].
  - cbn [CreateVenue fst snd venues]. rewrite (find_app_new p _ _ Hf).
    match goal with |- context [p ?v] => assert (Hp : p v = true) end.
    { unfold p. cbn [Venue.Name Venue.City]. now rewrite !String.eqb_refl. }
    rewrite Hp. cbn [Venue.GeocodeConfidence]. rewrite Qlt_le_dec_refl.
    split; [reflexivity|]. rewrite length_app. cbn. split; [lia|discriminate].
Qed.

Lemma uniqueVenueIDs_eq (l : list Venue.t) v w :
  NoDup (map Venue.ID l) -> In v l -> In w l -> Venue.ID v = Venue.ID w -> v = w.
Proof.
  induction l as [|x l IH]; cbn; [tauto|].
  intros Hnd. apply NoDup_cons in Hnd as [Hx Hnd].
  intros [<-|Hv] [<-|Hw] Hid; auto.
  - exfalso. apply Hx. rewrite Hid. apply list_elem_of_In. now apply in_map.
  - exfalso. apply Hx. rewrite <- Hid. apply list_elem_of_In. now apply in_map.
Qed.

(** X7.  A geocoding result never lowers what is stored: under the
    primary key of the venues table, every venue row is found after
    [createOrUpdateVenue] at its place, with its id, name, city,
    state, postal code and country, and a geocode confidence that is
    at least the one it had; and without a venue name in the event
    data the call fails and writes nothing. *)
Theorem createOrUpdateVenue_keeps_best
    (eventData : gmap string JSON) (g : GeocodeResult) (db : DB) :
  uniqueVenueIDs db ->
  let out := createOrUpdateVenue eventData g db in
  (forall (i : nat) v, venues db !! i = Some v ->
     exists v', venues (fst out) !! i = Some v' /\
       Venue.ID v' = Venue.ID v /\ Venue.Name v' = Venue.Name v /\
       Venue.City v' = Venue.City v /\ Venue.State v' = Venue.State v /\
       Venue.PostalCode v' = Venue.PostalCode v /\ Venue.Country v' = Venue.Country v /\
       confidenceLe (Venue.GeocodeConfidence v) (Venue.GeocodeConfidence v')) /\
  (asString (eventData !! "venue") = None \/ asString (eventData !! "venue") = Some "" ->
   out = (db, Err "no venue name found")).
Proof.
  intros Hnd. cbv zeta.
  assert (Hkeep : forall (i : nat) v, venues db !! i = Some v ->
     exists v', venues db !! i = Some v' /\
       Venue.ID v' = Venue.ID v /\ Venue.Name v' = Venue.Name v /\
       Venue.City v' = Venue.City v /\ Venue.State v' = Venue.State v /\
       Venue.PostalCode v' = Venue.PostalCode v /\ Venue.Country v' = Venue.Country v /\
       confidenceLe (Venue.GeocodeConfidence v) (Venue.GeocodeConfidence v')).
  { intros i v Hi. exists v. repeat split; auto.
    unfold confidenceLe. destruct (Venue.GeocodeConfidence v); [apply Qle_refl | exact I]. }
  split.
  2:{ unfold createOrUpdateVenue. intros [-> | ->]; reflexivity. }
  unfold createOrUpdateVenue.
  destruct (String.eqb _ ""); [exact Hkeep|].
  destruct (FirstVenueByNameCity _ _ db) as [venue|] eqn:Hf.
  - destruct (match Venue.GeocodeConfidence venue with
              | Some c => if Qlt_le_dec c (Confidence g) then true else false
              | None => true end) eqn:Hc; [|exact Hkeep].
    unfold FirstVenueByNameCity in Hf.
    set (venue' := Venue.mk _ _ _ _ _ _ _ _ _ _).
    cbn [fst]. unfold SaveVenue.
    rewrite (find_existsb _ (fun x => (Venue.ID x =? Venue.ID venue')%N) _ _ Hf)
      by apply N.eqb_refl.
    cbn [venues]. intros i v Hi. rewrite list_lookup_fmap, Hi. cbn [fmap option_fmap option_map].
    destruct (N.eqb_spec (Venue.ID v) (Venue.ID venue')) as [He|He].
    + assert (v = venue) as ->.
      { apply (uniqueVenueIDs_eq (venues db)); auto.
        - apply list_elem_of_In. eapply list_elem_of_lookup_2; eauto.
        - apply find_some in Hf; tauto. }
      exists venue'. repeat split; auto.
      unfold confidenceLe. cbn [venue' Venue.GeocodeConfidence].
      destruct (Venue.GeocodeConfidence venue) as [c|]; [|exact I].
      destruct (Qlt_le_dec c (Confidence g)) as [Hl|Hl]; [now apply Qlt_le_weak | discriminate].
    + exists v. repeat split; auto.
      unfold confidenceLe. destruct (Venue.GeocodeConfidence v); [apply Qle_refl | exact I].
  - cbn [CreateVenue fst venues]. intros i v Hi.
    destruct (Hkeep i v Hi) as (v' & Hv' & H).
    exists v'. split; [|exact H]. now apply lookup_app_l_Some.
Qed.

Lemma createOrUpdateVenue_keeps_best_witness :
  uniqueVenueIDs venueStore /\
  exists v', venues (fst (createOrUpdateVenue sampleFields
                            (mockGeocodeResult "Blue Room") venueStore)) !! 0%nat = Some v' /\
             Venue.ID v' = 1%N.
Proof.
  assert (H : uniqueVenueIDs venueStore).
  { unfold uniqueVenueIDs. cbn. apply NoDup_singleton. }
  split; [exact H|].
  destruct (createOrUpdateVenue_keeps_best sampleFields (mockGeocodeResult "Blue Room")
              venueStore H) as [Hk _].
  destruct (Hk 0%nat _ eq_refl) as (v' & Hv & Hid & _).
  exists v'. split; [exact Hv | exact Hid].
Defined.

End VenueUpsert.

(* ===================================================================== *)
(** ** What is geocoded, and what the venue row then holds *)
(* ===================================================================== *)

Section GeocodedVenue.
Import services UploadHandler.
Local Open Scope list_scope.

Lemma extractVenueAddress_eq eventData :
  extractVenueAddress eventData =
    match nonEmptyString eventData "venue" with
    | Some v => v
    | None =>
        match nonEmptyString eventData "address" with
        | Some v => v
        | None =>
            match nonEmptyString eventData "location" with
            | Some v => v
            | None => default "" (nonEmptyString eventData "where")
            end
        end
    end.
Proof.
  unfold extractVenueAddress.
  repeat match goal with |- context [nonEmptyString eventData ?k] =>
    destruct (nonEmptyString eventData k) end; reflexivity.
Qed.

Lemma nonEmptyString_Some m k s :
  nonEmptyString m k = Some s -> asString (m !! k) = Some s /\ s <> "".
Proof.
  unfold nonEmptyString. destruct (asString (m !! k)) as [v|]; [|discriminate].
  destruct (String.eqb_spec v ""); [discriminate|]. intros [= <-]. auto.
Qed.

Lemma venues_SaveEventCandidate c db : venues (SaveEventCandidate c db) = venues db.
Proof. unfold SaveEventCandidate. destruct (existsb _ _); reflexivity. Qed.

(** After [createOrUpdateVenue] for a named venue the store holds a
    venue of that name and geocoded city, at least as confident. *)
Lemma createOrUpdateVenue_post eventData g db name :
  nonEmptyString eventData "venue" = Some name ->
  snd (createOrUpdateVenue eventData g db) = Ok tt /\
  exists v,
    FirstVenueByNameCity name (component (Components g) "city")
      (fst (createOrUpdateVenue eventData g db)) = Some v /\
    confidenceLe (Some (Confidence g)) (Venue.GeocodeConfidence v).
Proof.
  intros Hn. apply nonEmptyString_Some in Hn as [Hs Hne].
  unfold createOrUpdateVenue. rewrite Hs. change (default "" (Some name)) with name.
  destruct (String.eqb_spec name ""); [contradiction|].
  unfold FirstVenueByNameCity.
  set (p := fun v : Venue.t => String.eqb (Venue.Name v) name &&
                 match Venue.City v with
                 | Some c => String.eqb c (component (Components g) "city")
                 | None => false end).
  destruct (find p (venues db)) as [venue|] eqn:Hf.
  - assert (Hp : p venue = true) by (apply find_some in Hf; tauto).
    destruct (Venue.GeocodeConfidence venue) as [c|] eqn:Hc;
      [destruct (Qlt_le_dec c (Confidence g)) as [Hl|Hl]|].
    + set (venue' := Venue.mk _ _ _ _ _ _ _ _ _ _). cbn [fst snd].
      split; [reflexivity|]. exists venue'. split; [|apply Qle_refl].
      unfold SaveVenue.
      rewrite (find_existsb p (fun x => (Venue.ID x =? Venue.ID venue')%N) _ _ Hf)
        by apply N.eqb_refl.
      cbn [venues]. now apply (find_saved p _ venue venue').
    + cbn [fst snd]. split; [reflexivity|]. exists venue. rewrite Hf, Hc. auto.
    + set (venue' := Venue.mk _ _ _ _ _ _ _ _ _ _). cbn [fst snd].
      split; [reflexivity|]. exists venue'. split; [|apply Qle_refl].
      unfold SaveVenue.
      rewrite (find_existsb p (fun x => (Venue.ID x =? Venue.ID venue')%N) _ _ Hf)
        by apply N.eqb_refl.
      cbn [venues]. now apply (find_saved p _ venue venue').
  - cbn [CreateVenue fst snd venues]. split; [reflexivity|].
    rewrite (find_app_new p _ _ Hf).
    match goal with |- context [p ?v] => assert (Hp : p v = true) end.
    { unfold p. cbn [Venue.Name Venue.City]. now rewrite !String.eqb_refl. }
    rewrite Hp. eexists. split; [reflexivity|]. apply Qle_refl.
Qed.

(** X8.  When the event data names a venue, it is the venue name that
    [processEventCandidate] sends to the geocoder, whatever the
    address field holds: the candidate carries the geocoder's answer
    for the name; when the answer's confidence reaches the threshold
    the store then holds a venue of that name and the answer's city,
    at least as confident; when it does not, the venues table is as
    before. *)
Theorem processEventCandidate_geocodes_venue_name
    (cfg : config.Config) (now : time.Time) (reply : Completion) (http : Exchange)
    (candidate : EventCandidate.t) (db : DB) (eventData : gmap string JSON)
    (name : string) (g : GeocodeResult) :
  EventCandidate.Fields candidate = Some eventData ->
  nonEmptyString eventData "venue" = Some name ->
  GeocodeAddress cfg http name = Ok g ->
  let out := processEventCandidate cfg now reply http candidate db in
  EventCandidate.Geocode (snd (fst out)) = Some g /\
  (Qle_bool (config.GeoConfThreshold cfg) (Confidence g) = true ->
   exists v,
     FirstVenueByNameCity name (component (Components g) "city") (fst (fst out)) = Some v /\
     confidenceLe (Some (Confidence g)) (Venue.GeocodeConfidence v)) /\
  (Qle_bool (config.GeoConfThreshold cfg) (Confidence g) = false ->
   venues (fst (fst out)) = venues db).
Proof.
  intros Hf Hn Hg. cbv zeta. unfold processEventCandidate. rewrite Hf.
  assert (Ha : extractVenueAddress eventData = name)
    by (rewrite extractVenueAddress_eq, Hn; reflexivity).
  rewrite Ha.
  assert (Hne : name <> "") by (apply nonEmptyString_Some in Hn; tauto).
  destruct (String.eqb_spec name ""); [contradiction|]. cbn [negb]. rewrite Hg.
  match goal with |- context [let '(db1, candidate1) := ?X in _] =>
    assert (Hv : venues (fst X) = venues db);
    [|destruct X as [db1 candidate1]] end.
  { destruct (negb _); [reflexivity|].
    destruct (Qle_bool _ _); [|reflexivity].
    cbn [fst]. apply UploadHandler_promote_venues. }
  cbn [fst] in Hv.
  destruct (Qle_bool (config.GeoConfThreshold cfg) (Confidence g)); cbn [fst snd].
  - split; [reflexivity|]. split; [|discriminate]. intros _.
    destruct (createOrUpdateVenue_post eventData g db1 name Hn) as (_ & v & Hfind & Hc).
    exists v. split; [|exact Hc].
    unfold FirstVenueByNameCity in *. now rewrite venues_SaveEventCandidate.
  - split; [reflexivity|]. split; [discriminate|]. intros _.
    now rewrite venues_SaveEventCandidate.
Qed.

(** The sample candidate names the venue "Blue Room" and gives a
    street address in Seattle; the stub is asked about "Blue Room". *)
Lemma processEventCandidate_geocodes_venue_name_witness :
  EventCandidate.Geocode
    (snd (fst (processEventCandidate sampleConfig sampleNow goodReply (RequestFailed "offline")
                 sampleCandidate gorm.empty)))
    = Some (mockGeocodeResult "Blue Room").
Proof.
  refine (proj1 (processEventCandidate_geocodes_venue_name sampleConfig sampleNow goodReply
            (RequestFailed "offline") sampleCandidate gorm.empty sampleFields "Blue Room"
            (mockGeocodeResult "Blue Room") eq_refl _ _)).
  - vm_compute. reflexivity.
  - reflexivity.
Defined.

End GeocodedVenue.

(* ===================================================================== *)
(** ** The fields the extraction stores, read back *)
(* ===================================================================== *)

Section StoredFields.
Import services UploadHandler.
Local Open Scope list_scope.

Lemma lookup_putOpt_ne k k' v (m : gmap string JSON) :
  k <> k' -> putOpt k' v m !! k = m !! k.
Proof. intros H. unfold putOpt. destruct v; [now apply lookup_insert_ne|reflexivity]. Qed.

Lemma lookup_putOpt k v (m : gmap string JSON) :
  putOpt k v m !! k = match v with Some s => Some (JString s) | None => m !! k end.
Proof. unfold putOpt. destruct v; [apply lookup_insert_eq|reflexivity]. Qed.

Ltac skip_fields :=
  repeat (rewrite lookup_putOpt_ne by discriminate);
  rewrite ?lookup_putOpt;
  repeat (rewrite lookup_putOpt_ne by discriminate);
  rewrite ?lookup_insert_ne by discriminate;
  rewrite ?lookup_insert_eq, ?lookup_empty.

Lemma marshalEventFields_lookups f :
  let m := marshalEventFields f in
  m !! "title" = Some (JString (efTitle f)) /\
  m !! "date" = None /\ m !! "end_date" = None /\
  m !! "location" = None /\ m !! "where" = None /\
  m !! "date_time" = JString <$> efDateTime f /\
  m !! "venue" = JString <$> efVenue f /\
  m !! "address" = JString <$> efAddress f.
Proof.
  cbv zeta. unfold marshalEventFields.
  repeat split; skip_fields; reflexivity.
Qed.

Lemma nonEmptyString_fmap (m : gmap string JSON) k v :
  m !! k = JString <$> v -> nonEmptyString m k = filled v.
Proof. intros H. unfold nonEmptyString. rewrite H. destruct v; reflexivity. Qed.

(** X9.  The fields [SaveResults] stores for an extracted event, as
    the later stages read them back: the title is there; the date
    text is the one of "date_time"; there is no "date" key, so the
    heuristic assessment never counts a date and scores at most 0.90;
    there is no "end_date" key (the extraction writes "end_time"), so
    the end time is never read; and the geocoded text is the venue
    name, else the address. *)
Theorem marshalEventFields_read_back (f : EventFields) :
  let eventData := marshalEventFields f in
  asString (eventData !! "title") = Some (efTitle f) /\
  dateStrOf eventData = default "" (efDateTime f) /\
  present eventData "date" = false /\
  (QualityScore (mockModerationResult eventData) <= 0.90)%Q /\
  nonEmptyString eventData "end_date" = None /\
  extractVenueAddress eventData =
    match filled (efVenue f) with
    | Some v => v
    | None => default "" (filled (efAddress f))
    end.
Proof.
  cbv zeta.
  destruct (marshalEventFields_lookups f) as (Ht & Hd & He & Hl & Hw & Hdt & Hv & Ha).
  split; [now rewrite Ht|].
  split.
  { unfold dateStrOf. unfold nonEmptyString at 1. rewrite Hd. cbn [asString].
    rewrite (nonEmptyString_fmap _ _ _ Hdt).
    destruct (efDateTime f) as [s|]; [|reflexivity]. cbn [filled default].
    destruct (String.eqb_spec s ""); [now subst | reflexivity]. }
  assert (Hp : present (marshalEventFields f) "date" = false)
    by (unfold present; now rewrite Hd).
  split; [exact Hp|].
  split.
  { destruct (mockModerationResult_score (marshalEventFields f)) as [Hs _].
    rewrite Hs. unfold heuristicScore. rewrite Hp.
    destruct (present _ "title"), (present _ "venue"); vm_compute; discriminate. }
  split; [unfold nonEmptyString; now rewrite He|].
  rewrite extractVenueAddress_eq.
  rewrite (nonEmptyString_fmap _ _ _ Hv), (nonEmptyString_fmap _ _ _ Ha).
  unfold nonEmptyString at 1 2. rewrite Hl, Hw. cbn [asString default].
  destruct (filled (efVenue f)); [reflexivity|].
  destruct (filled (efAddress f)); reflexivity.
Qed.

End StoredFields.

(* ===================================================================== *)
(** ** From the extraction to the decisions: the pipeline *)
(* ===================================================================== *)

Section Pipeline.
Import services vision UploadHandler Orchestrator.
Local Open Scope list_scope.

Lemma In_candidatesOf submissionID db c :
  In c (candidatesOf submissionID db) <->
  In c (event_candidates db) /\ inSubmission submissionID db c = true.
Proof.
  unfold candidatesOf, inSubmission. rewrite in_flat_map. split.
  - intros (x & Hx & Hin). apply in_map_iff in Hin as (f & <- & Hf).
    apply List.filter_In in Hf as [Hf Hb]. split; [exact Hx|].
    apply existsb_exists. eauto.
  - intros [Hx Hb]. apply existsb_exists in Hb as (f & Hf & Hb).
    exists c. split; [exact Hx|]. apply in_map_iff. exists f.
    split; [reflexivity|]. apply List.filter_In. auto.
Qed.

Lemma saveEvents_links flyerID evs db :
  exists cs,
    event_candidates (saveEvents flyerID evs db) = event_candidates db ++ cs /\
    flyers (saveEvents flyerID evs db) = flyers db /\
    List.Forall (fun c => EventCandidate.FlyerID c = flyerID /\ undecided c) cs.
Proof.
  revert db. induction evs as [|ev evs IH]; intros db.
  - exists []. cbn. rewrite app_nil_r. auto.
  - cbn [saveEvents].
    match goal with |- context [saveEvents flyerID evs ?d] =>
      destruct (IH d) as (cs & Hc & Hfl & Hall) end.
    eexists (_ :: cs). rewrite Hc, Hfl. cbn [CreateEventCandidate fst event_candidates flyers].
    rewrite <- app_assoc. split; [reflexivity|]. split; [reflexivity|].
    constructor; [|exact Hall].
    cbn. unfold undecided. cbn. repeat split; eauto.
Qed.

Lemma saveRegions_links submissionID regions db :
  exists fs cs,
    flyers (saveRegions submissionID regions db) = flyers db ++ fs /\
    event_candidates (saveRegions submissionID regions db) = event_candidates db ++ cs /\
    List.Forall (fun f => Flyer.SubmissionID f = submissionID) fs /\
    List.Forall (fun c => (exists f, In f fs /\ Flyer.ID f = EventCandidate.FlyerID c) /\
                          undecided c) cs.
Proof.
  revert db. induction regions as [|r regions IH]; intros db.
  - exists [], []. cbn. rewrite !app_nil_r. auto.
  - cbn [saveRegions CreateFlyer].
    set (db1 := mkDB _ _ _ _ _). cbn [Flyer.ID].
    destruct (saveEvents_links (nextID db) (Events r) db1) as (cs1 & Hc1 & Hf1 & Hall1).
    destruct (IH (saveEvents (nextID db) (Events r) db1)) as (fs & cs & Hf & Hc & Hs & Hall).
    match type of Hf1 with _ = flyers ?d =>
      change (flyers d) with (flyers db ++ [Flyer.mk (nextID db) submissionID (RegionID r)
        (Polygon r) (Rotation r) (Confidence_ r) None (Some (Notes r))]) in Hf1 end.
    change (event_candidates db1) with (event_candidates db) in Hc1.
    eexists (_ :: fs), (cs1 ++ cs).
    rewrite Hf, Hc, Hf1, Hc1, <- !app_assoc. cbn [app].
    split; [reflexivity|]. split; [reflexivity|].
    split; [constructor; [reflexivity | exact Hs]|].
    apply List.Forall_app. split.
    + eapply List.Forall_impl; [|exact Hall1]. cbn beta. intros c [Hfl Hu].
      split; [|exact Hu]. eexists. split; [left; reflexivity|]. now rewrite Hfl.
    + eapply List.Forall_impl; [|exact Hall]. cbn beta. intros c [(f & Hin & Hid) Hu].
      split; [|exact Hu]. exists f. split; [right; exact Hin | exact Hid].
Qed.

(** X10.  What [SaveResults] stores is what Stage 3 then reads: every
    candidate row it adds hangs on a flyer row of the submission, so
    that the query of [processStage3] finds it; it holds the fields of
    an extracted event, the overall confidence as score, and no
    decision; and the candidates the submission already had are found
    again, beside the new ones. *)
Theorem SaveResults_feeds_stage3 (db : DB) (submissionID : UUID) (res : FlyerDetectionResult) :
  let db' := fst (SaveResults db submissionID res) in
  (forall c, In c (event_candidates db') ->
     In c (event_candidates db) \/
     (In c (candidatesOf submissionID db') /\ undecided c)) /\
  (forall c, In c (candidatesOf submissionID db) -> In c (candidatesOf submissionID db')).
Proof.
  cbv zeta. unfold SaveResults. cbn [fst].
  destruct (saveRegions_links submissionID (FlyersDetected res) db)
    as (fs & cs & Hf & Hc & Hs & Hall).
  split.
  - intros c Hin. rewrite Hc in Hin. apply in_app_or in Hin as [Hin|Hin]; [left; exact Hin|].
    right. pose proof (proj1 (List.Forall_forall _ _) Hall c Hin) as [(f & Hfin & Hid) Hu].
    split; [|exact Hu]. apply In_candidatesOf. rewrite Hc. split; [apply in_or_app; auto|].
    unfold inSubmission. apply existsb_exists. exists f. rewrite Hf.
    split; [apply in_or_app; auto|].
    rewrite Hid, (proj1 (List.Forall_forall _ _) Hs f Hfin), !N.eqb_refl. reflexivity.
  - intros c Hin. apply In_candidatesOf in Hin as [Hin Hb]. apply In_candidatesOf.
    rewrite Hc. split; [apply in_or_app; auto|].
    unfold inSubmission in *. rewrite Hf, existsb_app, Hb. reflexivity.
Qed.

(** *** One candidate *)

Lemma promoteToPublicEvent_frame now candidate db :
  flyers (fst (promoteToPublicEvent now candidate db)) = flyers db /\
  event_candidates (fst (promoteToPublicEvent now candidate db)) = event_candidates db.
Proof.
  unfold promoteToPublicEvent, promoteUnder.
  destruct (EventCandidate.Fields candidate) as [fields|]; [|auto].
  destruct (nonEmptyString fields "title") as [title|]; [|auto].
  cbv zeta.
  generalize (canonicalKey title (startTsOf now fields)) as key.
  generalize (startTsOf now fields) as startTs. intros startTs key.
  destruct (FirstEventByKey key db) as [e|].
  - destruct (negb _); auto.
  - unfold CreateEvent. destruct (existsb _ _); auto.
Qed.

Lemma createOrUpdateVenue_frame eventData g db :
  flyers (fst (createOrUpdateVenue eventData g db)) = flyers db /\
  event_candidates (fst (createOrUpdateVenue eventData g db)) = event_candidates db.
Proof.
  unfold createOrUpdateVenue.
  destruct (String.eqb _ ""); [auto|].
  destruct (FirstVenueByNameCity _ _ db) as [v|]; [|auto].
  destruct (match Venue.GeocodeConfidence v with Some _ => _ | None => _ end); [|auto].
  cbn [fst]. unfold SaveVenue. destruct (existsb _ _); auto.
Qed.

Lemma SaveEventCandidate_frame c db db' :
  flyers db' = flyers db -> event_candidates db' = event_candidates db ->
  flyers (SaveEventCandidate c db') = flyers db /\
  event_candidates (SaveEventCandidate c db') = event_candidates (SaveEventCandidate c db).
Proof.
  intros Hf Hc. unfold SaveEventCandidate. rewrite Hc.
  destruct (existsb _ _); cbn; rewrite ?Hc; auto.
Qed.

Ltac branches cfg http eventData m :=
  destruct (IsAppropriate m); cbn [negb];
  [destruct (Qle_bool (config.AutoPublishThreshold cfg) (QualityScore m))|];
  (destruct (negb (String.eqb (extractVenueAddress eventData) ""));
   [destruct (GeocodeAddress cfg http (extractVenueAddress eventData)) as [g|e];
    [destruct (Qle_bool (config.GeoConfThreshold cfg) (Confidence g))|]|]);
  cbn [fst snd].

(** The candidate [processEventCandidate] returns does not depend on
    the store or the clock. *)
Lemma processEventCandidate_candidate cfg now now' reply http candidate db db' :
  snd (fst (processEventCandidate cfg now reply http candidate db))
    = snd (fst (processEventCandidate cfg now' reply http candidate db')).
Proof.
  unfold processEventCandidate.
  destruct (EventCandidate.Fields candidate) as [eventData|]; [|reflexivity].
  set (m := match ModerateEventCandidate cfg reply eventData with
            | Ok r => r | Err _ => moderationDefault end).
  branches cfg http eventData m; reflexivity.
Qed.

Lemma processEventCandidate_tables cfg now reply http candidate db eventData :
  EventCandidate.Fields candidate = Some eventData ->
  let out := processEventCandidate cfg now reply http candidate db in
  snd out = Ok tt /\
  flyers (fst (fst out)) = flyers db /\
  event_candidates (fst (fst out)) = event_candidates (SaveEventCandidate (snd (fst out)) db).
Proof.
  intros Hf. cbv zeta. unfold processEventCandidate. rewrite Hf.
  set (m := match ModerateEventCandidate cfg reply eventData with
            | Ok r => r | Err _ => moderationDefault end).
  branches cfg http eventData m; (split; [reflexivity|]);
    apply SaveEventCandidate_frame;
    repeat first
      [ reflexivity
      | rewrite (proj1 (createOrUpdateVenue_frame _ _ _))
      | rewrite (proj2 (createOrUpdateVenue_frame _ _ _))
      | rewrite (proj1 (promoteToPublicEvent_frame _ _ _))
      | rewrite (proj2 (promoteToPublicEvent_frame _ _ _)) ].
Qed.

Lemma processEventCandidate_identity cfg now reply http candidate db :
  let c' := snd (fst (processEventCandidate cfg now reply http candidate db)) in
  EventCandidate.ID c' = EventCandidate.ID candidate /\
  EventCandidate.FlyerID c' = EventCandidate.FlyerID candidate /\
  EventCandidate.EventID c' = EventCandidate.EventID candidate /\
  EventCandidate.Fields c' = EventCandidate.Fields candidate /\
  EventCandidate.Confidences c' = EventCandidate.Confidences candidate /\
  EventCandidate.SourceExcerpt c' = EventCandidate.SourceExcerpt candidate.
Proof.
  cbv zeta. unfold processEventCandidate.
  destruct (EventCandidate.Fields candidate) as [eventData|] eqn:Hf;
    [|cbn [fst snd]; rewrite Hf; repeat split; reflexivity].
  set (m := match ModerateEventCandidate cfg reply eventData with
            | Ok r => r | Err _ => moderationDefault end).
  branches cfg http eventData m; cbn; rewrite Hf; repeat split; reflexivity.
Qed.

(** X11.  The frame of [processEventCandidate].  A candidate whose
    fields do not decode is an error, and nothing is written.
    Otherwise the call succeeds and writes one candidate row, the one
    it returns, by primary key: all other candidate rows and all
    flyer rows are as before.  The row returned keeps the id, flyer,
    event id, fields, confidences and excerpt of the candidate, and
    it is the same whatever the store holds and the clock shows. *)
Theorem processEventCandidate_frame
    (cfg : config.Config) (now : time.Time) (reply : Completion) (http : Exchange)
    (candidate : EventCandidate.t) (db : DB) :
  let out := processEventCandidate cfg now reply http candidate db in
  let c' := snd (fst out) in
  (EventCandidate.Fields candidate = None ->
   out = (db, candidate, Err "failed to parse event fields")) /\
  (EventCandidate.Fields candidate <> None ->
   snd out = Ok tt /\
   event_candidates (fst (fst out)) = event_candidates (SaveEventCandidate c' db) /\
   forall x, In x (event_candidates db) ->
             EventCandidate.ID x <> EventCandidate.ID candidate ->
             In x (event_candidates (fst (fst out)))) /\
  flyers (fst (fst out)) = flyers db /\
  EventCandidate.ID c' = EventCandidate.ID candidate /\
  EventCandidate.FlyerID c' = EventCandidate.FlyerID candidate /\
  EventCandidate.EventID c' = EventCandidate.EventID candidate /\
  EventCandidate.Fields c' = EventCandidate.Fields candidate /\
  (forall now' db',
     snd (fst (processEventCandidate cfg now' reply http candidate db')) = c').
Proof.
  cbv zeta.
  destruct (processEventCandidate_identity cfg now reply http candidate db)
    as (Hid & Hfl & Hev & Hfs & _).
  split; [intros Hf; unfold processEventCandidate; now rewrite Hf|].
  split.
  { intros Hf. destruct (EventCandidate.Fields candidate) as [eventData|] eqn:Hd;
      [clear Hf | contradiction].
    destruct (processEventCandidate_tables cfg now reply http candidate db eventData Hd)
      as (Hok & _ & Hc).
    split; [exact Hok|]. split; [exact Hc|].
    intros x Hin Hne. rewrite Hc. unfold SaveEventCandidate.
    destruct (existsb _ _); cbn [event_candidates]; [|apply in_or_app; auto].
    apply in_map_iff. exists x. split; [|exact Hin].
    rewrite Hid. destruct (N.eqb_spec (EventCandidate.ID x) (EventCandidate.ID candidate));
      [contradiction | reflexivity]. }
  split.
  { destruct (EventCandidate.Fields candidate) as [eventData|] eqn:Hd.
    - apply (processEventCandidate_tables cfg now reply http candidate db eventData Hd).
    - unfold processEventCandidate. now rewrite Hd. }
  repeat split; auto.
  intros now' db'. apply processEventCandidate_candidate.
Qed.

End Pipeline.

(* ===================================================================== *)
(** ** Stage 3 over a submission *)
(* ===================================================================== *)

Section Stage3.
Import services vision UploadHandler Orchestrator.
Local Open Scope list_scope.

Lemma NoDup_map_In_eq {A B} (f : A -> B) (l : list A) x y :
  NoDup (map f l) -> In x l -> In y l -> f x = f y -> x = y.
Proof.
  induction l as [|a l IH]; cbn; [tauto|].
  intros Hnd. apply NoDup_cons in Hnd as [Ha Hnd].
  intros [<-|Hx] [<-|Hy] Hf; auto.
  - exfalso. apply Ha. rewrite Hf. apply list_elem_of_In. now apply in_map.
  - exfalso. apply Ha. rewrite <- Hf. apply list_elem_of_In. now apply in_map.
Qed.

Section Loop.
Variables (cfg : config.Config) (now : time.Time).
Variables (reply : EventCandidate.t -> Completion) (http : EventCandidate.t -> Exchange).
Variable db0 : DB.
Hypothesis unique : uniqueCandidateIDs db0.

Lemma ID_rowAfter done x :
  EventCandidate.ID (rowAfter cfg now reply http db0 done x) = EventCandidate.ID x.
Proof.
  unfold rowAfter. destruct (_ && _); [|reflexivity].
  apply processEventCandidate_identity.
Qed.

Lemma rowAfter_snoc_other done c x :
  EventCandidate.ID c <> EventCandidate.ID x ->
  rowAfter cfg now reply http db0 (done ++ [c]) x = rowAfter cfg now reply http db0 done x.
Proof.
  intros Hne. unfold rowAfter. rewrite existsb_app. cbn [existsb].
  destruct (N.eqb_spec (EventCandidate.ID c) (EventCandidate.ID x)); [contradiction|].
  now rewrite !orb_false_r.
Qed.

Lemma stage3_step done c db :
  In c (event_candidates db0) ->
  event_candidates db = map (rowAfter cfg now reply http db0 done) (event_candidates db0) ->
  event_candidates
    (fst (fst (processEventCandidate cfg now (reply c) (http c) c db)))
    = map (rowAfter cfg now reply http db0 (done ++ [c])) (event_candidates db0).
Proof.
  intros Hin Hdb.
  destruct (EventCandidate.Fields c) as [eventData|] eqn:Hf.
  - destruct (processEventCandidate_tables cfg now (reply c) (http c) c db eventData Hf)
      as (_ & _ & ->).
    rewrite (processEventCandidate_candidate cfg now now (reply c) (http c) c db db0).
    set (c' := snd (fst (processEventCandidate cfg now (reply c) (http c) c db0))).
    assert (Hid : EventCandidate.ID c' = EventCandidate.ID c)
      by apply processEventCandidate_identity.
    unfold SaveEventCandidate. rewrite Hdb.
    assert (He : existsb (fun x => (EventCandidate.ID x =? EventCandidate.ID c')%N)
                   (map (rowAfter cfg now reply http db0 done) (event_candidates db0)) = true).
    { apply existsb_exists. exists (rowAfter cfg now reply http db0 done c).
      split; [now apply in_map|]. rewrite ID_rowAfter, Hid. apply N.eqb_refl. }
    rewrite He. cbn [event_candidates]. rewrite map_map. apply map_ext_in.
    intros x Hx. rewrite ID_rowAfter, Hid.
    destruct (N.eqb_spec (EventCandidate.ID x) (EventCandidate.ID c)) as [Hxc|Hxc].
    + assert (x = c) as -> by (eapply NoDup_map_In_eq; eauto).
      unfold rowAfter. rewrite existsb_app. cbn [existsb]. rewrite N.eqb_refl.
      unfold decodable. rewrite Hf. rewrite orb_true_r. reflexivity.
    + symmetry. apply rowAfter_snoc_other. congruence.
  - unfold processEventCandidate. rewrite Hf. cbn [fst]. rewrite Hdb.
    apply map_ext_in. intros x Hx.
    destruct (N.eqb_spec (EventCandidate.ID x) (EventCandidate.ID c)) as [Hxc|Hxc].
    + assert (x = c) as -> by (eapply NoDup_map_In_eq; eauto).
      unfold rowAfter, decodable. rewrite Hf, !andb_false_r. reflexivity.
    + symmetry. apply rowAfter_snoc_other. congruence.
Qed.

Lemma stage3Loop_rows cs : forall done db,
  (forall c, In c cs -> In c (event_candidates db0)) ->
  event_candidates db = map (rowAfter cfg now reply http db0 done) (event_candidates db0) ->
  event_candidates (stage3Loop cfg now reply http cs db)
    = map (rowAfter cfg now reply http db0 (done ++ cs)) (event_candidates db0).
Proof.
  induction cs as [|c cs IH]; intros done db Hin Hdb; cbn [stage3Loop].
  - now rewrite app_nil_r.
  - replace (done ++ c :: cs) with ((done ++ [c]) ++ cs) by now rewrite <- app_assoc.
    apply IH; [intros x Hx; apply Hin; now right|].
    apply stage3_step; [apply Hin; now left | exact Hdb].
Qed.

Lemma stage3Loop_flyers cs : forall db,
  flyers (stage3Loop cfg now reply http cs db) = flyers db.
Proof.
  induction cs as [|c cs IH]; intros db; cbn [stage3Loop]; [reflexivity|].
  rewrite IH.
  destruct (EventCandidate.Fields c) as [eventData|] eqn:Hf.
  - apply (processEventCandidate_tables cfg now (reply c) (http c) c db eventData Hf).
  - unfold processEventCandidate. now rewrite Hf.
Qed.

Lemma rowAfter_candidatesOf submissionID x :
  In x (event_candidates db0) ->
  rowAfter cfg now reply http db0 (candidatesOf submissionID db0) x
    = afterStage3 cfg now reply http submissionID db0 x.
Proof.
  intros Hx. unfold rowAfter, afterStage3.
  assert (Hb : existsb (fun c => (EventCandidate.ID c =? EventCandidate.ID x)%N)
                 (candidatesOf submissionID db0) = inSubmission submissionID db0 x).
  { destruct (inSubmission submissionID db0 x) eqn:Hs.
    - apply existsb_exists. exists x. split; [|apply N.eqb_refl].
      apply In_candidatesOf. auto.
    - destruct (existsb _ _) eqn:He; [|reflexivity].
      apply existsb_exists in He as (c & Hc & Hid). apply N.eqb_eq in Hid.
      apply In_candidatesOf in Hc as [Hc Hsc].
      assert (c = x) as -> by (eapply NoDup_map_In_eq; eauto).
      congruence. }
  now rewrite Hb.
Qed.

Lemma processStage3_rows submissionID :
  event_candidates (fst (processStage3 cfg now reply http submissionID db0))
    = map (afterStage3 cfg now reply http submissionID db0) (event_candidates db0).
Proof.
  unfold processStage3. cbn [fst].
  rewrite (stage3Loop_rows (candidatesOf submissionID db0) [] db0).
  - cbn [app]. apply map_ext_in. intros x Hx. now apply rowAfter_candidatesOf.
  - intros c Hc. now apply In_candidatesOf in Hc.
  - symmetry. erewrite map_ext_in; [apply map_id|]. intros x _.
    unfold rowAfter. reflexivity.
Qed.

End Loop.

(** X12.  Stage 3 decides every candidate of the submission.  Under
    the primary key of the candidates table, [processStage3] succeeds
    and leaves the candidates table row for row: a candidate of the
    submission whose fields decode becomes the row
    [processEventCandidate] returns for it, with the score of its
    assessment and the decision of the decision rule; every other
    row (another submission's, or one whose fields do not decode,
    which is only logged) is as before.  The flyers are untouched. *)
Theorem processStage3_decides
    (cfg : config.Config) (now : time.Time)
    (reply : EventCandidate.t -> Completion) (http : EventCandidate.t -> Exchange)
    (submissionID : UUID) (db : DB) :
  uniqueCandidateIDs db ->
  let out := processStage3 cfg now reply http submissionID db in
  snd out = Ok tt /\
  flyers (fst out) = flyers db /\
  event_candidates (fst out)
    = map (afterStage3 cfg now reply http submissionID db) (event_candidates db) /\
  (forall c eventData,
     In c (candidatesOf submissionID db) ->
     EventCandidate.Fields c = Some eventData ->
     let c' := afterStage3 cfg now reply http submissionID db c in
     let m := assessed cfg (reply c) eventData in
     EventCandidate.ID c' = EventCandidate.ID c /\
     EventCandidate.CompositeScore c' = Some (QualityScore m) /\
     EventCandidate.PublishResult c'
       = Some (fst (decisionRule (config.AutoPublishThreshold cfg) m))) /\
  (forall c, In c (event_candidates db) ->
     inSubmission submissionID db c = false \/ EventCandidate.Fields c = None ->
     afterStage3 cfg now reply http submissionID db c = c).
Proof.
  intros Hu. cbv zeta.
  split; [reflexivity|].
  split; [apply stage3Loop_flyers|].
  split; [now apply processStage3_rows|].
  split.
  - intros c eventData Hc Hf. apply In_candidatesOf in Hc as [Hc Hs].
    unfold afterStage3, decodable. rewrite Hs, Hf. cbn [andb].
    split; [apply processEventCandidate_identity|].
    destruct (processEventCandidate_shape cfg now (reply c) (http c) c db eventData Hf)
      as (_ & Hscore & Hres & _).
    auto.
  - intros c _ [Hs|Hf]; unfold afterStage3, decodable.
    + now rewrite Hs.
    + now rewrite Hf, andb_false_r.
Qed.

(** The store after [SaveResults] of the sample extraction for
    submission 5, and Stage 3 on it. *)
Lemma processStage3_decides_witness :
  let db := fst (SaveResults gorm.empty 5%N sampleResult) in
  uniqueCandidateIDs db /\
  snd (processStage3 sampleConfig sampleNow (fun _ => goodReply)
         (fun _ => RequestFailed "offline") 5%N db) = Ok tt.
Proof.
  cbv zeta.
  assert (H : uniqueCandidateIDs (fst (SaveResults gorm.empty 5%N sampleResult))).
  { unfold uniqueCandidateIDs. vm_compute. apply NoDup_singleton. }
  split; [exact H|].
  exact (proj1 (processStage3_decides sampleConfig sampleNow (fun _ => goodReply)
                  (fun _ => RequestFailed "offline") 5%N _ H)).
Defined.

End Stage3.

(* ===================================================================== *)
(** ** The events table under the pipeline *)
(* ===================================================================== *)

Section EventsUnderPipeline.
Import services vision UploadHandler Orchestrator.
Local Open Scope list_scope.

Lemma keptOrApproved_refl l : Forall2 keptOrApproved l l.
Proof. induction l; constructor; [now left | assumption]. Qed.

Lemma eventsGrow_refl l : eventsGrow l l.
Proof. exists l, []. rewrite app_nil_r. split; [reflexivity | apply keptOrApproved_refl]. Qed.

Lemma keptOrApproved_trans e1 e2 e3 :
  keptOrApproved e1 e2 -> keptOrApproved e2 e3 -> keptOrApproved e1 e3.
Proof.
  unfold keptOrApproved. intros [->| ->] [->| ->]; auto.
Qed.

Lemma Forall2_keptOrApproved_trans l1 : forall l2 l3,
  Forall2 keptOrApproved l1 l2 -> Forall2 keptOrApproved l2 l3 ->
  Forall2 keptOrApproved l1 l3.
Proof.
  induction l1 as [|a l1 IH]; intros l2 l3 H12 H23.
  - inversion H12; subst. inversion H23; subst. constructor.
  - inversion H12 as [|? b ? l2' Hab H12']; subst.
    inversion H23 as [|? c ? l3' Hbc H23']; subst.
    constructor; [eapply keptOrApproved_trans; eauto | eauto].
Qed.

Lemma eventsGrow_trans l1 l2 l3 : eventsGrow l1 l2 -> eventsGrow l2 l3 -> eventsGrow l1 l3.
Proof.
  intros (k1 & n1 & -> & H1) (k2 & n2 & -> & H2).
  apply Forall2_app_inv_l in H2 as (k2a & k2b & Ha & Hb & ->).
  exists k2a, (k2b ++ n2). rewrite <- app_assoc. split; [reflexivity|].
  eapply Forall2_keptOrApproved_trans; eauto.
Qed.

Lemma eventsGrow_Update e db :
  eventsGrow (events db) (events (UpdateModerationState e "approved" db)).
Proof.
  exists (events (UpdateModerationState e "approved" db)), []. rewrite app_nil_r.
  split; [reflexivity|]. cbn [UpdateModerationState events].
  induction (events db) as [|x l IH]; cbn; constructor; [|exact IH].
  destruct (_ =? _)%N; [now right | now left].
Qed.

Lemma uniqueKeys_Update e s db : uniqueKeys db -> uniqueKeys (UpdateModerationState e s db).
Proof. unfold uniqueKeys. now rewrite keys_UpdateModerationState. Qed.

Lemma promoteToPublicEvent_events now candidate db :
  eventsGrow (events db) (events (fst (promoteToPublicEvent now candidate db))) /\
  (uniqueKeys db -> uniqueKeys (fst (promoteToPublicEvent now candidate db))).
Proof.
  unfold promoteToPublicEvent, promoteUnder.
  destruct (EventCandidate.Fields candidate) as [fields|];
    [|split; [apply eventsGrow_refl | auto]].
  destruct (nonEmptyString fields "title") as [title|];
    [|split; [apply eventsGrow_refl | auto]].
  cbv zeta.
  generalize (canonicalKey title (startTsOf now fields)) as key.
  generalize (startTsOf now fields) as startTs. intros startTs key.
  destruct (FirstEventByKey key db) as [e|] eqn:Hfind.
  - destruct (negb _); cbn [fst].
    + split; [apply eventsGrow_Update | apply uniqueKeys_Update].
    + split; [apply eventsGrow_refl | auto].
  - apply FirstEventByKey_None in Hfind.
    match goal with |- context [CreateEvent ?ev db] =>
      destruct (CreateEvent_fresh ev db Hfind) as (Hs & He & _);
      destruct (CreateEvent ev db) as [d r] end.
    cbn [fst snd] in *. subst r. cbn [fst]. split.
    + rewrite He. eexists (events db), [_]. split; [reflexivity | apply keptOrApproved_refl].
    + intros Hu. eapply uniqueKeys_new; eauto.
Qed.

Lemma processEventCandidate_events cfg now reply http candidate db :
  let db' := fst (fst (processEventCandidate cfg now reply http candidate db)) in
  eventsGrow (events db) (events db') /\ (uniqueKeys db -> uniqueKeys db').
Proof.
  cbv zeta.
  destruct (EventCandidate.Fields candidate) as [eventData|] eqn:Hf.
  - destruct (processEventCandidate_shape cfg now reply http candidate db eventData Hf)
      as (_ & _ & _ & _ & He).
    unfold uniqueKeys at 2. rewrite He.
    destruct (String.eqb _ "published").
    + apply promoteToPublicEvent_events.
    + split; [apply eventsGrow_refl | auto].
  - unfold processEventCandidate. rewrite Hf. cbn [fst].
    split; [apply eventsGrow_refl | auto].
Qed.

Lemma stage3Loop_events cfg now reply http cs : forall db,
  eventsGrow (events db) (events (stage3Loop cfg now reply http cs db)) /\
  (uniqueKeys db -> uniqueKeys (stage3Loop cfg now reply http cs db)).
Proof.
  induction cs as [|c cs IH]; intros db; cbn [stage3Loop].
  - split; [apply eventsGrow_refl | auto].
  - destruct (processEventCandidate_events cfg now (reply c) (http c) c db) as [Hg Hu].
    match goal with |- context [stage3Loop _ _ _ _ cs ?d] =>
      destruct (IH d) as [Hg' Hu'] end.
    split; [eapply eventsGrow_trans; eauto | auto].
Qed.

Lemma saveRegions_events submissionID regions db :
  events (saveRegions submissionID regions db) = events db.
Proof. destruct (saveRegions_appends submissionID regions db) as (? & ? & H). tauto. Qed.

(** [processUploadSync], step by step. *)
Lemma processUploadSync_eq cfg now file extraction reply http submissionID st :
  processUploadSync cfg now file extraction reply http submissionID st =
    match VisionService.AnalyzeImage file extraction with
    | Err err =>
        (mkStore (submissions (updateSubmissionStatus submissionID "error" st)) (tables st),
         Err ("vision analysis failed: " ++ err))
    | Ok res =>
        (mkStore (submissions (updateSubmissionStatus submissionID "done" st))
           (fst (processStage3 cfg now reply http submissionID
                   (fst (SaveResults (tables st) submissionID res)))),
         Ok tt)
    end.
Proof.
  unfold processUploadSync, SaveResults, processStage3, updateSubmissionStatus.
  destruct st as [subs db]. cbn [fst snd tables submissions].
  destruct (VisionService.AnalyzeImage file extraction) as [res|err];
    cbn [fst snd tables submissions]; f_equal; f_equal;
    rewrite !map_map; apply map_ext; intros s;
    (destruct (Submission.ID s =? submissionID)%N eqn:He;
     cbn [Submission.withStatus Submission.ID]; rewrite ?He;
     cbn [Submission.withStatus Submission.ID]; rewrite ?He; reflexivity).
Qed.

(** X13.  The upload pipeline only adds to the public events and
    approves: whatever the image, the extraction, the classifier and
    the geocoder give, after [processUploadSync] every Event row is
    at its place, unchanged or unchanged but for the moderation state
    "approved", new rows come after them, and the unique index on the
    canonical key still holds.  No Event is removed, rewritten or
    blocked by an upload; a blocked Event can come back approved. *)
Theorem processUploadSync_events
    (cfg : config.Config) (now : time.Time)
    (file : result (list Byte.byte)) (extraction : VisionService.Extraction)
    (reply : EventCandidate.t -> Completion) (http : EventCandidate.t -> Exchange)
    (submissionID : UUID) (st : Store) :
  let st' := fst (processUploadSync cfg now file extraction reply http submissionID st) in
  eventsGrow (events (tables st)) (events (tables st')) /\
  (uniqueKeys (tables st) -> uniqueKeys (tables st')) /\
  (forall (i : nat) e, events (tables st) !! i = Some e ->
     exists e', events (tables st') !! i = Some e' /\
       Event.ID e' = Event.ID e /\ Event.CanonicalKey e' = Event.CanonicalKey e /\
       Event.Title e' = Event.Title e /\ Event.StartTs e' = Event.StartTs e /\
       (Event.ModerationState e' = Event.ModerationState e \/
        Event.ModerationState e' = "approved")).
Proof.
  cbv zeta. rewrite processUploadSync_eq.
  assert (H : eventsGrow (events (tables st))
                (events (tables (fst
                   match VisionService.AnalyzeImage file extraction with
                   | Err err =>
                       (mkStore (submissions (updateSubmissionStatus submissionID "error" st))
                          (tables st), Err ("vision analysis failed: " ++ err))
                   | Ok res =>
                       (mkStore (submissions (updateSubmissionStatus submissionID "done" st))
                          (fst (processStage3 cfg now reply http submissionID
                                  (fst (SaveResults (tables st) submissionID res)))), Ok tt)
                   end))) /\
              (uniqueKeys (tables st) ->
               uniqueKeys (tables (fst
                   match VisionService.AnalyzeImage file extraction with
                   | Err err =>
                       (mkStore (submissions (updateSubmissionStatus submissionID "error" st))
                          (tables st), Err ("vision analysis failed: " ++ err))
                   | Ok res =>
                       (mkStore (submissions (updateSubmissionStatus submissionID "done" st))
                          (fst (processStage3 cfg now reply http submissionID
                                  (fst (SaveResults (tables st) submissionID res)))), Ok tt)
                   end)))).
  { destruct (VisionService.AnalyzeImage file extraction) as [res|err];
      cbn [fst tables]; [|split; [apply eventsGrow_refl | auto]].
    unfold processStage3, SaveResults. cbn [fst].
    match goal with |- context [stage3Loop _ _ _ _ ?cs ?d] =>
      destruct (stage3Loop_events cfg now reply http cs d) as [Hg Hu] end.
    unfold uniqueKeys at 1 2 in Hu. rewrite saveRegions_events in Hg, Hu. auto. }
  destruct H as [Hg Hu]. split; [exact Hg|]. split; [exact Hu|].
  destruct Hg as (kept & new & -> & Hk). intros i e Hi.
  destruct (Forall2_lookup_l _ _ _ _ _ Hk Hi) as (e' & He' & Hke).
  exists e'. split; [now apply lookup_app_l_Some|].
  destruct Hke as [->| ->]; cbn; auto 10.
Qed.

(** X14.  What [processUploadSync] answers.  With a store that
    answers every statement, it succeeds exactly when the image is
    read, passes the size and format check, and the extraction call
    returns a result that decodes; the submission is
    then marked "done", and "error" otherwise, never left at
    "processing" or "parsed".  A failure writes nothing but the
    status: flyers, candidates, venues and events are as before.  An
    image that fails the check fails the upload whatever the
    extraction would answer.  Other submissions keep their rows. *)
Theorem processUploadSync_outcome
    (cfg : config.Config) (now : time.Time)
    (file : result (list Byte.byte)) (extraction : VisionService.Extraction)
    (reply : EventCandidate.t -> Completion) (http : EventCandidate.t -> Exchange)
    (submissionID : UUID) (st : Store) :
  let out := processUploadSync cfg now file extraction reply http submissionID st in
  (snd out = Ok tt <->
   exists data res,
     file = Ok data /\ Z.of_nat (length data) <= 18 * 1024 * 1024 /\
     VisionService.isValidImageFormat data = true /\
     extraction = VisionService.Content (Some res)) /\
  (forall status, statusOf submissionID st = Some status ->
     statusOf submissionID (fst out)
       = Some (match snd out with Ok _ => "done" | Err _ => "error" end)) /\
  (snd out <> Ok tt ->
   tables (fst out) = tables st /\
   exists err, snd out = Err ("vision analysis failed: " ++ err)) /\
  (forall data, file = Ok data -> VisionService.isValidImageFormat data = false ->
     snd out <> Ok tt) /\
  (forall (i : nat) s, submissions st !! i = Some s -> Submission.ID s <> submissionID ->
     submissions (fst out) !! i = Some s).
Proof.
  cbv zeta. rewrite processUploadSync_eq.
  assert (Hprep : forall res, VisionService.AnalyzeImage file extraction = Ok res <->
            exists data, file = Ok data /\ Z.of_nat (length data) <= 18 * 1024 * 1024 /\
              VisionService.isValidImageFormat data = true /\
              extraction = VisionService.Content (Some res)).
  { intros res. unfold VisionService.AnalyzeImage, VisionService.prepareImage,
      VisionService.maxSize.
    destruct file as [data|e].
    - destruct (Z.ltb_spec (18 * 1024 * 1024) (Z.of_nat (length data))).
      + split; [discriminate|]. intros (d & [= <-] & Hl & _). lia.
      + destruct (VisionService.isValidImageFormat data) eqn:Hv; cbn [negb].
        * destruct extraction as [err| |[r|]]; split; try discriminate.
          -- intros (d & _ & _ & _ & [=]).
          -- intros (d & _ & _ & _ & [=]).
          -- intros [= ->]. exists data. auto.
          -- intros (d & _ & _ & _ & [= ->]). reflexivity.
          -- intros (d & _ & _ & _ & [=]).
        * split; [discriminate|]. intros (d & [= <-] & _ & Hv' & _). congruence.
    - split; [discriminate|]. intros (d & [=] & _). }
  assert (Hstatus : forall s' status, statusOf submissionID st = Some status ->
            forall db, statusOf submissionID
              (mkStore (submissions (updateSubmissionStatus submissionID s' st)) db) = Some s').
  { intros s' status Hs db. unfold statusOf, updateSubmissionStatus in *.
    cbn [submissions] in *.
    induction (submissions st) as [|x l IH]; cbn in *; [discriminate|].
    destruct (N.eqb_spec (Submission.ID x) submissionID) as [He|He];
      cbn [Submission.withStatus Submission.ID].
    - apply N.eqb_eq in He. rewrite He. reflexivity.
    - apply N.eqb_neq in He. rewrite He. auto. }
  assert (Hothers : forall s' db (i : nat) s, submissions st !! i = Some s ->
            Submission.ID s <> submissionID ->
            submissions (mkStore (submissions (updateSubmissionStatus submissionID s' st)) db)
              !! i = Some s).
  { intros s' db i s Hi Hne. unfold updateSubmissionStatus. cbn [submissions].
    rewrite list_lookup_fmap, Hi. cbn.
    apply N.eqb_neq in Hne. now rewrite Hne. }
  destruct (VisionService.AnalyzeImage file extraction) as [res|err] eqn:Ha; cbn [fst snd tables].
  - split; [split; [intros _|reflexivity]|].
    { destruct (proj1 (Hprep res) eq_refl) as (data & H). exists data, res. exact H. }
    split; [intros status Hs; eapply Hstatus; eauto|].
    split; [congruence|].
    split; [|intros i s; apply Hothers].
    intros data Hf Hv. destruct (proj1 (Hprep res) eq_refl) as (d & Hd & _ & Hv' & _).
    congruence.
  - split; [split; [discriminate|]|].
    { intros (data & res & H). assert (Hok : Err err = Ok res); [|discriminate].
      apply Hprep. exists data. exact H. }
    split; [intros status Hs; eapply Hstatus; eauto|].
    split; [intros _; split; [reflexivity | eauto]|].
    split; [discriminate|intros i s; apply Hothers].
Qed.

End EventsUnderPipeline.

(* ===================================================================== *)
(** ** End to end: every extracted event is decided *)
(* ===================================================================== *)

Section EndToEnd.
Import services vision UploadHandler Orchestrator.
Local Open Scope list_scope.

Lemma issued_snoc (l : list EventCandidate.t) (c : EventCandidate.t) (n : N) :
  NoDup (map EventCandidate.ID l) ->
  List.Forall (fun x => (EventCandidate.ID x < n)%N) l ->
  EventCandidate.ID c = n ->
  NoDup (map EventCandidate.ID (l ++ [c])) /\
  List.Forall (fun x => (EventCandidate.ID x < n + 1)%N) (l ++ [c]).
Proof.
  intros Hnd Hall Hid. split.
  - rewrite map_app. apply NoDup_app. split; [exact Hnd|]. split; [|apply NoDup_singleton].
    intros k Hin Hin'. apply list_elem_of_In in Hin, Hin'. cbn in Hin'.
    destruct Hin' as [<-|[]]. apply in_map_iff in Hin as (x & Hx & Hxin).
    pose proof (proj1 (List.Forall_forall _ _) Hall x Hxin) as Hlt.
    cbn beta in Hlt. lia.
  - apply List.Forall_app. split.
    + eapply List.Forall_impl; [|exact Hall]. cbn beta. intros; lia.
    + constructor; [lia | constructor].
Qed.

Lemma saveEvents_issued flyerID evs : forall db,
  candidateIDsIssued db -> candidateIDsIssued (saveEvents flyerID evs db).
Proof.
  induction evs as [|ev evs IH]; intros db H; cbn [saveEvents]; [exact H|].
  apply IH. destruct H as [Hnd Hall].
  unfold candidateIDsIssued, uniqueCandidateIDs.
  cbn [CreateEventCandidate fst event_candidates nextID].
  now apply issued_snoc.
Qed.

Lemma saveRegions_issued submissionID regions : forall db,
  candidateIDsIssued db -> candidateIDsIssued (saveRegions submissionID regions db).
Proof.
  induction regions as [|r regions IH]; intros db H; cbn [saveRegions CreateFlyer]; [exact H|].
  apply IH, saveEvents_issued. destruct H as [Hnd Hall].
  split; [exact Hnd|]. cbn [event_candidates nextID].
  eapply List.Forall_impl; [|exact Hall]. cbn beta. intros; lia.
Qed.

Lemma afterStage3_identity cfg now reply http submissionID db c :
  let c' := afterStage3 cfg now reply http submissionID db c in
  EventCandidate.FlyerID c' = EventCandidate.FlyerID c /\
  EventCandidate.EventID c' = EventCandidate.EventID c /\
  EventCandidate.Fields c' = EventCandidate.Fields c.
Proof.
  cbv zeta. unfold afterStage3. destruct (_ && _); [|auto].
  destruct (processEventCandidate_identity cfg now (reply c) (http c) c db)
    as (_ & H1 & H2 & H3 & _). auto.
Qed.

Lemma decisionRule_cases threshold m :
  fst (decisionRule threshold m) = "published" \/
  fst (decisionRule threshold m) = "blocked" \/
  fst (decisionRule threshold m) = "needs_review".
Proof.
  unfold decisionRule. destruct (IsAppropriate m); [destruct (Qle_bool _ _)|]; cbn; auto.
Qed.

(** X15.  End to end.  On a store whose candidate ids are unique and
    were handed out by the store, a run of [processUploadSync] whose
    extraction succeeds leaves no candidate of the submission
    undecided: every candidate row of the submission whose fields
    decode carries a score and one of the decisions "published",
    "blocked", "needs_review", and every event the extraction
    returned has such a row, under its event id. *)
Theorem processUploadSync_decides_all
    (cfg : config.Config) (now : time.Time)
    (file : result (list Byte.byte)) (extraction : VisionService.Extraction)
    (reply : EventCandidate.t -> Completion) (http : EventCandidate.t -> Exchange)
    (submissionID : UUID) (st : Store) (res : FlyerDetectionResult) :
  candidateIDsIssued (tables st) ->
  VisionService.AnalyzeImage file extraction = Ok res ->
  let out := processUploadSync cfg now file extraction reply http submissionID st in
  let decided (c : EventCandidate.t) :=
    EventCandidate.CompositeScore c <> None /\
    (EventCandidate.PublishResult c = Some "published" \/
     EventCandidate.PublishResult c = Some "blocked" \/
     EventCandidate.PublishResult c = Some "needs_review") in
  snd out = Ok tt /\
  (forall c, In c (candidatesOf submissionID (tables (fst out))) ->
             decodable c = true -> decided c) /\
  (forall eventID, In eventID (eventIDs (FlyersDetected res)) ->
     exists c, In c (candidatesOf submissionID (tables (fst out))) /\
               EventCandidate.EventID c = eventID /\ decided c).
Proof.
  intros Hissued Ha. cbv zeta. rewrite processUploadSync_eq, Ha. cbn [fst snd tables].
  split; [reflexivity|].
  unfold SaveResults. cbn [fst].
  set (db1 := saveRegions submissionID (FlyersDetected res) (tables st)).
  assert (Hu : uniqueCandidateIDs db1) by (apply saveRegions_issued; exact Hissued).
  pose proof (processStage3_rows cfg now reply http db1 Hu submissionID) as Hrows.
  assert (Hfl : flyers (fst (processStage3 cfg now reply http submissionID db1)) = flyers db1)
    by apply stage3Loop_flyers.
  set (db2 := fst (processStage3 cfg now reply http submissionID db1)) in *.
  assert (Hdecided : forall c1, In c1 (event_candidates db1) ->
            inSubmission submissionID db1 c1 = true -> decodable c1 = true ->
            let c := afterStage3 cfg now reply http submissionID db1 c1 in
            In c (candidatesOf submissionID db2) /\
            EventCandidate.EventID c = EventCandidate.EventID c1 /\
            EventCandidate.CompositeScore c <> None /\
            (EventCandidate.PublishResult c = Some "published" \/
             EventCandidate.PublishResult c = Some "blocked" \/
             EventCandidate.PublishResult c = Some "needs_review")).
  { intros c1 Hin Hs Hd. cbv zeta.
    destruct (afterStage3_identity cfg now reply http submissionID db1 c1) as (Hf & He & _).
    split.
    { apply In_candidatesOf. split; [rewrite Hrows; now apply in_map|].
      unfold inSubmission in *. now rewrite Hfl, Hf. }
    split; [exact He|].
    unfold afterStage3. rewrite Hs, Hd. cbn [andb].
    unfold decodable in Hd.
    destruct (EventCandidate.Fields c1) as [eventData|] eqn:Hfields; [|discriminate].
    destruct (processEventCandidate_shape cfg now (reply c1) (http c1) c1 db1 eventData Hfields)
      as (_ & Hscore & Hresult & _).
    rewrite Hscore, Hresult. split; [discriminate|].
    destruct (decisionRule_cases (config.AutoPublishThreshold cfg)
                (assessed cfg (reply c1) eventData)) as [-> | [-> | ->]]; auto. }
  split.
  - intros c Hc Hd. apply In_candidatesOf in Hc as [Hc Hs].
    rewrite Hrows in Hc. apply in_map_iff in Hc as (c1 & <- & Hc1).
    destruct (afterStage3_identity cfg now reply http submissionID db1 c1) as (Hf & _ & Hfs).
    assert (Hs1 : inSubmission submissionID db1 c1 = true).
    { unfold inSubmission in *. now rewrite Hfl, Hf in Hs. }
    assert (Hd1 : decodable c1 = true) by (unfold decodable in *; now rewrite Hfs in Hd).
    destruct (Hdecided c1 Hc1 Hs1 Hd1) as (_ & _ & H). exact H.
  - intros eventID Hin.
    destruct (saveRegions_appends submissionID (FlyersDetected res) (tables st))
      as (fs & cs & Hf & Hc & _ & _ & Hids & _).
    destruct (saveRegions_links submissionID (FlyersDetected res) (tables st))
      as (fs' & cs' & Hf' & Hc' & Hsub & Hall).
    fold db1 in Hf, Hc, Hf', Hc'.
    assert (cs' = cs) as -> by (rewrite Hc in Hc'; now apply app_inv_head in Hc').
    rewrite <- Hids in Hin. apply in_map_iff in Hin as (c1 & <- & Hc1).
    pose proof (proj1 (List.Forall_forall _ _) Hall c1 Hc1)
      as [(f & Hfin & Hid) (_ & _ & _ & _ & ef & Hfields)].
    assert (Hin1 : In c1 (event_candidates db1)) by (rewrite Hc; apply in_or_app; auto).
    assert (Hs1 : inSubmission submissionID db1 c1 = true).
    { unfold inSubmission. apply existsb_exists. exists f. rewrite Hf'.
      split; [apply in_or_app; auto|].
      rewrite Hid, (proj1 (List.Forall_forall _ _) Hsub f Hfin), !N.eqb_refl. reflexivity. }
    assert (Hd1 : decodable c1 = true) by (unfold decodable; now rewrite Hfields).
    destruct (Hdecided c1 Hin1 Hs1 Hd1) as (H1 & H2 & H3).
    eexists. split; [exact H1|]. split; [exact H2 | exact H3].
Qed.

(** The sample extraction, for the one submission of the store. *)
Lemma processUploadSync_decides_all_witness :
  candidateIDsIssued (tables uploadedStore) /\
  snd (processUploadSync sampleConfig sampleNow (Ok tinyJPEG)
         (VisionService.Content (Some sampleResult)) (fun _ => goodReply)
         (fun _ => RequestFailed "offline") 5%N uploadedStore) = Ok tt.
Proof.
  assert (H : candidateIDsIssued (tables uploadedStore)).
  { split; [apply NoDup_nil_2 | constructor]. }
  split; [exact H|].
  exact (proj1 (processUploadSync_decides_all sampleConfig sampleNow (Ok tinyJPEG)
                  (VisionService.Content (Some sampleResult)) (fun _ => goodReply)
                  (fun _ => RequestFailed "offline") 5%N uploadedStore sampleResult
                  H eq_refl)).
Defined.

End EndToEnd.

(* ===================================================================== *)
(** ** The moderation action of the admin *)
(* ===================================================================== *)

Section Moderation_action.
Import services AdminModeration.
Local Open Scope list_scope.

Lemma events_UpdateCandidate c p r db : events (UpdateCandidate c p r db) = events db.
Proof. reflexivity. Qed.

Lemma FirstCandidateByID_Some eventID db c :
  FirstCandidateByID eventID db = Some c ->
  eventID = Some (EventCandidate.ID c) /\ In c (event_candidates db).
Proof.
  unfold FirstCandidateByID. destruct eventID as [id|]; [|discriminate].
  intros H. apply find_some in H as [Hin Hid]. apply N.eqb_eq in Hid. subst. auto.
Qed.

(** The admin promotion fails exactly on a candidate without title. *)
Lemma AdminHandler_promote_fails now candidate db :
  (exists e, snd (AdminHandler.promoteToPublicEvent now candidate db) = Err e) <->
  untitled candidate.
Proof.
  unfold untitled.
  destruct (EventCandidate.Fields candidate) as [fields|] eqn:Hf.
  - destruct (nonEmptyString fields "title") as [title|] eqn:Ht.
    + destruct (AdminHandler_promotesByKey now candidate fields title Hf Ht db) as [Hok _].
      rewrite Hok. split; [intros [e He]; discriminate | discriminate].
    + unfold AdminHandler.promoteToPublicEvent, AdminHandler.promoteUnder.
      rewrite Hf, Ht. cbn. split; eauto.
  - unfold AdminHandler.promoteToPublicEvent, AdminHandler.promoteUnder.
    rewrite Hf. cbn. split; eauto.
Qed.

(** X16.  The answers of [ModerateEvent].  An action other than
    "approve" and "reject" is refused with 400 before anything is
    looked up; an unknown candidate is 404; an approve of a candidate
    whose fields do not decode or hold no title is 500, and with a
    store that answers every statement these are the only failures.
    Whenever the answer is not a success the
    store is as before: the update of the candidate row is rolled
    back with the failed promotion. *)
Theorem ModerateEvent_answers
    (now : time.Time) (eventID : option UUID) (action reason : string)
    (wantsJSON : bool) (db : DB) :
  let out := ModerateEvent now eventID action reason wantsJSON db in
  (snd out = 400 <-> action <> "approve" /\ action <> "reject") /\
  (snd out = 404 <->
   (action = "approve" \/ action = "reject") /\ FirstCandidateByID eventID db = None) /\
  (snd out = 500 <->
   action = "approve" /\
   exists c, FirstCandidateByID eventID db = Some c /\ untitled c) /\
  (snd out = (if wantsJSON then 200 else 303) \/
   (snd out = 400 \/ snd out = 404 \/ snd out = 500) /\ fst out = db).
Proof.
  cbv zeta. unfold ModerateEvent.
  destruct (String.eqb_spec action "approve") as [->|Ha].
  - cbn [negb andb].
    destruct (FirstCandidateByID eventID db) as [c|] eqn:Hc; cbn [fst snd].
    + pose proof (AdminHandler_promote_fails now c (UpdateCandidate c "published" reason db))
        as Hfail.
      destruct (AdminHandler.promoteToPublicEvent now c
                  (UpdateCandidate c "published" reason db)) as [tx' r].
      cbn [snd] in Hfail. destruct r as [u|e]; cbn [fst snd].
      * assert (Hnot : ~ untitled c) by (intros Hu; apply Hfail in Hu as [e He]; discriminate).
        split; [|split; [|split]]; [| | |left; reflexivity].
        -- split; [destruct wantsJSON; discriminate | intros [H _]; congruence].
        -- split; [destruct wantsJSON; discriminate | intros [_ H]; discriminate].
        -- split; [destruct wantsJSON; discriminate|].
           intros [_ (c' & Hc' & Hu)]. congruence.
      * assert (Hu : untitled c) by (apply Hfail; eauto).
        split; [|split; [|split]]; [| | |right; auto].
        -- split; [discriminate | intros [H _]; congruence].
        -- split; [discriminate | intros [_ H]; discriminate].
        -- split; [eauto | reflexivity].
    + split; [|split; [|split]]; [| | |right; auto].
      * split; [discriminate | intros [H _]; congruence].
      * split; [auto | reflexivity].
      * split; [discriminate | intros [_ (c & Hc' & _)]; discriminate].
  - destruct (String.eqb_spec action "reject") as [->|Hr]; cbn [negb andb].
    + destruct (FirstCandidateByID eventID db) as [c|] eqn:Hc; cbn [fst snd].
      * split; [|split; [|split]]; [| | |left; reflexivity].
        -- split; [destruct wantsJSON; discriminate | intros [_ H]; congruence].
        -- split; [destruct wantsJSON; discriminate | intros [_ H]; discriminate].
        -- split; [destruct wantsJSON; discriminate | intros [H _]; discriminate].
      * split; [|split; [|split]]; [| | |right; auto].
        -- split; [discriminate | intros [_ H]; congruence].
        -- split; [auto | reflexivity].
        -- split; [discriminate | intros [H _]; discriminate].
    + cbn [fst snd]. split; [|split; [|split]]; [| | |right; auto].
      * split; [auto | reflexivity].
      * split; [discriminate | intros [[H|H] _]; contradiction].
      * split; [discriminate | intros [H _]; contradiction].
Qed.

Lemma UpdateCandidate_rows c p r db :
  event_candidates (UpdateCandidate c p r db)
    = map (fun x => if (EventCandidate.ID x =? EventCandidate.ID c)%N
                    then moderated p r x else x) (event_candidates db).
Proof. reflexivity. Qed.

Lemma AdminHandler_promote_candidates now candidate db :
  event_candidates (fst (AdminHandler.promoteToPublicEvent now candidate db))
    = event_candidates db.
Proof.
  unfold AdminHandler.promoteToPublicEvent, AdminHandler.promoteUnder.
  destruct (EventCandidate.Fields candidate) as [fields|]; [|reflexivity].
  destruct (nonEmptyString fields "title") as [title|]; [|reflexivity].
  cbv zeta.
  generalize (canonicalKey title (startTsOf now fields)) as key.
  generalize (startTsOf now fields) as startTs.
  generalize (match nonEmptyString fields "end_date" with
              | Some endStr => AdminHandler.parseEnd AdminHandler.endFormats endStr
              | None => None
              end) as endTs.
  intros endTs startTs key.
  destruct (FirstEventByKey key db) as [e|].
  - destruct (negb _); reflexivity.
  - unfold AdminHandler.resolveVenue.
    destruct (nonEmptyString fields "venue") as [venueName|].
    + destruct (FirstVenueByNameILike venueName db);
        unfold CreateVenue, CreateEvent; cbn [fst snd events];
        destruct (existsb _ _); reflexivity.
    + unfold CreateEvent. destruct (existsb _ _); reflexivity.
Qed.

(** A reject blocks the candidate and nothing else. *)
Lemma ModerateEvent_reject_effect now eventID reason wantsJSON db c :
  FirstCandidateByID eventID db = Some c ->
  let out := ModerateEvent now eventID "reject" reason wantsJSON db in
  snd out = (if wantsJSON then 200 else 303) /\
  events (fst out) = events db /\ venues (fst out) = venues db /\
  flyers (fst out) = flyers db /\
  event_candidates (fst out)
    = map (fun x => if (EventCandidate.ID x =? EventCandidate.ID c)%N
                    then moderated "blocked" reason x else x) (event_candidates db).
Proof.
  intros Hc. cbv zeta. unfold ModerateEvent. cbn [String.eqb Ascii.eqb Bool.eqb negb andb].
  rewrite Hc. cbn [fst snd]. repeat split; reflexivity.
Qed.

Lemma FirstCandidateByID_map (f : EventCandidate.t -> EventCandidate.t) eventID db db' :
  event_candidates db' = map f (event_candidates db) ->
  (forall x, EventCandidate.ID (f x) = EventCandidate.ID x) ->
  FirstCandidateByID eventID db' = f <$> FirstCandidateByID eventID db.
Proof.
  intros Hm Hf. unfold FirstCandidateByID. destruct eventID as [id|]; [|reflexivity].
  rewrite Hm. clear Hm. induction (event_candidates db) as [|x l IH]; cbn; [reflexivity|].
  rewrite Hf. destruct (EventCandidate.ID x =? id)%N; [reflexivity | exact IH].
Qed.

Lemma ID_moderated_if (c : EventCandidate.t) p r x :
  EventCandidate.ID (if (EventCandidate.ID x =? EventCandidate.ID c)%N
                     then moderated p r x else x) = EventCandidate.ID x.
Proof. destruct (_ =? _)%N; reflexivity. Qed.

(** An approve of a candidate with a title: the answer, the
    candidate rows and the Event under the key. *)
Lemma ModerateEvent_approve_effect now eventID reason wantsJSON db c fields title :
  FirstCandidateByID eventID db = Some c ->
  EventCandidate.Fields c = Some fields ->
  nonEmptyString fields "title" = Some title ->
  let out := ModerateEvent now eventID "approve" reason wantsJSON db in
  snd out = (if wantsJSON then 200 else 303) /\
  event_candidates (fst out)
    = map (fun x => if (EventCandidate.ID x =? EventCandidate.ID c)%N
                    then moderated "published" reason x else x) (event_candidates db) /\
  exists e, FirstEventByKey (canonicalKey title (startTsOf now fields)) (fst out) = Some e /\
            Event.ModerationState e = "approved".
Proof.
  intros Hc Hf Ht. cbv zeta. unfold ModerateEvent.
  cbn [String.eqb Ascii.eqb Bool.eqb negb andb]. rewrite Hc.
  set (tx := UpdateCandidate c "published" reason db).
  pose proof (AdminHandler_promote_candidates now c tx) as Hcand.
  destruct (AdminHandler_promotesByKey now c fields title Hf Ht tx) as [Hok Hby].
  revert Hok Hby Hcand.
  generalize (canonicalKey title (startTsOf now fields)) as key. intros key.
  destruct (AdminHandler.promoteToPublicEvent now c tx) as [tx' r]. cbn [fst snd].
  intros -> Hby Hcand. cbn [fst snd].
  split; [reflexivity|]. split; [rewrite Hcand; reflexivity|].
  destruct (FirstEventByKey key tx) as [e|] eqn:Hfind.
  - destruct (String.eqb_spec (Event.ModerationState e) "approved") as [Happ|Happ]; subst tx'.
    + eauto.
    + eexists. split; [apply FirstEventByKey_Update; exact Hfind | reflexivity].
  - destruct Hby as (e & He & Hk & Hs).
    exists e. split; [|exact Hs].
    eapply FirstEventByKey_app_new; eauto. now apply FirstEventByKey_None.
Qed.

(** X17.  A reject does not unpublish.  After an approve of a
    candidate with a title, a reject of the same candidate succeeds
    and sets the candidate's result to "blocked" (with the reason,
    when one is given), but the events table is left as the approve
    left it: the Event under the candidate's canonical key is still
    approved.  A reject never touches flyers, venues or events. *)
Theorem ModerateEvent_reject_after_approve
    (now now' : time.Time) (eventID : option UUID) (reason reason' : string)
    (wantsJSON wantsJSON' : bool) (db : DB) (c : EventCandidate.t)
    (fields : gmap string JSON) (title : string) :
  FirstCandidateByID eventID db = Some c ->
  EventCandidate.Fields c = Some fields ->
  nonEmptyString fields "title" = Some title ->
  let key := canonicalKey title (startTsOf now fields) in
  let approved := fst (ModerateEvent now eventID "approve" reason wantsJSON db) in
  let out := ModerateEvent now' eventID "reject" reason' wantsJSON' approved in
  snd out = (if wantsJSON' then 200 else 303) /\
  (exists c', FirstCandidateByID eventID (fst out) = Some c' /\
              EventCandidate.ID c' = EventCandidate.ID c /\
              EventCandidate.PublishResult c' = Some "blocked") /\
  (exists e, FirstEventByKey key (fst out) = Some e /\
             Event.ModerationState e = "approved") /\
  events (fst out) = events approved /\ venues (fst out) = venues approved /\
  flyers (fst out) = flyers approved.
Proof.
  intros Hc Hf Ht. cbv zeta.
  destruct (ModerateEvent_approve_effect now eventID reason wantsJSON db c fields title
              Hc Hf Ht) as (_ & Hcands & e & He & Hs).
  set (approved := fst (ModerateEvent now eventID "approve" reason wantsJSON db)) in *.
  assert (Hc1 : FirstCandidateByID eventID approved = Some (moderated "published" reason c)).
  { rewrite (FirstCandidateByID_map _ eventID db approved Hcands)
      by (intros x; apply ID_moderated_if).
    rewrite Hc. cbn. now rewrite N.eqb_refl. }
  destruct (ModerateEvent_reject_effect now' eventID reason' wantsJSON' approved _ Hc1)
    as (Hok & Hev & Hv & Hfl & Hcands2).
  split; [exact Hok|]. split.
  { rewrite (FirstCandidateByID_map _ eventID approved _ Hcands2)
      by (intros x; apply ID_moderated_if).
    rewrite Hc1. cbn. rewrite N.eqb_refl. eexists. split; [reflexivity|].
    split; reflexivity. }
  split; [|auto].
  exists e. split; [|exact Hs]. unfold FirstEventByKey in *. now rewrite Hev.
Qed.

Lemma ModerateEvent_reject_after_approve_witness :
  snd (ModerateEvent sampleLater (Some 7%N) "reject" "spam" true
         (fst (ModerateEvent sampleNow (Some 7%N) "approve" "" false reviewStore))) = 200.
Proof.
  refine (proj1 (ModerateEvent_reject_after_approve sampleNow sampleLater (Some 7%N)
                   "" "spam" false true reviewStore _ sampleFields "Jazz Night"
                   eq_refl eq_refl _)).
  vm_compute. reflexivity.
Defined.



End Moderation_action.

(* ===================================================================== *)
(** ** Unpublishing *)
(* ===================================================================== *)

Section Unpublishing.
Import services EventHandler.
Local Open Scope list_scope.

Lemma filter_length_zero {A} (p : A -> bool) l :
  length (List.filter p l) = 0%nat <-> forall x, In x l -> p x = false.
Proof.
  induction l as [|a l IH]; cbn; [tauto|].
  destruct (p a) eqn:Ha; cbn.
  - split; [discriminate|]. intros H. specialize (H a (or_introl eq_refl)). congruence.
  - rewrite IH. split; [intros H x [<-|Hx]; auto | auto].
Qed.

(** X19.  The answers of [Unpublish].  It succeeds (200) exactly
    when the id parses, the body holds one of the four reasons
    "spam", "duplicate", "bad_location", "inappropriate", and an Event
    with the id exists; then the rows with the id are blocked and
    every other Event row, every canonical key, and the other tables
    are as before.  Any other answer (400 or 404) leaves the store
    untouched.  The reason itself is stored nowhere. *)
Theorem Unpublish_answers (eventID : option UUID) (req : option string) (db : DB) :
  let out := Unpublish eventID req db in
  (snd out = 200 <->
   exists id reason,
     eventID = Some id /\ req = Some reason /\ In reason validReasons /\
     exists e, In e (events db) /\ Event.ID e = id) /\
  (snd out <> 200 -> (snd out = 400 \/ snd out = 404) /\ fst out = db) /\
  (forall id, eventID = Some id -> snd out = 200 ->
     events (fst out)
       = map (fun e => if (Event.ID e =? id)%N
                       then Event.withModerationState e "blocked" else e) (events db) /\
     map Event.CanonicalKey (events (fst out)) = map Event.CanonicalKey (events db) /\
     flyers (fst out) = flyers db /\ event_candidates (fst out) = event_candidates db /\
     venues (fst out) = venues db) /\
  (forall reason reason', In reason validReasons -> In reason' validReasons ->
     Unpublish eventID (Some reason) db = Unpublish eventID (Some reason') db).
Proof.
  cbv zeta.
  assert (Hvalid : forall reason, existsb (String.eqb reason) validReasons = true <->
                                  In reason validReasons).
  { intros reason. rewrite existsb_exists. split.
    - intros (x & Hx & He). apply String.eqb_eq in He. now subst.
    - intros H. exists reason. split; [exact H | apply String.eqb_refl]. }
  assert (Hrows : forall id,
            length (List.filter (fun e => (Event.ID e =? id)%N) (events db)) <> 0%nat <->
            exists e, In e (events db) /\ Event.ID e = id).
  { intros id. split.
    - intros H. destruct (List.filter _ _) as [|e l] eqn:Hfl; [now cbn in H|].
      assert (Hin : In e (List.filter (fun e => (Event.ID e =? id)%N) (events db)))
        by (rewrite Hfl; now left).
      apply List.filter_In in Hin as [Hin He]. apply N.eqb_eq in He. eauto.
    - intros (e & Hin & He) H0. apply filter_length_zero with (x := e) in H0; [|exact Hin].
      cbn beta in H0. rewrite He, N.eqb_refl in H0. discriminate. }
  unfold Unpublish.
  split; [|split; [|split]].
  - destruct eventID as [id|]; [|split; [discriminate | intros (? & ? & [=] & _)]].
    destruct req as [reason|]; [|split; [discriminate | intros (? & ? & _ & [=] & _)]].
    destruct (existsb (String.eqb reason) validReasons) eqn:Hv; cbn [negb].
    + destruct (Nat.eqb_spec (length (List.filter (fun e => (Event.ID e =? id)%N) (events db))) 0)
        as [H0|H0]; cbn [snd].
      * split; [discriminate|]. intros (id' & reason' & [= <-] & _ & _ & He).
        apply Hrows in He. contradiction.
      * split; [intros _|reflexivity]. exists id, reason.
        repeat split; [now apply Hvalid | now apply Hrows].
    + split; [discriminate|]. intros (id' & reason' & _ & [= <-] & Hin & _).
      apply Hvalid in Hin. congruence.
  - destruct eventID as [id|]; [|auto].
    destruct req as [reason|]; [|auto].
    destruct (negb _); [auto|].
    destruct (_ =? 0)%nat; cbn [fst snd]; [auto | congruence].
  - intros id -> . destruct req as [reason|]; [|discriminate].
    destruct (negb _); [discriminate|].
    destruct (_ =? 0)%nat; cbn [fst snd]; [discriminate|]. intros _.
    split; [reflexivity|]. split; [|auto].
    cbn [events]. rewrite map_map. apply map_ext. intros e.
    destruct (_ =? _)%N; reflexivity.
  - intros reason reason' Hr Hr'. apply Hvalid in Hr, Hr'.
    destruct eventID as [id|]; [|reflexivity]. now rewrite Hr, Hr'.
Qed.

Lemma Unpublish_answers_aux id reason db e :
  In reason validReasons -> In e (events db) -> Event.ID e = id ->
  snd (Unpublish (Some id) (Some reason) db) = 200 /\
  events (fst (Unpublish (Some id) (Some reason) db))
    = map (fun x => if (Event.ID x =? id)%N
                    then Event.withModerationState x "blocked" else x) (events db).
Proof.
  intros Hr Hin Hid. unfold Unpublish.
  assert (Hv : existsb (String.eqb reason) validReasons = true).
  { apply existsb_exists. exists reason. split; [exact Hr | apply String.eqb_refl]. }
  rewrite Hv. cbn [negb].
  destruct (Nat.eqb_spec (length (List.filter (fun x => (Event.ID x =? id)%N) (events db))) 0)
    as [H0|H0]; [|auto].
  apply filter_length_zero with (x := e) in H0; [|exact Hin].
  cbn beta in H0. rewrite Hid, N.eqb_refl in H0. discriminate.
Qed.

Lemma FirstEventByKey_blocked key id db e :
  FirstEventByKey key db = Some e -> Event.ID e = id ->
  find (hasKey key)
    (map (fun x => if (Event.ID x =? id)%N
                   then Event.withModerationState x "blocked" else x) (events db))
    = Some (Event.withModerationState e "blocked").
Proof.
  unfold FirstEventByKey. intros Hf <-.
  induction (events db) as [|x l IH]; cbn in *; [discriminate|].
  destruct (hasKey key x) eqn:Hx.
  - injection Hf as ->. rewrite N.eqb_refl, hasKey_withModerationState, Hx. reflexivity.
  - destruct (_ =? _)%N; rewrite ?hasKey_withModerationState, Hx; auto.
Qed.

(** X20.  Unpublishing does not outlast a new promotion.  When the
    Event under a candidate's canonical key is unpublished, it is
    blocked; but a later promotion of the candidate, by the upload
    pipeline or by an admin's approve, finds the blocked row under
    the key and approves it again, without inserting a row. *)
Theorem Unpublish_then_promote
    (now : time.Time) (candidate : EventCandidate.t) (fields : gmap string JSON)
    (title reason : string) (db : DB) (e : Event.t) :
  EventCandidate.Fields candidate = Some fields ->
  nonEmptyString fields "title" = Some title ->
  In reason validReasons ->
  let key := canonicalKey title (startTsOf now fields) in
  FirstEventByKey key db = Some e ->
  let blocked := fst (Unpublish (Some (Event.ID e)) (Some reason) db) in
  snd (Unpublish (Some (Event.ID e)) (Some reason) db) = 200 /\
  FirstEventByKey key blocked = Some (Event.withModerationState e "blocked") /\
  forall promote,
    promote = UploadHandler.promoteToPublicEvent \/
    promote = AdminHandler.promoteToPublicEvent ->
    snd (promote now candidate blocked) = Ok tt /\
    FirstEventByKey key (fst (promote now candidate blocked))
      = Some (Event.withModerationState e "approved") /\
    length (events (fst (promote now candidate blocked))) = length (events db).
Proof.
  intros Hf Ht Hr. cbv zeta.
  generalize (UploadHandler_promotesByKey now candidate fields title Hf Ht).
  generalize (AdminHandler_promotesByKey now candidate fields title Hf Ht).
  generalize (canonicalKey title (startTsOf now fields)) as key.
  intros key Hadmin Hupload Hfind.
  destruct (Unpublish_answers_aux (Event.ID e) reason db e) as (Hout & Hev); auto.
  { apply FirstEventByKey_Some in Hfind. tauto. }
  set (blocked := fst (Unpublish (Some (Event.ID e)) (Some reason) db)) in *.
  assert (Hb : FirstEventByKey key blocked = Some (Event.withModerationState e "blocked")).
  { unfold FirstEventByKey. rewrite Hev. now apply FirstEventByKey_blocked. }
  split; [exact Hout|]. split; [exact Hb|].
  assert (Hlen : length (events blocked) = length (events db))
    by (rewrite Hev; apply length_map).
  intros promote Hp.
  assert (Hby : promotesByKey key (promote now candidate)) by (destruct Hp as [->| ->]; auto).
  destruct (Hby blocked) as [Hok Hstep]. rewrite Hb in Hstep.
  cbn [Event.ModerationState Event.withModerationState String.eqb Ascii.eqb Bool.eqb] in Hstep.
  split; [exact Hok|]. rewrite Hstep.
  split.
  - rewrite (FirstEventByKey_Update key blocked _ Hb). destruct e; reflexivity.
  - now rewrite length_UpdateModerationState.
Qed.

(** The sample candidate is published, its Event unpublished as
    spam, and the candidate promoted again. *)
Lemma Unpublish_then_promote_witness :
  let db := fst (UploadHandler.promoteToPublicEvent sampleNow sampleCandidate gorm.empty) in
  exists e,
    FirstEventByKey "jazz night_2030-07-15" db = Some e /\
    snd (Unpublish (Some (Event.ID e)) (Some "spam") db) = 200.
Proof.
  cbv zeta. eexists. split; [vm_compute; reflexivity|].
  refine (proj1 (Unpublish_then_promote sampleNow sampleCandidate sampleFields
                   "Jazz Night" "spam" _ _ eq_refl _ _ _)).
  - vm_compute. reflexivity.
  - left. reflexivity.
  - vm_compute. reflexivity.
Defined.

End Unpublishing.

(* ===================================================================== *)
(** ** The public listing *)
(* ===================================================================== *)

Section Listing.
Import services EventHandler.
Local Open Scope list_scope.

Lemma In_insertByStart e x l : In x (insertByStart e l) <-> x = e \/ In x l.
Proof.
  induction l as [|a l IH]; cbn; [intuition congruence|].
  destruct (_ <? _); cbn; rewrite ?IH; intuition congruence.
Qed.

Lemma In_orderByStart x l : In x (orderByStart l) <-> In x l.
Proof.
  induction l as [|a l IH]; cbn; [tauto|].
  rewrite In_insertByStart, IH. intuition congruence.
Qed.

Lemma length_insertByStart e l : length (insertByStart e l) = S (length l).
Proof. induction l as [|a l IH]; cbn; [reflexivity|]. destruct (_ <? _); cbn; auto. Qed.

Lemma length_orderByStart l : length (orderByStart l) = length l.
Proof.
  unfold orderByStart. induction l as [|a l IH]; cbn [fold_right]; [reflexivity|].
  now rewrite length_insertByStart, IH.
Qed.

Lemma In_filter_if {A} (b : bool) (p : A -> bool) l x :
  In x (if b then List.filter p l else l) -> In x l.
Proof. destruct b; [intros H; apply List.filter_In in H; tauto | auto]. Qed.

Lemma listRows_approved now q db e :
  In e (listRows now q db) ->
  In e (events db) /\ Event.ModerationState e = "approved".
Proof.
  unfold listRows. intros H.
  apply In_filter_if in H.
  assert (H1 : In e
    (if negb (String.eqb (start_date q) "")
     then match time.Parse "2006-01-02" (start_date q) with
          | Some start =>
              List.filter (fun e => time.unixNano start <=? time.unixNano (Event.StartTs e))
                (if negb (String.eqb (include_past q) "true")
                 then List.filter (fun e => time.unixNano now <? time.unixNano (Event.StartTs e))
                        (List.filter (fun e => String.eqb (Event.ModerationState e) "approved")
                           (events db))
                 else List.filter (fun e => String.eqb (Event.ModerationState e) "approved")
                        (events db))
          | None =>
              if negb (String.eqb (include_past q) "true")
              then List.filter (fun e => time.unixNano now <? time.unixNano (Event.StartTs e))
                     (List.filter (fun e => String.eqb (Event.ModerationState e) "approved")
                        (events db))
              else List.filter (fun e => String.eqb (Event.ModerationState e) "approved")
                     (events db)
          end
     else if negb (String.eqb (include_past q) "true")
          then List.filter (fun e => time.unixNano now <? time.unixNano (Event.StartTs e))
                 (List.filter (fun e => String.eqb (Event.ModerationState e) "approved")
                    (events db))
          else List.filter (fun e => String.eqb (Event.ModerationState e) "approved")
                 (events db))).
  { destruct (negb (String.eqb (end_date q) "")); [|exact H].
    destruct (time.Parse "2006-01-02" (end_date q)); [|exact H].
    apply List.filter_In in H. tauto. }
  clear H.
  assert (H2 : In e
    (if negb (String.eqb (include_past q) "true")
     then List.filter (fun e => time.unixNano now <? time.unixNano (Event.StartTs e))
            (List.filter (fun e => String.eqb (Event.ModerationState e) "approved")
               (events db))
     else List.filter (fun e => String.eqb (Event.ModerationState e) "approved")
            (events db))).
  { destruct (negb (String.eqb (start_date q) "")); [|exact H1].
    destruct (time.Parse "2006-01-02" (start_date q)); [|exact H1].
    apply List.filter_In in H1. tauto. }
  clear H1. apply In_filter_if in H2. apply List.filter_In in H2 as [Hin Hs].
  apply String.eqb_eq in Hs. auto.
Qed.

Lemma listRows_everything now db :
  listRows now everything db
    = List.filter (fun e => String.eqb (Event.ModerationState e) "approved") (events db).
Proof. reflexivity. Qed.

Lemma limitOf_bounds s : 1 <= limitOf s <= 500.
Proof.
  unfold limitOf. destruct (negb _); [|lia].
  destruct (Atoi s) as [n|]; [|lia].
  destruct (Z.ltb_spec 0 n), (Z.leb_spec n 500); cbn; lia.
Qed.

Lemma In_firstn {A} (n : nat) (l : list A) x : In x (firstn n l) -> In x l.
Proof.
  revert l. induction n as [|n IH]; intros [|a l]; cbn; try tauto.
  intros [->|H]; auto.
Qed.

Lemma In_skipn {A} (n : nat) (l : list A) x : In x (skipn n l) -> In x l.
Proof.
  revert l. induction n as [|n IH]; intros [|a l]; cbn; try tauto.
  intros H. right. auto.
Qed.

Lemma List_rows now q db f :
  In f (List now q db) ->
  exists e, In e (events db) /\ Event.ModerationState e = "approved" /\ f = toFeature db e.
Proof.
  intros Hf. unfold List in Hf. apply in_map_iff in Hf as (e & <- & He).
  apply In_firstn, In_skipn, In_orderByStart, listRows_approved in He.
  exists e. tauto.
Qed.

(** X21.  What the public listing shows.  Every feature [List]
    returns is the feature of an Event row whose moderation state is
    "approved", whatever the query; a page holds at most 500
    features, and at most 100 when the limit parameter is absent or
    not a number from 1 to 500; a feature whose event has a venue is
    placed at the fixed point (-122.4194, 37.7749), whatever the
    venue's stored location, and one without has no geometry; and
    with [include_past=true] and no other parameter every approved
    Event is listed, as long as there are no more than 100. *)
Theorem List_shows_approved
    (now : time.Time) (q : ListQuery) (db : DB) :
  (forall f, In f (List now q db) ->
     exists e, In e (events db) /\ Event.ModerationState e = "approved" /\
               f = toFeature db e) /\
  (length (List now q db) <= 500)%nat /\
  (limitOf (limit q) = 100 -> (length (List now q db) <= 100)%nat) /\
  (forall s, Atoi s = None \/ (exists n, Atoi s = Some n /\ (n <= 0 \/ 500 < n)) ->
             limitOf s = 100) /\
  (forall f, In f (List now q db) ->
     match fGeometry f with
     | Some point => point = ((-122.4194)%Q, 37.7749%Q) /\ fVenueName f <> None
     | None => fVenueName f = None
     end) /\
  ((length (List.filter (fun e => String.eqb (Event.ModerationState e) "approved")
              (events db)) <= 100)%nat ->
   forall e, In e (events db) -> Event.ModerationState e = "approved" ->
             In (toFeature db e) (List now everything db)).
Proof.
  pose proof (List_rows now q db) as Hin.
  assert (Hlen : (length (List now q db) <= Z.to_nat (limitOf (limit q)))%nat).
  { unfold List. rewrite length_map, length_firstn. lia. }
  pose proof (limitOf_bounds (limit q)) as Hb.
  split; [exact Hin|]. split; [lia|]. split; [intros H; rewrite H in Hlen; lia|].
  split.
  { intros s H. unfold limitOf. destruct (negb _); [|reflexivity].
    destruct H as [-> | (n & -> & Hn)]; [reflexivity|].
    destruct (Z.ltb_spec 0 n), (Z.leb_spec n 500); cbn; lia. }
  split.
  { intros f Hf. destruct (Hin f Hf) as (e & _ & _ & ->).
    unfold toFeature. cbn [fGeometry fVenueName].
    destruct (preloadVenue e db); [split; [reflexivity | discriminate] | reflexivity]. }
  intros Hfew e He Hs. unfold List.
  apply in_map. rewrite listRows_everything.
  change (offsetOf (offset everything)) with 0.
  change (limitOf (limit everything)) with 100.
  change (Z.to_nat 0) with 0%nat. change (Z.to_nat 100) with 100%nat.
  rewrite skipn_O, firstn_all2.
  - apply In_orderByStart, List.filter_In. split; [exact He|]. now apply String.eqb_eq.
  - rewrite length_orderByStart. exact Hfew.
Qed.

(** X22.  Unpublishing hides an Event from the listing, not from the
    reader.  After a successful [Unpublish] no query of [List], at
    any time, returns a feature with the event's id; [Get] with the
    id still answers 200 with the Event, now blocked. *)
Theorem Unpublish_hides_from_List
    (id : UUID) (req : option string) (db : DB) :
  snd (Unpublish (Some id) req db) = 200 ->
  let db' := fst (Unpublish (Some id) req db) in
  (forall now q f, In f (List now q db') -> fID f <> id) /\
  (exists e, Get (Some id) db' = (200, Some e) /\ Event.ID e = id /\
             Event.ModerationState e = "blocked").
Proof.
  intros H200. cbv zeta.
  assert (Hev : events (fst (Unpublish (Some id) req db))
                = map (fun e => if (Event.ID e =? id)%N
                                then Event.withModerationState e "blocked" else e)
                      (events db) /\
                exists x, In x (events db) /\ Event.ID x = id).
  { unfold Unpublish in *. destruct req as [reason|]; [|discriminate].
    destruct (negb _); [discriminate|].
    destruct (Nat.eqb_spec (length (List.filter (fun e => (Event.ID e =? id)%N) (events db))) 0)
      as [H0|H0]; [discriminate|].
    split; [reflexivity|].
    destruct (List.filter _ _) as [|x l] eqn:Hfl; [now cbn in H0|].
    assert (Hin : In x (List.filter (fun e => (Event.ID e =? id)%N) (events db)))
      by (rewrite Hfl; now left).
    apply List.filter_In in Hin as [Hin He]. apply N.eqb_eq in He. eauto. }
  destruct Hev as [Hev (x & Hx & Hid)].
  set (db' := fst (Unpublish (Some id) req db)) in *.
  assert (Hblocked : forall e, In e (events db') -> Event.ID e = id ->
                               Event.ModerationState e = "blocked").
  { intros e He Heid. rewrite Hev in He. apply in_map_iff in He as (y & <- & _).
    destruct (N.eqb_spec (Event.ID y) id) as [Hy|Hy]; [reflexivity|].
    contradiction. }
  split.
  - intros now q f Hf Hfid.
    destruct (List_rows now q db' f Hf) as (e & He & Hs & ->).
    cbn [toFeature fID] in Hfid. rewrite (Hblocked e He Hfid) in Hs. discriminate.
  - unfold Get.
    destruct (find (fun e => (Event.ID e =? id)%N) (events db')) as [e|] eqn:Hfind.
    + apply find_some in Hfind as [He Heid]. apply N.eqb_eq in Heid.
      exists e. split; [reflexivity|]. split; [exact Heid | now apply Hblocked].
    + exfalso. eapply find_none with (x := Event.withModerationState x "blocked") in Hfind.
      * cbn in Hfind. rewrite Hid, N.eqb_refl in Hfind. discriminate.
      * rewrite Hev. apply in_map_iff. exists x. split; [|exact Hx].
        now rewrite Hid, N.eqb_refl.
Qed.

Lemma Unpublish_hides_from_List_witness :
  snd (Unpublish (Some 1%N) (Some "duplicate") publishedStore) = 200 /\
  exists e,
    Get (Some 1%N) (fst (Unpublish (Some 1%N) (Some "duplicate") publishedStore))
      = (200, Some e) /\
    Event.ID e = 1%N /\ Event.ModerationState e = "blocked".
Proof.
  assert (H : snd (Unpublish (Some 1%N) (Some "duplicate") publishedStore) = 200)
    by (vm_compute; reflexivity).
  split; [exact H|].
  exact (proj2 (Unpublish_hides_from_List 1%N (Some "duplicate") publishedStore H)).
Defined.

End Listing.

(* ===================================================================== *)
(** ** The dashboard *)
(* ===================================================================== *)

Section Dashboard.
Import services UploadHandler AdminModeration.
Local Open Scope list_scope.

Lemma length_filter_cons {A} (p : A -> bool) (a : A) (l : list A) :
  Z.of_nat (length (List.filter p (a :: l)))
    = (if p a then 1 else 0) + Z.of_nat (length (List.filter p l)).
Proof. cbn [List.filter]. destruct (p a); cbn [length]; lia. Qed.

Lemma dashboard_counts (l : list EventCandidate.t) :
  let n r := Z.of_nat (length (List.filter
               (fun c => match EventCandidate.PublishResult c with
                         | Some x => String.eqb x r
                         | None => false
                         end) l)) in
  let d s := Z.of_nat (length (List.filter (fun c => String.eqb (displayed c) s) l)) in
  n "published" = d "Published" /\ n "blocked" = d "Blocked" /\
  n "needs_review" = d "Needs Review" /\
  Z.of_nat (length l) - n "published" - n "blocked" - n "needs_review"
    = d "Processing" + d "Processed" + d "Unknown".
Proof.
  cbv zeta. induction l as [|a l (IH1 & IH2 & IH3 & IH4)]; [cbn; lia|].
  rewrite !length_filter_cons. cbn [length]. rewrite Nat2Z.inj_succ.
  repeat match goal with
         | |- context [Z.of_nat (length (List.filter ?p l))] =>
             let n := fresh "n" in set (n := Z.of_nat (length (List.filter p l))) in *;
             clearbody n
         end.
  unfold displayed, getStatusDisplay.
  destruct (EventCandidate.PublishResult a) as [r|];
    [destruct (String.eqb_spec r "published") as [->|];
     [|destruct (String.eqb_spec r "blocked") as [->|];
       [|destruct (String.eqb_spec r "needs_review") as [->|];
         [|destruct (EventCandidate.CompositeScore a)]]]|];
    cbn [fst String.eqb Ascii.eqb Bool.eqb]; lia.
Qed.

(** X23.  The dashboard's figures agree with the statuses it shows.
    The counts of [getAdminStats] for "published", "blocked" and
    "needs_review" are the numbers of candidate rows that
    [getStatusDisplay] shows as Published, Blocked and Needs Review;
    "processing" is the number of all other rows and is never
    negative; the four add up to the total.  A row as the extraction
    stores it is shown as Processing, and a row returned by
    [processEventCandidate] for decodable fields as one of the three
    decisions. *)
Theorem getAdminStats_agrees_with_display (db : DB) :
  let s := getAdminStats db in
  published s = shownAs "Published" db /\
  blocked s = shownAs "Blocked" db /\
  needs_review s = shownAs "Needs Review" db /\
  processing s = shownAs "Processing" db + shownAs "Processed" db + shownAs "Unknown" db /\
  0 <= processing s /\
  total s = published s + blocked s + needs_review s + processing s /\
  (forall c, undecided c -> displayed c = "Processing") /\
  (forall cfg now reply http candidate db0,
     decodable candidate = true ->
     let c' := snd (fst (processEventCandidate cfg now reply http candidate db0)) in
     displayed c' = "Published" \/ displayed c' = "Blocked" \/ displayed c' = "Needs Review").
Proof.
  cbv zeta. unfold getAdminStats, countResult, shownAs.
  cbn [published blocked needs_review processing total].
  destruct (dashboard_counts (event_candidates db)) as (H1 & H2 & H3 & H4).
  split; [exact H1|]. split; [exact H2|]. split; [exact H3|]. split; [exact H4|].
  split; [rewrite H4; lia|]. split; [lia|].
  split.
  - intros c (Hr & _). unfold displayed. now rewrite Hr.
  - intros cfg now reply http candidate db0 Hd. unfold decodable in Hd.
    destruct (EventCandidate.Fields candidate) as [eventData|] eqn:Hf; [|discriminate].
    destruct (processEventCandidate_shape cfg now reply http candidate db0 eventData Hf)
      as (_ & _ & Hres & _).
    unfold displayed. rewrite Hres.
    destruct (decisionRule_cases (config.AutoPublishThreshold cfg)
                (assessed cfg reply eventData)) as [-> | [-> | ->]]; cbn; auto.
Qed.

End Dashboard.

(* ===================================================================== *)
(** ** A flag that is not read *)
(* ===================================================================== *)

Section Flags.
Import services UploadHandler Orchestrator.
Local Open Scope list_scope.

Lemma processEventCandidate_flag cfg flag now reply http candidate db :
  processEventCandidate (withAutoPublishEnabled cfg flag) now reply http candidate db
    = processEventCandidate cfg now reply http candidate db.
Proof. destruct cfg. reflexivity. Qed.

Lemma stage3Loop_flag cfg flag now reply http cs : forall db,
  stage3Loop (withAutoPublishEnabled cfg flag) now reply http cs db
    = stage3Loop cfg now reply http cs db.
Proof.
  induction cs as [|c cs IH]; intros db; cbn [stage3Loop]; [reflexivity|].
  now rewrite processEventCandidate_flag, IH.
Qed.

(** X24.  AUTO_PUBLISH_ENABLED switches nothing off.  The flag is
    loaded into the configuration and read nowhere: with the flag
    false, [processEventCandidate] and the whole of
    [processUploadSync] do what they do with the flag true, so a
    candidate that is appropriate and scores at or above the
    threshold is still published and promoted. *)
Theorem AutoPublishEnabled_is_not_read
    (cfg : config.Config) (flag : bool) (now : time.Time)
    (file : result (list Byte.byte)) (extraction : VisionService.Extraction)
    (reply : EventCandidate.t -> Completion) (http : EventCandidate.t -> Exchange)
    (submissionID : UUID) (st : Store) :
  (forall r h candidate db,
     processEventCandidate (withAutoPublishEnabled cfg flag) now r h candidate db
       = processEventCandidate cfg now r h candidate db) /\
  processUploadSync (withAutoPublishEnabled cfg flag) now file extraction reply http
    submissionID st
  = processUploadSync cfg now file extraction reply http submissionID st /\
  (forall candidate eventData db,
     EventCandidate.Fields candidate = Some eventData ->
     IsAppropriate (assessed cfg (reply candidate) eventData) = true ->
     Qle_bool (config.AutoPublishThreshold cfg)
       (QualityScore (assessed cfg (reply candidate) eventData)) = true ->
     EventCandidate.PublishResult
       (snd (fst (processEventCandidate (withAutoPublishEnabled cfg false) now
                    (reply candidate) (http candidate) candidate db)))
       = Some "published").
Proof.
  split; [intros; apply processEventCandidate_flag|].
  split.
  - rewrite !processUploadSync_eq.
    destruct (VisionService.AnalyzeImage file extraction) as [res|err]; [|reflexivity].
    unfold processStage3. cbn [fst]. now rewrite stage3Loop_flag.
  - intros candidate eventData db Hf Ha Hq. rewrite processEventCandidate_flag.
    destruct (processEventCandidate_shape cfg now (reply candidate) (http candidate)
                candidate db eventData Hf) as (_ & _ & Hres & _).
    rewrite Hres. unfold decisionRule. now rewrite Ha, Hq.
Qed.

End Flags.

(* ===================================================================== *)
(** ** The upload endpoint *)
(* ===================================================================== *)

Section Upload.
Import services vision UploadHandler Orchestrator.
Local Open Scope list_scope.

Lemma AnalyzeImage_Ok_iff data extraction res :
  VisionService.AnalyzeImage (Ok data) extraction = Ok res <->
  Z.of_nat (length data) <= 18 * 1024 * 1024 /\
  VisionService.isValidImageFormat data = true /\
  extraction = VisionService.Content (Some res).
Proof.
  unfold VisionService.AnalyzeImage, VisionService.prepareImage, VisionService.maxSize.
  destruct (Z.ltb_spec (18 * 1024 * 1024) (Z.of_nat (length data))).
  - split; [discriminate | lia].
  - destruct (VisionService.isValidImageFormat data); cbn [negb].
    + destruct extraction as [err| |[r|]]; split; try discriminate.
      * intros (_ & _ & [=]).
      * intros (_ & _ & [=]).
      * intros [= ->]. auto.
      * intros (_ & _ & [= ->]). reflexivity.
      * intros (_ & _ & [=]).
    + split; [discriminate|]. intros (_ & [=] & _).
Qed.

Lemma find_updateSubmissionStatus submissionID status st s :
  find (fun x => (Submission.ID x =? submissionID)%N) (submissions st) = Some s ->
  find (fun x => (Submission.ID x =? submissionID)%N)
       (submissions (updateSubmissionStatus submissionID status st))
    = Some (Submission.withStatus s status).
Proof.
  unfold updateSubmissionStatus. cbn [submissions].
  induction (submissions st) as [|x l IH]; cbn [find map]; [discriminate|].
  destruct (Submission.ID x =? submissionID)%N eqn:He.
  - intros [= ->]. cbn [Submission.withStatus Submission.ID]. now rewrite He.
  - rewrite He. exact IH.
Qed.

Lemma fold_left_count {A} (g : A -> nat) (l : list A) : forall acc,
  fold_left (fun n x => (n + g x)%nat) l acc = (acc + list_sum (map g l))%nat.
Proof.
  induction l as [|a l IH]; intros acc; cbn; [lia|].
  rewrite IH. unfold list_sum. lia.
Qed.

Lemma length_join_cons submissionID f0 F (C : list EventCandidate.t) :
  length (flat_map
            (fun c => map (fun _ : Flyer.t => c)
                        (List.filter (fun f => (Flyer.ID f =? EventCandidate.FlyerID c)%N &&
                                               (Flyer.SubmissionID f =? submissionID)%N)
                                     (f0 :: F))) C)
  = (length (List.filter (fun c => (Flyer.ID f0 =? EventCandidate.FlyerID c)%N &&
                                   (Flyer.SubmissionID f0 =? submissionID)%N) C)
     + length (flat_map
                 (fun c => map (fun _ : Flyer.t => c)
                             (List.filter (fun f => (Flyer.ID f =? EventCandidate.FlyerID c)%N &&
                                                    (Flyer.SubmissionID f =? submissionID)%N)
                                          F)) C))%nat.
Proof.
  induction C as [|c C IH]; [reflexivity|].
  cbn [flat_map]. rewrite !length_app, IH, !length_map. cbn [List.filter].
  destruct (_ && _); cbn [length]; lia.
Qed.

Lemma filter_never {A} (p : A -> bool) (l : list A) :
  (forall x, p x = false) -> List.filter p l = [].
Proof. intros H. induction l as [|a l IH]; cbn; [reflexivity|]. now rewrite H. Qed.

(** [eventsFound] counts the rows of the join of [processStage3]. *)
Lemma eventsFound_join submissionID db :
  fold_left
    (fun eventCount flyer =>
       (eventCount +
        length (List.filter (fun c => (EventCandidate.FlyerID c =? Flyer.ID flyer)%N)
                  (event_candidates db)))%nat)
    (List.filter (fun f => (Flyer.SubmissionID f =? submissionID)%N) (flyers db)) 0%nat
  = length (candidatesOf submissionID db).
Proof.
  rewrite (fold_left_count
             (fun flyer => length (List.filter
                (fun c => (EventCandidate.FlyerID c =? Flyer.ID flyer)%N)
                (event_candidates db)))).
  unfold candidatesOf. cbn [Nat.add].
  induction (flyers db) as [|f0 F IH].
  - cbn. induction (event_candidates db) as [|c C IHc]; [reflexivity | exact IHc].
  - rewrite length_join_cons, <- IH. cbn [List.filter].
    destruct (Flyer.SubmissionID f0 =? submissionID)%N.
    + cbn [map].
      match goal with |- context [list_sum (?x :: ?r)] =>
        change (list_sum (x :: r)) with (x + list_sum r)%nat end.
      f_equal. f_equal. apply List.filter_ext. intros c.
      now rewrite andb_true_r, N.eqb_sym.
    + rewrite (filter_never
                 (fun c => (Flyer.ID f0 =? EventCandidate.FlyerID c)%N && false));
        [reflexivity|]. intros c. apply andb_false_r.
Qed.

(** X25.  The answers of [UploadFile].  With a store that answers
    every statement, it answers 200 exactly when the id parses and
    names a submission, the form holds a file of at
    most 12 MiB, the file is saved, it passes the format check, and
    the extraction returns a result that decodes; the body then
    reports the status "done", as [flyersFound] the flyer rows of the
    submission and as [eventsFound] the rows Stage 3 reads for it, so
    both include the rows of earlier runs.  A 400 or 404 leaves the
    store untouched.  And since no file above 12 MiB gets through, the
    18 MiB check of [prepareImage] never fires on an uploaded file. *)
Theorem UploadFile_answers
    (cfg : config.Config) (now : time.Time)
    (submissionID : option UUID) (formFile : option (list Byte.byte))
    (saved : result unit) (extraction : VisionService.Extraction)
    (reply : EventCandidate.t -> Completion) (http : EventCandidate.t -> Exchange)
    (st : Store) :
  let out := UploadFile cfg now submissionID formFile saved extraction reply http st in
  let code := snd (fst out) in
  (code = 200 <->
   exists id data res,
     submissionID = Some id /\ statusOf id st <> None /\ formFile = Some data /\
     Z.of_nat (length data) <= 12 * 1024 * 1024 /\ saved = Ok tt /\
     VisionService.isValidImageFormat data = true /\
     extraction = VisionService.Content (Some res)) /\
  (code = 200 \/ code = 400 \/ code = 404 \/ code = 500) /\
  (code = 400 \/ code = 404 -> fst (fst out) = st) /\
  (forall id, submissionID = Some id -> code = 200 ->
     snd out = Some ("done",
                     length (candidatesOf id (tables (fst (fst out)))),
                     length (List.filter (fun f => (Flyer.SubmissionID f =? id)%N)
                               (flyers (tables (fst (fst out))))))) /\
  (forall data, formFile = Some data -> code = 200 \/ code = 500 ->
     VisionService.prepareImage (Ok data)
       = if VisionService.isValidImageFormat data then Ok data
         else Err "unsupported image format").
Proof.
  cbv zeta. unfold UploadFile.
  destruct submissionID as [id|].
  2:{ cbn [fst snd]. split; [split; [discriminate | intros (? & ? & ? & [=] & _)]|].
      split; [auto|]. split; [auto|]. split; [intros ? [=]|].
      intros data _ [H|H]; discriminate. }
  destruct (find (fun s => (Submission.ID s =? id)%N) (submissions st)) as [s|] eqn:Hfind.
  2:{ cbn [fst snd]. split; [split; [discriminate|]|].
      { intros (id' & ? & ? & [= <-] & Hs & _). unfold statusOf in Hs.
        rewrite Hfind in Hs. exfalso. now apply Hs. }
      split; [auto|]. split; [auto|]. split; [intros ? _ [=]|].
      intros data _ [H|H]; discriminate. }
  assert (Hstatus : statusOf id st <> None) by (unfold statusOf; now rewrite Hfind).
  destruct formFile as [data|].
  2:{ cbn [fst snd]. split; [split; [discriminate | intros (? & ? & ? & _ & _ & [=] & _)]|].
      split; [auto|]. split; [auto|]. split; [intros ? _ [=]|]. intros data [=]. }
  destruct (Z.ltb_spec (12 * 1024 * 1024) (Z.of_nat (length data))) as [Hbig|Hsize].
  { cbn [fst snd]. split; [split; [discriminate|]|].
    { intros (? & d & ? & _ & _ & [= <-] & Hl & _). lia. }
    split; [auto|]. split; [auto|]. split; [intros ? _ [=]|].
    intros d _ [H|H]; discriminate. }
  assert (Hprep : VisionService.prepareImage (Ok data)
                  = if VisionService.isValidImageFormat data then Ok data
                    else Err "unsupported image format").
  { unfold VisionService.prepareImage, VisionService.maxSize.
    destruct (Z.ltb_spec (18 * 1024 * 1024) (Z.of_nat (length data))); [lia|].
    destruct (VisionService.isValidImageFormat data); reflexivity. }
  destruct saved as [[]|e].
  2:{ cbn [fst snd]. split; [split; [discriminate | intros (? & ? & ? & _ & _ & _ & _ & [=] & _)]|].
      split; [auto|]. split; [intros [H|H]; discriminate|]. split; [intros ? _ [=]|].
      intros d [= <-] _. exact Hprep. }
  rewrite processUploadSync_eq.
  pose proof (AnalyzeImage_Ok_iff data extraction) as Hok.
  destruct (VisionService.AnalyzeImage (Ok data) extraction) as [res|err].
  - destruct (proj1 (Hok res) eq_refl) as (_ & Hvalid & Hext).
    cbn [submissions tables].
    rewrite (find_updateSubmissionStatus id "done" st s Hfind). cbn [fst snd].
    split; [split; [intros _|reflexivity]|].
    { exists id, data, res. auto 10. }
    split; [auto|]. split; [intros [H|H]; discriminate|].
    split; [|intros d [= <-] _; exact Hprep].
    intros id' [= <-] _. rewrite eventsFound_join. reflexivity.
  - cbn [fst snd]. split; [split; [discriminate|]|].
    { intros (? & d & res & _ & _ & [= <-] & _ & _ & Hv & He).
      assert (Hc : Err err = Ok res); [|discriminate].
      apply Hok. split; [lia|]. auto. }
    split; [auto|]. split; [intros [H|H]; discriminate|]. split; [intros ? _ [=]|].
    intros d [= <-] _. exact Hprep.
Qed.

End Upload.

(* ===================================================================== *)
(** ** When a venue row is written *)
(* ===================================================================== *)

Section VenueRows.
Import services UploadHandler.
Local Open Scope list_scope.




End VenueRows.

(* ===================================================================== *)
(** ** The same corners in binary64 *)
(* ===================================================================== *)

Section Binary64Further.
Import PrimFloat.
#[local] Set Warnings "-inexact-float".

(** In binary64, as above: the heuristic score without a date,
    summed from left to right, does not exceed 0.90; the stub's
    confidences 0.7 and 0.8 lie on the two sides of the default
    threshold 0.75; the stub's coordinates are within the bounds of
    [ValidateCoordinates]. *)
Example binary64_further_corners :
  (leb (0.75 + 0.1 + 0.05) 0.90 = true /\
   leb 0.75 0.7 = false /\ leb 0.75 0.8 = true /\ ltb 0.7 0.75 = true /\
   leb (-90) 37.7749 = true /\ leb 47.6062 90 = true /\
   leb (-180) (-122.4194) = true /\ leb (-74.0060) 180 = true)%float.
Proof. repeat split; reflexivity. Qed.

End Binary64Further.

(* ===================================================================== *)
(** ** Requesting an upload, then uploading *)
(* ===================================================================== *)

Section SignedURL.
Import services Orchestrator.
Local Open Scope list_scope.


End SignedURL.

(* ===================================================================== *)
(** ** The calendar file *)
(* ===================================================================== *)

Section Calendar.
Import services EventHandler.
Local Open Scope list_scope.

Lemma string_append_assoc (a b c : string) :
  ((a ++ b) ++ c)%string = (a ++ (b ++ c))%string.
Proof.
  induction a as [|x a IH]; [now rewrite !append_nil|].
  rewrite !append_cons. now rewrite IH.
Qed.

Lemma lineBreaks_app (a b : string) :
  lineBreaks (a ++ b)%string = (lineBreaks a + lineBreaks b)%nat.
Proof.
  induction a as [|c a IH]; [now rewrite append_nil|].
  rewrite append_cons. cbn [lineBreaks]. rewrite IH. lia.
Qed.

Lemma lineBreaks_escapeCommas s : lineBreaks (escapeCommas s) = lineBreaks s.
Proof.
  induction s as [|c s IH]; [reflexivity|]. cbn [escapeCommas].
  destruct (Ascii.eqb_spec c ","); [subst|]; cbn [lineBreaks]; rewrite IH; reflexivity.
Qed.

Lemma lineBreaks_uint u : lineBreaks (DecimalString.NilEmpty.string_of_uint u) = 0%nat.
Proof. induction u; cbn; auto. Qed.

Lemma lineBreaks_digits n : lineBreaks (time.digits n) = 0%nat.
Proof.
  unfold time.digits, DecimalString.NilZero.string_of_uint.
  destruct (N.to_uint (Z.to_N n)); try reflexivity; apply (lineBreaks_uint (_ _)).
Qed.

Lemma lineBreaks_zeros n : lineBreaks (time.zeros n) = 0%nat.
Proof. induction n; cbn; auto. Qed.

Lemma lineBreaks_appendInt x w : lineBreaks (time.appendInt x w) = 0%nat.
Proof.
  unfold time.appendInt. rewrite !lineBreaks_app, lineBreaks_zeros, lineBreaks_digits.
  destruct (x <? 0); reflexivity.
Qed.

Lemma lineBreaks_FormatICS t : lineBreaks (FormatICS t) = 0%nat.
Proof.
  unfold FormatICS. destruct (time.DateOf _) as [[y m] d].
  rewrite !lineBreaks_app, !lineBreaks_appendInt. reflexivity.
Qed.

Lemma find_by_ID_map (f : Event.t -> Event.t) id l :
  (forall e, Event.ID (f e) = Event.ID e) ->
  find (fun e => (Event.ID e =? id)%N) (map f l)
    = f <$> find (fun e => (Event.ID e =? id)%N) l.
Proof.
  intros Hf. induction l as [|x l IH]; cbn; [reflexivity|].
  rewrite Hf. destruct (Event.ID x =? id)%N; [reflexivity | exact IH].
Qed.

(** X28.  The calendar file.  [GetICS] answers 200 for every stored
    Event, whatever its moderation state, so also for one that was
    unpublished.  Commas are the only characters it escapes: the
    text has its fifteen lines exactly when none of the product id,
    the id, the domain, the title, the description, the venue's name
    and address line and the URL holds a line break, and every line
    break in one of them adds a line to the calendar.  An Event
    without end time ends two hours after its start. *)
Theorem GetICS_lines
    (prodID uidDomain : string) (str : UUID -> string) (eventID : option UUID) (db : DB) :
  let out := GetICS prodID uidDomain str eventID db in
  (fst out = 200 <-> exists id e, eventID = Some id /\ In e (events db) /\ Event.ID e = id) /\
  (forall id req, eventID = Some id -> snd (Unpublish (Some id) req db) = 200 ->
     fst (GetICS prodID uidDomain str eventID (fst (Unpublish (Some id) req db))) = 200) /\
  (forall id e ics,
     eventID = Some id ->
     find (fun x => (Event.ID x =? id)%N) (events db) = Some e ->
     snd out = Some ics ->
     lineBreaks ics =
       (14 + lineBreaks prodID + lineBreaks (str (Event.ID e)) + lineBreaks uidDomain +
        lineBreaks (Event.Title e) + lineBreaks (default "" (Event.Description e)) +
        match preloadVenue e db with
        | Some v => lineBreaks (Venue.Name v) + lineBreaks (default "" (Venue.AddressLine v))
        | None => 0
        end +
        lineBreaks (default "" (Event.URL e)))%nat /\
     (Event.EndTs e = None ->
      exists before after,
        ics = (before ++ "DTSTART:" ++ FormatICS (Event.StartTs e) ++ newline ++
               "DTEND:" ++ FormatICS (time.Add (Event.StartTs e) (2 * time.Hour)) ++
               newline ++ after)%string)).
Proof.
  cbv zeta. split; [|split].
  - unfold GetICS. destruct eventID as [id|]; [|split; [discriminate | intros (? & ? & [=] & _)]].
    destruct (find _ (events db)) as [e|] eqn:Hf; cbn [fst].
    + split; [intros _|reflexivity]. apply find_some in Hf as [Hin Hid].
      apply N.eqb_eq in Hid. eauto.
    + split; [discriminate|]. intros (id' & e & [= <-] & Hin & Hid).
      eapply find_none in Hf; [|exact Hin]. cbn beta in Hf.
      rewrite Hid, N.eqb_refl in Hf. discriminate.
  - intros id req -> H200. unfold GetICS.
    assert (Hev : exists x,
              find (fun e => (Event.ID e =? id)%N)
                   (events (fst (Unpublish (Some id) req db))) = Some x).
    { unfold Unpublish in *. destruct req as [reason|]; [|discriminate].
      destruct (negb _); [discriminate|].
      destruct (Nat.eqb_spec (length (List.filter (fun e => (Event.ID e =? id)%N) (events db))) 0)
        as [H0|H0]; [discriminate|].
      cbn [fst events].
      rewrite (find_by_ID_map
                 (fun e => if (Event.ID e =? id)%N
                           then Event.withModerationState e "blocked" else e)).
      - destruct (find _ (events db)) as [x|] eqn:Hfind; [cbn; eauto|].
        exfalso. apply H0. apply filter_length_zero. intros y Hy.
        eapply find_none in Hfind; eauto.
      - intros e. destruct (_ =? _)%N; reflexivity. }
    destruct Hev as [x ->]. reflexivity.
  - intros id e ics -> Hfind. unfold GetICS. rewrite Hfind. cbn [snd].
    intros [= <-]. split.
    + rewrite !lineBreaks_app, !lineBreaks_FormatICS, !lineBreaks_escapeCommas.
      assert (Hend : lineBreaks
                (match Event.EndTs e with
                 | Some endTs => FormatICS endTs
                 | None => FormatICS (time.Add (Event.StartTs e) (2 * time.Hour))
                 end) = 0%nat)
        by (destruct (Event.EndTs e); apply lineBreaks_FormatICS).
      assert (Hdesc : lineBreaks
                (match Event.Description e with
                 | Some description => escapeCommas description
                 | None => ""
                 end) = lineBreaks (default "" (Event.Description e)))
        by (destruct (Event.Description e); [apply lineBreaks_escapeCommas | reflexivity]).
      assert (Hurl : lineBreaks
                (match Event.URL e with Some url => url | None => "" end)
                = lineBreaks (default "" (Event.URL e)))
        by (destruct (Event.URL e); reflexivity).
      assert (Hloc : lineBreaks
                (match preloadVenue e db with
                 | Some v =>
                     escapeCommas
                       (match Venue.AddressLine v with
                        | Some addressLine => (Venue.Name v ++ ", " ++ addressLine)%string
                        | None => Venue.Name v
                        end)
                 | None => ""
                 end)
                = match preloadVenue e db with
                  | Some v => (lineBreaks (Venue.Name v) +
                               lineBreaks (default "" (Venue.AddressLine v)))%nat
                  | None => 0%nat
                  end).
      { destruct (preloadVenue e db) as [v|]; [|reflexivity].
        rewrite lineBreaks_escapeCommas.
        destruct (Venue.AddressLine v) as [a|];
          [change (default "" (Some a)) with a | change (default "" (@None string)) with ""];
          rewrite ?lineBreaks_app; cbn; lia. }
      rewrite Hend, Hdesc, Hurl, Hloc.
      change (lineBreaks newline) with 1%nat.
      change (lineBreaks "BEGIN:VCALENDAR") with 0%nat.
      change (lineBreaks "VERSION:2.0") with 0%nat.
      change (lineBreaks "PRODID:") with 0%nat.
      change (lineBreaks "METHOD:PUBLISH") with 0%nat.
      change (lineBreaks "BEGIN:VEVENT") with 0%nat.
      change (lineBreaks "UID:evt_") with 0%nat.
      change (lineBreaks "@") with 0%nat.
      change (lineBreaks "DTSTART:") with 0%nat.
      change (lineBreaks "DTEND:") with 0%nat.
      change (lineBreaks "SUMMARY:") with 0%nat.
      change (lineBreaks "DESCRIPTION:") with 0%nat.
      change (lineBreaks "LOCATION:") with 0%nat.
      change (lineBreaks "URL:") with 0%nat.
      change (lineBreaks "STATUS:CONFIRMED") with 0%nat.
      change (lineBreaks "END:VEVENT") with 0%nat.
      change (lineBreaks "END:VCALENDAR") with 0%nat.
      lia.
    + intros Hend. rewrite Hend.
      exists ("BEGIN:VCALENDAR" ++ newline ++ "VERSION:2.0" ++ newline ++
              "PRODID:" ++ prodID ++ newline ++ "METHOD:PUBLISH" ++ newline ++
              "BEGIN:VEVENT" ++ newline ++
              "UID:evt_" ++ str (Event.ID e) ++ "@" ++ uidDomain ++ newline)%string.
      eexists. rewrite !string_append_assoc. reflexivity.
Qed.

End Calendar.
